(** * Child-care monitoring dashboard: ingestion and scoring pipeline

    A shallow embedding of [app.py]: the workbook loader [load_data], the
    scorer [calculate_score], the tier function [get_classification], the
    cell styling [style_practices] and the body of the page script (scoring,
    side-bar filters, overview figures, detail table).

    pandas objects are modelled by what the program observes of them:
    - a cell is a tagged value ([NaN] and [NaT] are the two null values);
    - a [DataFrame] is a list of column labels and a list of rows;
    - a [Series] obtained from a row is the list of (label, cell) pairs.
    The row index of a frame is not modelled: rows are identified by their
    position.  Python [str] values are [string]s whose characters are read
    as code points below 256.  Numbers are exact rationals: rounding of
    floating point arithmetic is not part of the model. *)

From Stdlib Require Import Ascii QArith Lqa.
From stdpp Require Import base option list strings gmap.

Local Open Scope string_scope.
Local Open Scope list_scope.

(** ** Cells *)

Inductive Cell : Type :=
| NaN
| NaT
| Str (s : string)
| Num (x : Q)
| Bool (b : bool)
| Timestamp (t : Z).

#[global] Instance Q_eq_dec : EqDecision Q.
Proof. solve_decision. Defined.

#[global] Instance Cell_eq_dec : EqDecision Cell.
Proof. solve_decision. Defined.

(** [pd.isna] / [pd.notna] on a scalar. *)
Definition isna (c : Cell) : bool :=
  match c with
  | NaN | NaT => true
  | _ => false
  end.

Definition notna (c : Cell) : bool := negb (isna c).

(** [val == 'OK'] and friends: a cell equals a string literal only when it
    is a string with the very same characters. *)
Definition cell_eq_str (c : Cell) (lit : string) : bool :=
  match c with
  | Str s => String.eqb s lit
  | _ => false
  end.

(** ** [str.strip] *)

Module PyStr.

(** [str.isspace] on one character, for code points below 256. *)
Definition isspace (c : ascii) : bool :=
  let n := nat_of_ascii c in
  ((9 <=? n)%nat && (n <=? 13)%nat) || ((28 <=? n)%nat && (n <=? 32)%nat)
  || (n =? 133)%nat || (n =? 160)%nat.

Fixpoint lstrip (s : string) : string :=
  match s with
  | EmptyString => EmptyString
  | String c s' => if isspace c then lstrip s' else s
  end.

Fixpoint rstrip (s : string) : string :=
  match s with
  | EmptyString => EmptyString
  | String c s' =>
      match rstrip s' with
      | EmptyString => if isspace c then EmptyString else String c EmptyString
      | t => String c t
      end
  end.

Definition strip (s : string) : string := rstrip (lstrip s).

(** Every character of [s] is white space. *)
Fixpoint all_space (s : string) : bool :=
  match s with
  | EmptyString => true
  | String c s' => isspace c && all_space s'
  end.

Definition first_char (s : string) : option ascii :=
  match s with
  | EmptyString => None
  | String c _ => Some c
  end.

Fixpoint last_char (s : string) : option ascii :=
  match s with
  | EmptyString => None
  | String c EmptyString => Some c
  | String _ s' => last_char s'
  end.

End PyStr.

(** ** Data frames *)

Record DataFrame : Type := mkDF {
  columns : list string;
  data : list (list Cell)
}.

(** A row viewed as a labelled [Series] (what [df.apply(f, axis=1)] hands
    to [f]). *)
Definition Series : Type := list (string * Cell).

Inductive Exn : Type :=
| ExcelError (msg : string)
| ValueError
| KeyError (label : string).

(** Position of the first column carrying [label]. *)
Fixpoint index_of (label : string) (cols : list string) : option nat :=
  match cols with
  | [] => None
  | c :: cols' =>
      if String.eqb c label then Some 0
      else option_map S (index_of label cols')
  end.

(** Cell of a row at a position; a missing position reads as [NaN]. *)
Definition cell_at (j : nat) (row : list Cell) : Cell := nth j row NaN.

(** Keep the entries of [l] whose flag in [mask] is set. *)
Fixpoint select {A : Type} (mask : list bool) (l : list A) : list A :=
  match mask, l with
  | b :: mask', x :: l' => if b then x :: select mask' l' else select mask' l'
  | _, _ => []
  end.

(** Flags of the columns that have at least one non-null value. *)
Definition column_mask (df : DataFrame) : list bool :=
  map (fun j => existsb (fun row => notna (cell_at j row)) (data df))
      (seq 0 (length (columns df))).

(** [df.dropna(axis=1, how='all')] *)
Definition dropna_axis1_all (df : DataFrame) : DataFrame :=
  let mask := column_mask df in
  {| columns := select mask (columns df);
     data := map (select mask) (data df) |}.

(** [df.iloc[:, :n]] *)
Definition iloc_cols (n : nat) (df : DataFrame) : DataFrame :=
  {| columns := firstn n (columns df);
     data := map (firstn n) (data df) |}.

(** [df.columns = names]; a length mismatch raises [ValueError]. *)
Definition set_columns (names : list string) (df : DataFrame) : Exn + DataFrame :=
  if (length names =? length (columns df))%nat
  then inr {| columns := names; data := data df |}
  else inl ValueError.

(** [df[label] = v] for a scalar [v]: overwrite the column when the label
    exists, append a new last column otherwise. *)
Definition setitem_scalar (label : string) (v : Cell) (df : DataFrame) : DataFrame :=
  match index_of label (columns df) with
  | Some j => {| columns := columns df; data := map (fun row => <[j := v]> row) (data df) |}
  | None => {| columns := columns df ++ [label];
               data := map (fun row => row ++ [v]) (data df) |}
  end.

(** [df[label]] as the list of its values. *)
Definition getitem (label : string) (df : DataFrame) : Exn + list Cell :=
  match index_of label (columns df) with
  | Some j => inr (map (cell_at j) (data df))
  | None => inl (KeyError label)
  end.

(** [df[label] = values] for a series aligned on the row positions; a row
    without a value gets [NaN]. *)
Definition setitem_series (label : string) (vals : list Cell) (df : DataFrame) : DataFrame :=
  match index_of label (columns df) with
  | Some j => {| columns := columns df;
                 data := imap (fun k row => <[j := nth k vals NaN]> row) (data df) |}
  | None => {| columns := columns df ++ [label];
               data := imap (fun k row => row ++ [nth k vals NaN]) (data df) |}
  end.

(** Positions of the labels of a subset, or the first missing label. *)
Fixpoint indices_of (labels : list string) (cols : list string) : Exn + list nat :=
  match labels with
  | [] => inr []
  | l :: labels' =>
      match index_of l cols with
      | None => inl (KeyError l)
      | Some j =>
          match indices_of labels' cols with
          | inl e => inl e
          | inr js => inr (j :: js)
          end
      end
  end.

(** [df.dropna(subset=labels)]: keep the rows that are non-null at every
    label of the subset. *)
Definition dropna_subset (labels : list string) (df : DataFrame) : Exn + DataFrame :=
  match indices_of labels (columns df) with
  | inl e => inl e
  | inr js =>
      inr {| columns := columns df;
             data := List.filter (fun row => forallb (fun j => notna (cell_at j row)) js)
                                 (data df) |}
  end.

(** [pd.concat(dfs, ignore_index=True)] for frames that carry the same
    column labels in the same order (the only use in the program: by
    [for_sheets_spec] every collected frame carries [schema]); an empty
    list raises [ValueError]. *)
Definition concat_frames (dfs : list DataFrame) : Exn + DataFrame :=
  match dfs with
  | [] => inl ValueError
  | df0 :: _ => inr {| columns := columns df0; data := concat (map data dfs) |}
  end.

(** The rows of a frame as labelled series. *)
Definition iterrows (df : DataFrame) : list Series :=
  map (fun row => combine (columns df) row) (data df).

(** ** Diagnostics and the effect monad

    [load_data] reports through [st.error] / [st.warning] and may raise.  A
    computation therefore yields the list of messages it displayed together
    with either an exception or a value. *)

Inductive Diagnostic : Type :=
| st_error_file_not_found (file_path : string)
| st_warning_no_sheets
| st_warning_sheet_ignored (unit_name : string)
| st_error_read_failed (file_path : string) (e : Exn).

Definition M (A : Type) : Type := (Exn + A) * list Diagnostic.

#[global] Instance M_ret : MRet M := fun A a => (inr a, []).

#[global] Instance M_bind : MBind M := fun A B f m =>
  match m with
  | (inl e, w) => (inl e, w)
  | (inr a, w) => let '(r, w') := f a in (r, w ++ w')
  end.

Definition lift {A : Type} (r : Exn + A) : M A := (r, []).

Definition emit (d : Diagnostic) : M unit := (inr tt, [d]).

(** [try: m except Exception as e: h e] *)
Definition try_except {A : Type} (m : M A) (h : Exn -> M A) : M A :=
  match m with
  | (inl e, w) => let '(r, w') := h e in (r, w ++ w')
  | (inr a, w) => (inr a, w)
  end.

(** ** The environment of [load_data]

    What the loader obtains from outside the program: the file system
    test, the workbook reader (called with [sheet_name=None, skiprows=3,
    header=0], so it yields the sheets in workbook order, each already cut
    down to its header and data rows) and the date parser (called with
    [errors='coerce'], so every position yields a time stamp or nothing). *)

Record Env : Type := {
  os_path_exists : string -> bool;
  pd_read_excel : string -> Exn + list (string * DataFrame);
  pd_to_datetime : list Cell -> list (option Z)
}.

(** A parse result as a cell of the date column. *)
Definition coerce (r : option Z) : Cell :=
  match r with
  | Some t => Timestamp t
  | None => NaT
  end.

(** ** [load_data] *)

Definition column_names : list string :=
  [ "Nome"; "DN"; "Data_1_Puericultura"; "Dias_1_Puericultura"; "A";
    "Qtd_Puericultura"; "B"; "Qtd_Peso_Altura"; "C";
    "Data_1_Visita_ACS"; "Dias_1_Visita_ACS"; "Data_2_Visita_ACS";
    "Dias_2_Visita_ACS"; "D"; "E" ].

(** Body of the loop over [all_sheets.items()]. *)
Definition sheet_step (unit_name : string) (df : DataFrame)
    (list_of_dfs : list DataFrame) : M (list DataFrame) :=
  let df := dropna_axis1_all df in
  if (length column_names <=? length (columns df))%nat then
    let df := iloc_cols (length column_names) df in
    df ← lift (set_columns column_names df);
    let df := setitem_scalar "Unidade" (Str (PyStr.strip unit_name)) df in
    mret (list_of_dfs ++ [df])
  else
    emit (st_warning_sheet_ignored unit_name);;
    mret list_of_dfs.

Fixpoint for_sheets (items : list (string * DataFrame))
    (list_of_dfs : list DataFrame) : M (list DataFrame) :=
  match items with
  | [] => mret list_of_dfs
  | (unit_name, df) :: items' =>
      list_of_dfs ← sheet_step unit_name df list_of_dfs;
      for_sheets items' list_of_dfs
  end.

Section Loader.

Variable env : Env.

(** The [try] block: [inl v] when the function returned [v] from inside
    it, [inr list_of_dfs] when control reaches the statement after it. *)
Definition try_block (file_path : string) : M (option DataFrame + list DataFrame) :=
  try_except
    (all_sheets ← lift (pd_read_excel env file_path);
     match all_sheets with
     | [] =>
         emit st_warning_no_sheets;;
         mret (inl None)
     | _ =>
         list_of_dfs ← for_sheets all_sheets [];
         mret (inr list_of_dfs)
     end)
    (fun e =>
       emit (st_error_read_failed file_path e);;
       mret (inl None)).

Definition load_data (file_path : string) : M (option DataFrame) :=
  if negb (os_path_exists env file_path) then
    emit (st_error_file_not_found file_path);;
    mret None
  else
    r ← try_block file_path;
    match r with
    | inl v => mret v
    | inr [] => mret None
    | inr list_of_dfs =>
        combined_df ← lift (concat_frames list_of_dfs);
        combined_df ← lift (dropna_subset ["Nome"; "DN"] combined_df);
        dn ← lift (getitem "DN" combined_df);
        let combined_df :=
          setitem_series "DN" (map coerce (pd_to_datetime env dn)) combined_df in
        mret (Some combined_df)
    end.

(** [@st.cache_data]: results are memoised on the argument; a hit returns
    the stored value and shows the stored messages again without running
    the function, a call that raises stores nothing. *)
Definition load_data_cached (file_path : string)
    (cache : gmap string (option DataFrame * list Diagnostic))
  : M (option DataFrame) * gmap string (option DataFrame * list Diagnostic) :=
  match cache !! file_path with
  | Some (v, msgs) => ((inr v, msgs), cache)
  | None =>
      match load_data file_path with
      | (inr v, msgs) => ((inr v, msgs), <[file_path := (v, msgs)]> cache)
      | (inl e, msgs) => ((inl e, msgs), cache)
      end
  end.

End Loader.

(** ** Scorer *)

Definition indicadores : list string := ["A"; "B"; "C"; "D"; "E"].

(** [row[label]] on a row whose labels are all different, as the labels
    of every frame of the program are ([schema_NoDup]): the value under
    the label, [KeyError] when there is none.  A row with a repeated label
    is outside the model (pandas answers with a sub-series there). *)
Fixpoint series_get (row : Series) (label : string) : Exn + Cell :=
  match row with
  | [] => inl (KeyError label)
  | (l, v) :: row' => if String.eqb l label then inr v else series_get row' label
  end.

(** The [for indicador in indicadores] loop with its accumulator. *)
Fixpoint score_loop (row : Series) (inds : list string) (score : Z) : Exn + Z :=
  match inds with
  | [] => inr score
  | indicador :: inds' =>
      match series_get row indicador with
      | inl e => inl e
      | inr v =>
          score_loop row inds'
            (if cell_eq_str v "OK" then (score + 20)%Z else score)
      end
  end.

Definition calculate_score (row : Series) : Exn + Z := score_loop row indicadores 0%Z.

(** The four return values of [get_classification], in the order of its
    branches. *)
Inductive Classificacao : Type := Otimo | Bom | Suficiente | Regular.

Definition Qlt_bool (x y : Q) : bool := negb (Qle_bool y x).

(** The argument is an integer score (line 127) or a mean of scores
    (line 168); both are rationals. *)
Definition get_classification (score : Q) : Classificacao :=
  if Qlt_bool 75 score && Qle_bool score 100 then Otimo
  else if Qlt_bool 50 score && Qle_bool score 75 then Bom
  else if Qlt_bool 25 score && Qle_bool score 50 then Suficiente
  else Regular.

(** ** Conformity per practice (dashboard body, second chart) *)

(** [.sum()] of a boolean series. *)
Definition sum_bool (l : list bool) : Z :=
  fold_left (fun acc (b : bool) => if b then (acc + 1)%Z else acc) l 0%Z.

Definition compliance (ind : string) (df_filtered : DataFrame) : Exn + Q :=
  match getitem ind df_filtered with
  | inl e => inl e
  | inr col =>
      let ok_count := sum_bool (map (fun c => cell_eq_str c "OK") col) in
      let total_count := sum_bool (map notna col) in
      inr (if (0 <? total_count)%Z
           then (inject_Z ok_count / inject_Z total_count) * 100
           else 0)%Q
  end.

(** The list [compliance_data], one entry per practice. *)
Fixpoint compliance_data (inds : list string) (df_filtered : DataFrame)
    : Exn + list (string * Q) :=
  match inds with
  | [] => inr []
  | ind :: inds' =>
      match compliance ind df_filtered with
      | inl e => inl e
      | inr c =>
          match compliance_data inds' df_filtered with
          | inl e => inl e
          | inr rest => inr ((ind, c) :: rest)
          end
      end
  end.

(** ** Declarative description of the loader

    The same pipeline, said per sheet and without the loop state: which
    sheets pass the width gate, what an accepted sheet contributes, which
    rows survive the required-field filter.  The theorems below relate
    [load_data] to these. *)

Definition schema : list string := column_names ++ ["Unidade"].

(** The sheet keeps at least 15 columns once its empty columns are gone. *)
Definition sheet_accepted (item : string * DataFrame) : bool :=
  (15 <=? length (columns (dropna_axis1_all item.2)))%nat.

(** Rows of a sheet cut to the first 15 remaining columns and tagged with
    the stripped sheet name. *)
Definition tagged_rows (item : string * DataFrame) : list (list Cell) :=
  map (fun row => firstn 15 row ++ [Str (PyStr.strip item.1)])
      (data (dropna_axis1_all item.2)).

Definition normalized_frame (item : string * DataFrame) : DataFrame :=
  {| columns := schema; data := tagged_rows item |}.

Definition accepted_frames (items : list (string * DataFrame)) : list DataFrame :=
  map normalized_frame (List.filter sheet_accepted items).

Definition skipped_warnings (items : list (string * DataFrame)) : list Diagnostic :=
  map (fun item => st_warning_sheet_ignored item.1)
      (List.filter (fun item => negb (sheet_accepted item)) items).

(** Name (position 0) and birth date (position 1) are both non-null. *)
Definition required_present (row : list Cell) : bool :=
  notna (cell_at 0 row) && notna (cell_at 1 row).

(** Rows of all accepted sheets, in workbook order, before filtering. *)
Definition combined_rows (items : list (string * DataFrame)) : list (list Cell) :=
  concat (map tagged_rows (List.filter sheet_accepted items)).

Definition kept_rows (items : list (string * DataFrame)) : list (list Cell) :=
  List.filter required_present (combined_rows items).

(** The sheets a run of the loader accepts; none when the file is missing
    or unreadable. *)
Definition accepted_sheets (env : Env) (file_path : string) : list (string * DataFrame) :=
  if os_path_exists env file_path then
    match pd_read_excel env file_path with
    | inr items => List.filter sheet_accepted items
    | inl _ => []
    end
  else [].

(** Every row has one cell per column. *)
Definition rectangular (df : DataFrame) : Prop :=
  Forall (fun row => length row = length (columns df)) (data df).

(** The birth-date column after [pd.to_datetime(..., errors='coerce')] has
    been assigned back. *)
Definition dated_rows (env : Env) (rows : list (list Cell)) : list (list Cell) :=
  imap (fun k row =>
          <[1%nat := nth k (map coerce (pd_to_datetime env (map (cell_at 1) rows))) NaN]> row)
       rows.

Definition loaded_frame (env : Env) (items : list (string * DataFrame)) : option DataFrame :=
  match List.filter sheet_accepted items with
  | [] => None
  | _ => Some {| columns := schema; data := dated_rows env (kept_rows items) |}
  end.

(** ** Counts used by the scorer properties *)

(** Number of cells that are exactly the string ["OK"]. *)
Definition ok_count (cells : list Cell) : nat :=
  length (filter (fun c => c = Str "OK") cells).

(** Number of cells that hold a value. *)
Definition present_count (cells : list Cell) : nat :=
  length (filter (fun c => ~ (c = NaN \/ c = NaT)) cells).

(** [t] is [s] without its leading and trailing white space. *)
Definition stripped_of (s t : string) : Prop :=
  (exists l r : string,
      s = l +:+ t +:+ r
      /\ PyStr.all_space l = true /\ PyStr.all_space r = true)
  /\ (forall c, PyStr.first_char t = Some c -> PyStr.isspace c = false)
  /\ (forall c, PyStr.last_char t = Some c -> PyStr.isspace c = false).

(** ** Sample workbooks *)

Module Samples.

(** Header labels as a workbook might carry them; they are replaced by
    [column_names] during ingestion. *)
Definition raw_header : list string :=
  [ "Crianca"; "Nascimento"; "c3"; "c4"; "c5"; "c6"; "c7"; "c8"; "c9";
    "c10"; "c11"; "c12"; "c13"; "c14"; "c15" ].

(** A row with the given name, birth date and practice cells; the
    supplementary cells hold the number 1. *)
Definition child (nome dn a b c d e : Cell) : list Cell :=
  [ nome; dn; Num 1; Num 1; a; Num 1; b; Num 1; c;
    Num 1; Num 1; Num 1; Num 1; d; e ].

Definition sheet (rows : list (list Cell)) : DataFrame :=
  {| columns := raw_header; data := rows |}.

(** A sheet with ten columns only. *)
Definition narrow_sheet : DataFrame :=
  {| columns := firstn 10 raw_header;
     data := [ firstn 10 (child (Str "Ana") (Timestamp 7) (Str "OK") NaN NaN NaN NaN) ] |}.

(** A date parser that accepts exactly the cells Excel already typed as
    dates. *)
Definition only_timestamps (col : list Cell) : list (option Z) :=
  map (fun c => match c with Timestamp t => Some t | _ => None end) col.

(** An environment whose only file is [data/monitoramento.xlsx]. *)
Definition env_with (content : Exn + list (string * DataFrame)) : Env :=
  {| os_path_exists := fun p => String.eqb p "data/monitoramento.xlsx";
     pd_read_excel := fun _ => content;
     pd_to_datetime := only_timestamps |}.

Definition EXCEL_FILE_PATH : string := "data/monitoramento.xlsx".

Definition maria_unparseable : list Cell :=
  child (Str "Maria") (Str "abc") (Str "OK") (Str "OK") (Str "X") (Str "X") (Str "OK").

Definition joao : list Cell :=
  child (Str "Joao") (Timestamp 20200131) (Str "OK") (Str "ok") (Str " OK") NaN (Str "OK").

Definition no_birth_date : list Cell :=
  child (Str "Maria") NaN (Str "OK") (Str "OK") (Str "OK") (Str "OK") (Str "OK").

Definition no_name : list Cell :=
  child NaN (Timestamp 20210101) (Str "OK") (Str "OK") (Str "OK") (Str "OK") (Str "OK").

Definition clinic_a : list (string * DataFrame) :=
  [ (" Clinic A ", sheet [maria_unparseable; joao]) ].

Definition two_units : list (string * DataFrame) :=
  [ ("Narrow", narrow_sheet);
    ("UBS Centro", sheet [joao; no_birth_date]);
    ("UBS Norte ", sheet [no_name; maria_unparseable]) ].

(** Every column has a value, yet no row has both name and birth date. *)
Definition all_filtered : list (string * DataFrame) :=
  [ ("UBS Sul", sheet [no_name; no_birth_date]) ].

(** What [load_data] returns for [clinic_a]. *)
Definition clinic_a_loaded : DataFrame :=
  {| columns := schema;
     data :=
       [ child (Str "Maria") NaT (Str "OK") (Str "OK") (Str "X") (Str "X") (Str "OK")
         ++ [Str "Clinic A"];
         joao ++ [Str "Clinic A"] ] |}.

(** One sheet, one child, a birth date that is text and not a date. *)
Definition maria_only : list (string * DataFrame) :=
  [ ("UBS Sul", sheet [maria_unparseable]) ].

End Samples.

(** ** Sample records *)

Module ScorerExamples.
Import Samples.

(** Two records of the normalized schema, as [calculate_score] sees them. *)
Definition joao_series : Series :=
  combine schema (joao ++ [Str "UBS Centro"]).

Definition other_series : Series :=
  combine schema
    (child (Str "Lia") NaT (Str "OK") (Str "ok") (Str " OK") NaN (Str "OK")
     ++ [Str "UBS Norte"]).

(** Three records whose practice B was not measured. *)
Definition b_not_measured : DataFrame :=
  {| columns := schema;
     data :=
       [ child (Str "Ana") (Timestamp 1) (Str "OK") NaN (Str "OK") NaN NaN ++ [Str "U1"];
         child (Str "Bia") (Timestamp 2) NaN NaN (Str "X") NaN NaN ++ [Str "U1"];
         child (Str "Caio") (Timestamp 3) (Str "OK") NaN NaN NaN NaN ++ [Str "U2"] ] |}.

End ScorerExamples.

(** ** Positions kept by a column mask *)

(** Position in the original row of the [j]-th entry that [select mask]
    keeps. *)
Fixpoint kept_index (mask : list bool) (j : nat) : option nat :=
  match mask with
  | [] => None
  | true :: mask' =>
      match j with
      | O => Some O
      | S j' => option_map S (kept_index mask' j')
      end
  | false :: mask' => option_map S (kept_index mask' j)
  end.

(** [st.error] as opposed to [st.warning]. *)
Definition is_error (d : Diagnostic) : bool :=
  match d with
  | st_error_file_not_found _ | st_error_read_failed _ _ => true
  | st_warning_no_sheets | st_warning_sheet_ignored _ => false
  end.

(** Tiers from the lowest to the highest. *)
Definition rank (c : Classificacao) : nat :=
  match c with
  | Regular => 0
  | Suficiente => 1
  | Bom => 2
  | Otimo => 3
  end.

(** ** Cell styling of the detail table *)

Definition style_practices (val : Cell) : string :=
  let '(color, font_color) :=
    if cell_eq_str val "OK" then ("#d4edda", "#155724")
    else if notna val then ("#f8d7da", "#721c24")
    else ("", "") in
  "background-color: " +:+ color +:+ "; color: " +:+ font_color.

Definition style_green : string := "background-color: #d4edda; color: #155724".
Definition style_red : string := "background-color: #f8d7da; color: #721c24".
Definition style_none : string := "background-color: ; color: ".

(** ** The page script

    The body of the script below the helper functions: scoring of the
    loaded frame, the two side-bar filters, the overview figures and the
    detail table.  The choices made in the side bar and the date formatter
    come from outside; titles, layout and colours of the charts are not
    modelled, nor is the order in which a chart shows its bars. *)

Inductive ScriptError : Type :=
| NameError (name : string)
| TypeError
| AttributeError
| Uncaught (e : Exn).

#[global] Instance Script_ret : MRet (sum ScriptError) := fun A a => inr a.

#[global] Instance Script_bind : MBind (sum ScriptError) := fun A B f m =>
  match m with
  | inl e => inl e
  | inr a => f a
  end.

(** An exception of a helper that nothing catches. *)
Definition uncaught {A : Type} (r : Exn + A) : ScriptError + A :=
  match r with
  | inl e => inl (Uncaught e)
  | inr a => inr a
  end.

(** The character with the given code point. *)
Definition chr (n : nat) : string := String (ascii_of_nat n) EmptyString.

(** ['Pontuação'], ['Classificação'], ['Ótimo'], ['Prática x']. *)
Definition col_Pontuacao : string := "Pontua" +:+ chr 231 +:+ chr 227 +:+ "o".
Definition col_Classificacao : string := "Classifica" +:+ chr 231 +:+ chr 227 +:+ "o".
Definition pratica (ind : string) : string := "Pr" +:+ chr 225 +:+ "tica " +:+ ind.

(** The string each branch of [get_classification] returns. *)
Definition classification_label (c : Classificacao) : string :=
  match c with
  | Otimo => chr 211 +:+ "timo"
  | Bom => "Bom"
  | Suficiente => "Suficiente"
  | Regular => "Regular"
  end.

Definition all_classifications : list string :=
  [ classification_label Otimo; "Bom"; "Suficiente"; "Regular" ].

Definition EXCEL_FILE_PATH : string := "data/monitoramento.xlsx".

(** [df.apply(calculate_score, axis=1)]: row after row, the first
    exception ends the call. *)
Fixpoint apply_calculate_score (rows : list Series) : Exn + list Z :=
  match rows with
  | [] => inr []
  | row :: rows' =>
      match calculate_score row with
      | inl e => inl e
      | inr score =>
          match apply_calculate_score rows' with
          | inl e => inl e
          | inr scores => inr (score :: scores)
          end
      end
  end.

(** [get_classification] on one value of a column: numbers are compared,
    NaN fails every comparison, and a missing date, a text or a date
    cannot be compared with a number ([TypeError]). *)
Definition classify_cell (c : Cell) : ScriptError + Classificacao :=
  match c with
  | Num q => inr (get_classification q)
  | Bool b => inr (get_classification (if b then 1 else 0))
  | NaN => inr Regular
  | NaT | Str _ | Timestamp _ => inl TypeError
  end.

Fixpoint apply_get_classification (col : list Cell) : ScriptError + list Classificacao :=
  match col with
  | [] => inr []
  | c :: col' =>
      match classify_cell c with
      | inl e => inl e
      | inr k =>
          match apply_get_classification col' with
          | inl e => inl e
          | inr ks => inr (k :: ks)
          end
      end
  end.

(** Lines 126-127. *)
Definition add_scores (df : DataFrame) : ScriptError + DataFrame :=
  scores ← uncaught (apply_calculate_score (iterrows df));
  let df := setitem_series col_Pontuacao (map (fun s => Num (inject_Z s)) scores) df in
  pontuacao ← uncaught (getitem col_Pontuacao df);
  classes ← apply_get_classification pontuacao;
  mret (setitem_series col_Classificacao
          (map (fun k => Str (classification_label k)) classes) df).

(** [Series.unique()]: the values in order of first appearance. *)
Fixpoint unique (col : list Cell) : list Cell :=
  match col with
  | [] => []
  | c :: col' => c :: List.filter (fun c' => negb (bool_decide (c' = c))) (unique col')
  end.

(** [sorted] on strings, by code points. *)
Fixpoint insert_sorted (s : string) (l : list string) : list string :=
  match l with
  | [] => [s]
  | x :: l' => if String.leb s x then s :: l else x :: insert_sorted s l'
  end.

Definition py_sorted (l : list string) : list string := foldr insert_sorted [] l.

(** The unit values as the strings they are; a value of another kind is
    an error here, as it is for [sorted] as soon as kinds are mixed (the
    loader only produces strings). *)
Fixpoint as_strings (col : list Cell) : ScriptError + list string :=
  match col with
  | [] => inr []
  | Str s :: col' =>
      match as_strings col' with
      | inl e => inl e
      | inr l => inr (s :: l)
      end
  | _ :: _ => inl TypeError
  end.

(** [Series.isin(values)] for a list of strings. *)
Definition isin (values : list string) (c : Cell) : bool :=
  match c with
  | Str s => bool_decide (s ∈ values)
  | _ => false
  end.

(** [mask1 & mask2] *)
Definition mask_and (m1 m2 : list bool) : list bool :=
  map (fun p : bool * bool => p.1 && p.2) (combine m1 m2).

(** [df[mask]] *)
Definition boolean_index (mask : list bool) (df : DataFrame) : DataFrame :=
  {| columns := columns df; data := select mask (data df) |}.

(** [df.empty] *)
Definition empty (df : DataFrame) : bool :=
  match data df, columns df with
  | [], _ | _, [] => true
  | _, _ => false
  end.

(** The numbers of a column, [None] for a null value; text and dates do
    not take part in arithmetic. *)
Fixpoint numbers (col : list Cell) : ScriptError + list (option Q) :=
  match col with
  | [] => inr []
  | c :: col' =>
      match c, numbers col' with
      | (Str _ | Timestamp _), _ => inl TypeError
      | _, inl e => inl e
      | Num q, inr l => inr (Some q :: l)
      | Bool b, inr l => inr (Some (if b then 1 else 0)%Q :: l)
      | (NaN | NaT), inr l => inr (None :: l)
      end
  end.

Definition Qsum (l : list Q) : Q := fold_right Qplus 0%Q l.

(** [mean] skips the null values; [None] stands for the NaN of a series
    without numbers. *)
Definition mean_of (l : list (option Q)) : option Q :=
  match omap id l with
  | [] => None
  | qs => Some (Qsum qs / inject_Z (Z.of_nat (length qs)))%Q
  end.

(** [get_classification] on a mean: NaN fails every comparison. *)
Definition classify_mean (m : option Q) : Classificacao :=
  match m with
  | Some q => get_classification q
  | None => Regular
  end.

(** Keys of a group-by. *)
Definition cell_to_sum (c : Cell) : () + () + string + (Z * positive) + bool + Z :=
  match c with
  | NaN => inl (inl (inl (inl (inl ()))))
  | NaT => inl (inl (inl (inl (inr ()))))
  | Str s => inl (inl (inl (inr s)))
  | Num q => inl (inl (inr (Qnum q, Qden q)))
  | Bool b => inl (inr b)
  | Timestamp t => inr t
  end.

Definition cell_of_sum (x : () + () + string + (Z * positive) + bool + Z) : Cell :=
  match x with
  | inl (inl (inl (inl (inl _)))) => NaN
  | inl (inl (inl (inl (inr _)))) => NaT
  | inl (inl (inl (inr s))) => Str s
  | inl (inl (inr (n, d))) => Num (Qmake n d)
  | inl (inr b) => Bool b
  | inr t => Timestamp t
  end.

#[global] Instance Cell_countable : Countable Cell.
Proof.
  apply (inj_countable' cell_to_sum cell_of_sum).
  intros [| |s|[n d]|b|t]; reflexivity.
Defined.

(** The values that go with one key. *)
Definition group_values {A : Type} (key : Cell) (keys : list Cell) (vals : list A) : list A :=
  map snd (List.filter (fun kv : Cell * A => bool_decide (kv.1 = key)) (combine keys vals)).

(** [df.groupby(key)[value].mean()]: one mean per non-null key. *)
Definition groupby_mean (keys : list Cell) (vals : list (option Q)) : gmap Cell (option Q) :=
  list_to_map
    (map (fun k => (k, mean_of (group_values k keys vals)))
         (List.filter notna (unique keys))).

(** A dictionary of strings, in insertion order. *)
Fixpoint dict_get (d : list (string * string)) (k : string) : option string :=
  match d with
  | [] => None
  | (k', v) :: d' => if String.eqb k' k then Some v else dict_get d' k
  end.

(** [df[labels]]: the listed columns, in the order of the list. *)
Definition select_columns (labels : list string) (df : DataFrame) : Exn + DataFrame :=
  match indices_of labels (columns df) with
  | inl e => inl e
  | inr js => inr {| columns := labels;
                     data := map (fun row => map (fun j => cell_at j row) js) (data df) |}
  end.

(** [df.rename(columns=mapping)] *)
Definition rename_columns (mapping : list (string * string)) (df : DataFrame) : DataFrame :=
  {| columns := map (fun c => default c (dict_get mapping c)) (columns df);
     data := data df |}.

Definition display_cols : list (string * string) :=
  [ ("Nome", "Nome");
    ("DN", "Data de Nascimento");
    ("Unidade", "Unidade");
    (col_Pontuacao, col_Pontuacao);
    (col_Classificacao, col_Classificacao);
    ("A", pratica "A");
    ("B", pratica "B");
    ("C", pratica "C");
    ("D", pratica "D");
    ("E", pratica "E") ].

Definition practice_columns : list string :=
  [ pratica "A"; pratica "B"; pratica "C"; pratica "D"; pratica "E" ].

(** What the script takes from outside besides the files: the choices
    in the two side-bar boxes, given their options, and the text of a
    date under ['%d/%m/%Y']. *)
Record Session : Type := {
  multiselect_units : list string -> list string;
  multiselect_classifications : list string -> list string;
  strftime : Z -> string
}.

(** [col.dt.strftime(fmt)]: only a column of dates has [.dt]; a null
    date gives a null text. *)
Fixpoint dt_strftime (fmt : Z -> string) (col : list Cell) : ScriptError + list Cell :=
  match col with
  | [] => inr []
  | c :: col' =>
      match c, dt_strftime fmt col' with
      | (Str _ | Num _ | Bool _), _ => inl AttributeError
      | _, inl e => inl e
      | Timestamp t, inr l => inr (Str (fmt t) :: l)
      | (NaN | NaT), inr l => inr (NaN :: l)
      end
  end.

(** The figures of the overview (lines 157-217). *)
Record Overview : Type := {
  criancas_monitoradas : nat;
  avg_score : option Q;
  classification_geral : Classificacao;
  df_unit_score : gmap Cell (option Q);
  compliance_rows : list (string * Q)
}.

Definition overview (df_filtered : DataFrame) : ScriptError + Overview :=
  pontuacao ← uncaught (getitem col_Pontuacao df_filtered);
  scores ← numbers pontuacao;
  let avg := mean_of scores in
  unidade ← uncaught (getitem "Unidade" df_filtered);
  rates ← uncaught (compliance_data indicadores df_filtered);
  mret {| criancas_monitoradas := length (data df_filtered);
          avg_score := avg;
          classification_geral := classify_mean avg;
          df_unit_score := groupby_mean unidade scores;
          compliance_rows := rates |}.

(** Lines 149-152. *)
Definition filter_frame (selected_units selected_classifications : list string)
    (df : DataFrame) : ScriptError + DataFrame :=
  unidade ← uncaught (getitem "Unidade" df);
  classificacao ← uncaught (getitem col_Classificacao df);
  mret (boolean_index
          (mask_and (map (isin selected_units) unidade)
                    (map (isin selected_classifications) classificacao))
          df).

(** Which branch of lines 117-217 was taken. *)
Inductive Body : Type :=
| NoFolder
| NoValidData
| NoMatch
| Shown (o : Overview).

(** The branch taken and the binding of [df_filtered] it leaves, if any. *)
Definition scored_section (session : Session) (df : DataFrame)
    : ScriptError + (Body * option DataFrame) :=
  df ← add_scores df;
  unidade ← uncaught (getitem "Unidade" df);
  names ← as_strings (unique unidade);
  let all_units := py_sorted names in
  let selected_units := multiselect_units session all_units in
  let selected_classifications :=
    multiselect_classifications session all_classifications in
  df_filtered ← filter_frame selected_units selected_classifications df;
  if empty df_filtered then mret (NoMatch, Some df_filtered)
  else
    o ← overview df_filtered;
    mret (Shown o, Some df_filtered).

Definition main_section (env : Env) (session : Session)
    (cache : gmap string (option DataFrame * list Diagnostic))
  : (ScriptError + (Body * option DataFrame)) * list Diagnostic
    * gmap string (option DataFrame * list Diagnostic) :=
  if negb (os_path_exists env "data") then (inr (NoFolder, None), [], cache)
  else
    let '((r, msgs), cache') := load_data_cached env EXCEL_FILE_PATH cache in
    (match r with
     | inl e => inl (Uncaught e)
     | inr None => inr (NoValidData, None)
     | inr (Some df) =>
         if empty df then inr (NoValidData, None)
         else scored_section session df
     end, msgs, cache').

(** Lines 220-259, which run whatever branch was taken above: the table
    that is handed to the Styler, and for its practice cells the strings
    that [style_practices] returns.  The Styler chain and [st.dataframe]
    of lines 260-270 (how the styles are applied, the colour gradient, the
    number format, the rendering) are not modelled, and neither is any
    exception they may raise. *)
Definition detail_section (session : Session) (binding : option DataFrame)
    : ScriptError + (DataFrame * list (list string)) :=
  df_filtered ← match binding with
                | None => inl (NameError "df_filtered")
                | Some df => inr df
                end;
  df_display ← uncaught (select_columns (map fst display_cols) df_filtered);
  let df_display := rename_columns display_cols df_display in
  dn ← uncaught (getitem "Data de Nascimento" df_display);
  dn ← dt_strftime (strftime session) dn;
  let df_display := setitem_series "Data de Nascimento" dn df_display in
  practices ← uncaught (select_columns practice_columns df_display);
  mret (df_display, map (map style_practices) (data practices)).

(** The script up to line 259. *)
Definition script (env : Env) (session : Session)
    (cache : gmap string (option DataFrame * list Diagnostic))
  : (ScriptError + (Body * (DataFrame * list (list string)))) * list Diagnostic
    * gmap string (option DataFrame * list Diagnostic) :=
  let '(r, msgs, cache') := main_section env session cache in
  (match r with
   | inl e => inl e
   | inr (body, binding) =>
       match detail_section session binding with
       | inl e => inl e
       | inr table => inr (body, table)
       end
   end, msgs, cache').

(** The session in which nothing is deselected. *)
Definition default_session (fmt : Z -> string) : Session :=
  {| multiselect_units := fun options => options;
     multiselect_classifications := fun options => options;
     strftime := fmt |}.

(** ** Declarative description of the scored frame *)

(** Score of a row of the loader's schema, from the cells at the
    positions of A, B, C, D and E. *)
Definition row_score (row : list Cell) : Z :=
  (20 * Z.of_nat (ok_count [ cell_at 4 row; cell_at 6 row; cell_at 8 row;
                              cell_at 13 row; cell_at 14 row ]))%Z.

Definition row_class (row : list Cell) : Classificacao :=
  get_classification (inject_Z (row_score row)).

(** A row with its score and the label of its tier appended. *)
Definition scored_row (row : list Cell) : list Cell :=
  row ++ [Num (inject_Z (row_score row)); Str (classification_label (row_class row))].

Definition scored_schema : list string := schema ++ [col_Pontuacao; col_Classificacao].

(** A row as the loader returns it from rectangular sheets: 16 cells, a
    unit that is a string, a birth date that is a date or null. *)
Definition loaded_row (row : list Cell) : Prop :=
  length row = 16%nat
  /\ (exists unit, cell_at 15 row = Str unit)
  /\ (isna (cell_at 1 row) = true \/ exists t, cell_at 1 row = Timestamp t).

(** The unit and the tier of a scored row are both among the selected. *)
Definition row_selected (selected_units selected_classifications : list string)
    (row : list Cell) : bool :=
  isin selected_units (cell_at 15 row) && isin selected_classifications (cell_at 17 row).

(** Labels of the detail table. *)
Definition display_labels : list string :=
  [ "Nome"; "Data de Nascimento"; "Unidade"; col_Pontuacao; col_Classificacao;
    pratica "A"; pratica "B"; pratica "C"; pratica "D"; pratica "E" ].

(** Text of a birth date in the detail table. *)
Definition format_date (fmt : Z -> string) (c : Cell) : Cell :=
  match c with
  | Timestamp t => Str (fmt t)
  | _ => NaN
  end.

(** The practice cells of a row of the loader's schema. *)
Definition practice_cells (row : list Cell) : list Cell :=
  [ cell_at 4 row; cell_at 6 row; cell_at 8 row; cell_at 13 row; cell_at 14 row ].

(** The row of the detail table for a row of the loader's schema. *)
Definition display_row (fmt : Z -> string) (row : list Cell) : list Cell :=
  [ cell_at 0 row; format_date fmt (cell_at 1 row); cell_at 15 row;
    Num (inject_Z (row_score row)); Str (classification_label (row_class row)) ]
  ++ practice_cells row.

Definition is_name_error (e : ScriptError) : bool :=
  match e with
  | NameError _ => true
  | _ => false
  end.

(** The script reaches the detail table without a frame to show. *)
Definition nothing_loaded (env : Env)
    (cache : gmap string (option DataFrame * list Diagnostic)) : bool :=
  negb (os_path_exists env "data")
  || match (load_data_cached env EXCEL_FILE_PATH cache).1.1 with
     | inr None => true
     | inr (Some df) => empty df
     | inl _ => false
     end.

(** ** Sample sessions *)

Module PageSamples.

(** The folder and the workbook both exist. *)
Definition env_page (content : Exn + list (string * DataFrame)) : Env :=
  {| os_path_exists := fun p => String.eqb p "data" || String.eqb p EXCEL_FILE_PATH;
     pd_read_excel := fun _ => content;
     pd_to_datetime := Samples.only_timestamps |}.

(** Dates shown as their number. *)
Definition fmt_plain (t : Z) : string := if (t =? 0)%Z then "01/01/1970" else "date".

(** Only the second unit is kept in the side bar. *)
Definition only_norte : Session :=
  {| multiselect_units := fun _ => ["UBS Norte"];
     multiselect_classifications := fun options => options;
     strftime := fmt_plain |}.

(** Everything is deselected. *)
Definition nothing_selected : Session :=
  {| multiselect_units := fun _ => [];
     multiselect_classifications := fun _ => [];
     strftime := fmt_plain |}.

(** What [load_data] returns for [Samples.two_units]. *)
Definition two_units_loaded : DataFrame :=
  {| columns := schema;
     data :=
       [ Samples.joao ++ [Str "UBS Centro"];
         Samples.child (Str "Maria") NaT (Str "OK") (Str "OK") (Str "X") (Str "X") (Str "OK")
         ++ [Str "UBS Norte"] ] |}.

End PageSamples.

(** ** Empty columns, said on the sheet as it was read

    These follow the words of the description of the loader, not its
    code: a column is entirely empty when every row is null there. *)

(** Every row of the sheet is null at position [j]. *)
Definition column_empty (df : DataFrame) (j : nat) : bool :=
  forallb (fun row => isna (cell_at j row)) (data df).

(** Positions of the columns that are not entirely empty, from left to
    right. *)
Definition nonempty_positions (df : DataFrame) : list nat :=
  List.filter (fun j => negb (column_empty df j)) (seq 0 (length (columns df))).

(** ** Sheets with an empty column *)

Module GapSamples.

(** Sixteen header cells; the third column will be empty. *)
Definition wide_header : list string :=
  [ "Crianca"; "Nascimento"; "Obs"; "c3"; "c4"; "c5"; "c6"; "c7"; "c8"; "c9";
    "c10"; "c11"; "c12"; "c13"; "c14"; "c15" ].

Definition rui_wide : list Cell :=
  [ Str "Rui"; Timestamp 20190305; NaN; Num 2; Num 3; Str "OK"; Num 4; Str "OK";
    Num 5; Str "X"; Num 6; Num 7; Num 8; Num 9; Str "OK"; Str "OK" ].

Definition bia_wide : list Cell :=
  [ Str "Bia"; Timestamp 20200110; NaN; Num 1; Num 1; Str "X"; Num 1; Str "OK";
    Num 1; Str "OK"; Num 1; Num 1; Num 1; Num 1; NaN; Str "OK" ].

(** 16 columns, 15 once the empty one is gone. *)
Definition gap_sheet : DataFrame :=
  {| columns := wide_header; data := [rui_wide; bia_wide] |}.

(** 15 columns, 14 once the empty practice column C is gone. *)
Definition hole_sheet : DataFrame :=
  Samples.sheet
    [ Samples.child (Str "Lia") (Timestamp 20210101) (Str "OK") (Str "OK") NaN
        (Str "OK") (Str "OK") ].

Definition gap_units : list (string * DataFrame) :=
  [ ("Gap", gap_sheet); ("Hole", hole_sheet) ].

(** What the loop makes of [gap_units]. *)
Definition gap_frame : DataFrame :=
  {| columns := schema;
     data :=
       [ [ Str "Rui"; Timestamp 20190305; Num 2; Num 3; Str "OK"; Num 4; Str "OK";
           Num 5; Str "X"; Num 6; Num 7; Num 8; Num 9; Str "OK"; Str "OK"; Str "Gap" ];
         [ Str "Bia"; Timestamp 20200110; Num 1; Num 1; Str "X"; Num 1; Str "OK";
           Num 1; Str "OK"; Num 1; Num 1; Num 1; Num 1; NaN; Str "OK"; Str "Gap" ] ] |}.

End GapSamples.

(** ** A date parser that looks at the clock *)

Module ClockSamples.

(** As [pd.to_datetime] does, the text "today" is read as the moment of
    the call; a cell that already is a date is kept; nothing else parses
    here. *)
Definition clock_parser (now : Z) (col : list Cell) : list (option Z) :=
  map (fun c =>
         match c with
         | Timestamp t => Some t
         | Str s => if String.eqb s "today" then Some now else None
         | _ => None
         end) col.

(** The same file system and the same workbook, seen at the moment [now]. *)
Definition env_at (now : Z) (content : Exn + list (string * DataFrame)) : Env :=
  {| os_path_exists := fun p => String.eqb p "data/monitoramento.xlsx";
     pd_read_excel := fun _ => content;
     pd_to_datetime := clock_parser now |}.

(** One child whose birth-date cell holds the text "today". *)
Definition born_today : list (string * DataFrame) :=
  [ ("UBS Sul",
     Samples.sheet
       [ Samples.child (Str "Maria") (Str "today") (Str "OK") (Str "OK") (Str "X")
           (Str "X") (Str "OK") ]) ].

End ClockSamples.

(** * Properties *)

(** ** Laws of the effect monad *)

Lemma bind_value {A B : Type} (f : A -> M B) (a : A) (w : list Diagnostic) :
  mbind f ((inr a, w) : M A) = ((f a).1, w ++ (f a).2).
Proof. unfold mbind, M_bind. destruct (f a). reflexivity. Qed.

Lemma bind_exception {A B : Type} (f : A -> M B) (e : Exn) (w : list Diagnostic) :
  mbind f ((inl e, w) : M A) = (inl e, w).
Proof. reflexivity. Qed.

Lemma bind_mret {A B : Type} (f : A -> M B) (a : A) :
  mbind f (mret a) = f a.
Proof. unfold mret, M_ret. rewrite bind_value. destruct (f a). reflexivity. Qed.

Lemma bind_lift_value {A B : Type} (f : A -> M B) (a : A) :
  mbind f (lift (inr a)) = f a.
Proof. apply bind_mret. Qed.

Lemma try_except_value {A : Type} (a : A) (w : list Diagnostic) (h : Exn -> M A) :
  try_except (inr a, w) h = (inr a, w).
Proof. reflexivity. Qed.

(** ** The loop over the sheets *)

Lemma index_of_Unidade_column_names : index_of "Unidade" column_names = None.
Proof. reflexivity. Qed.

Lemma set_columns_iloc (df : DataFrame) :
  (length column_names <= length (columns df))%nat ->
  set_columns column_names (iloc_cols (length column_names) df)
  = inr {| columns := column_names; data := map (firstn 15) (data df) |}.
Proof.
  intros Hle. unfold set_columns, iloc_cols. cbn [columns data].
  rewrite length_firstn, Nat.min_l by exact Hle.
  rewrite Nat.eqb_refl. reflexivity.
Qed.

Lemma sheet_step_accepted (unit_name : string) (df : DataFrame) (l : list DataFrame) :
  sheet_accepted (unit_name, df) = true ->
  sheet_step unit_name df l = (inr (l ++ [normalized_frame (unit_name, df)]), []).
Proof.
  unfold sheet_accepted, sheet_step. cbn [fst snd]. intros Hacc.
  change (length column_names) with 15%nat. rewrite Hacc.
  change 15%nat with (length column_names) at 1.
  rewrite set_columns_iloc by (apply Nat.leb_le; exact Hacc).
  unfold lift, mbind, M_bind, mret, M_ret, setitem_scalar. cbn [columns data].
  rewrite index_of_Unidade_column_names.
  unfold normalized_frame, tagged_rows, schema. cbn [fst snd].
  rewrite map_map. reflexivity.
Qed.

Lemma sheet_step_skipped (unit_name : string) (df : DataFrame) (l : list DataFrame) :
  sheet_accepted (unit_name, df) = false ->
  sheet_step unit_name df l = (inr l, [st_warning_sheet_ignored unit_name]).
Proof.
  unfold sheet_accepted, sheet_step. cbn [fst snd]. intros Hacc.
  change (length column_names) with 15%nat. rewrite Hacc. reflexivity.
Qed.

Lemma for_sheets_spec (items : list (string * DataFrame)) (l : list DataFrame) :
  for_sheets items l = (inr (l ++ accepted_frames items), skipped_warnings items).
Proof.
  revert l. induction items as [|[unit_name df] items IH]; intros l.
  - cbn. rewrite app_nil_r. reflexivity.
  - cbn [for_sheets]. unfold accepted_frames, skipped_warnings. cbn [List.filter].
    destruct (sheet_accepted (unit_name, df)) eqn:Hacc.
    + rewrite sheet_step_accepted by exact Hacc.
      unfold mbind, M_bind. rewrite IH. cbn [negb map app fst].
      rewrite <- app_assoc. reflexivity.
    + rewrite sheet_step_skipped by exact Hacc.
      unfold mbind, M_bind. rewrite IH. cbn [negb map app fst]. reflexivity.
Qed.

(** ** The four outcomes of [load_data] *)

Lemma indices_of_required : indices_of ["Nome"; "DN"] schema = inr [0%nat; 1%nat].
Proof. reflexivity. Qed.

Lemma index_of_DN : index_of "DN" schema = Some 1%nat.
Proof. reflexivity. Qed.

Lemma filter_required (rows : list (list Cell)) :
  List.filter (fun row => forallb (fun j => notna (cell_at j row)) [0%nat; 1%nat]) rows
  = List.filter required_present rows.
Proof.
  apply List.filter_ext. intros row. unfold required_present. cbn [forallb].
  rewrite andb_true_r. reflexivity.
Qed.

Section LoaderOutcomes.

Variable env : Env.
Variable file_path : string.

Lemma load_data_missing :
  os_path_exists env file_path = false ->
  load_data env file_path = (inr None, [st_error_file_not_found file_path]).
Proof. intros H. unfold load_data. rewrite H. reflexivity. Qed.

Lemma load_data_unreadable (e : Exn) :
  os_path_exists env file_path = true ->
  pd_read_excel env file_path = inl e ->
  load_data env file_path = (inr None, [st_error_read_failed file_path e]).
Proof.
  intros Hex Hrd. unfold load_data, try_block. rewrite Hex, Hrd. reflexivity.
Qed.

Lemma load_data_no_sheets :
  os_path_exists env file_path = true ->
  pd_read_excel env file_path = inr [] ->
  load_data env file_path = (inr None, [st_warning_no_sheets]).
Proof.
  intros Hex Hrd. unfold load_data, try_block. rewrite Hex, Hrd. reflexivity.
Qed.

Lemma try_block_sheets (items : list (string * DataFrame)) :
  pd_read_excel env file_path = inr items ->
  items <> [] ->
  try_block env file_path = (inr (inr (accepted_frames items)), skipped_warnings items).
Proof.
  intros Hrd Hne. unfold try_block. rewrite Hrd, bind_lift_value.
  destruct items as [|item items']; [congruence|].
  rewrite for_sheets_spec, bind_value. cbn [fst snd mret M_ret app].
  rewrite app_nil_r. reflexivity.
Qed.

Lemma load_data_sheets (items : list (string * DataFrame)) :
  os_path_exists env file_path = true ->
  pd_read_excel env file_path = inr items ->
  items <> [] ->
  load_data env file_path = (inr (loaded_frame env items), skipped_warnings items).
Proof.
  intros Hex Hrd Hne. unfold load_data. rewrite Hex. cbn [negb].
  rewrite (try_block_sheets items Hrd Hne), bind_value.
  unfold loaded_frame, kept_rows, combined_rows, accepted_frames.
  destruct (List.filter sheet_accepted items) as [|it its] eqn:Hf.
  - cbn. rewrite app_nil_r. reflexivity.
  - cbn [map concat_frames]. rewrite bind_lift_value.
    unfold dropna_subset. cbn [columns data normalized_frame].
    rewrite indices_of_required, bind_lift_value.
    unfold getitem. cbn [columns data]. rewrite index_of_DN, bind_lift_value.
    unfold setitem_series. cbn [columns data]. rewrite index_of_DN.
    cbn [mret M_ret fst snd]. rewrite app_nil_r, filter_required.
    change (tagged_rows it :: map data (map normalized_frame its))
      with (map data (map normalized_frame (it :: its))).
    rewrite map_map. reflexivity.
Qed.

End LoaderOutcomes.

(** ** Scorer *)

Lemma cell_eq_str_decide (c : Cell) (lit : string) :
  cell_eq_str c lit = bool_decide (c = Str lit).
Proof.
  destruct c as [| |s|x|b|t]; cbn [cell_eq_str];
    try (symmetry; apply bool_decide_eq_false; congruence).
  destruct (String.eqb_spec s lit) as [->|Hne].
  - symmetry. apply bool_decide_eq_true. reflexivity.
  - symmetry. apply bool_decide_eq_false. congruence.
Qed.

Lemma notna_decide (c : Cell) :
  notna c = bool_decide (~ (c = NaN \/ c = NaT)).
Proof.
  destruct c; cbn; symmetry;
    first [ apply bool_decide_eq_true; intros [H|H]; discriminate H
          | apply bool_decide_eq_false; intros H; apply H; auto ].
Qed.

Lemma ok_count_cons (c : Cell) (cells : list Cell) :
  ok_count (c :: cells)
  = ((if cell_eq_str c "OK" then 1 else 0) + ok_count cells)%nat.
Proof.
  unfold ok_count. rewrite filter_cons, cell_eq_str_decide.
  case_decide as Hc.
  - rewrite bool_decide_eq_true_2 by exact Hc. reflexivity.
  - rewrite bool_decide_eq_false_2 by exact Hc. reflexivity.
Qed.

Lemma ok_count_le (cells : list Cell) : (ok_count cells <= length cells)%nat.
Proof. unfold ok_count. apply length_filter. Qed.

Lemma score_loop_spec (row : Series) (inds : list string) (vals : list Cell) (acc : Z) :
  Forall2 (fun ind v => series_get row ind = inr v) inds vals ->
  score_loop row inds acc = inr (acc + 20 * Z.of_nat (ok_count vals))%Z.
Proof.
  intros Hget. revert acc.
  induction Hget as [|ind v inds vals Hv _ IH]; intros acc.
  - cbn. f_equal. lia.
  - cbn [score_loop]. rewrite Hv, IH, ok_count_cons.
    destruct (cell_eq_str v "OK"); f_equal; lia.
Qed.

Lemma score_loop_ext (r1 r2 : Series) (inds : list string) (acc : Z) :
  (forall ind, ind ∈ inds -> series_get r1 ind = series_get r2 ind) ->
  score_loop r1 inds acc = score_loop r2 inds acc.
Proof.
  revert acc. induction inds as [|ind inds IH]; intros acc Hagree.
  - reflexivity.
  - cbn [score_loop]. rewrite (Hagree ind) by apply list_elem_of_here.
    destruct (series_get r2 ind) as [e|v]; [reflexivity|].
    apply IH. intros ind' Hin. apply Hagree. apply list_elem_of_further. exact Hin.
Qed.

(** ** Classification *)

Lemma Qlt_bool_iff (x y : Q) : Qlt_bool x y = true <-> (x < y)%Q.
Proof.
  unfold Qlt_bool. rewrite negb_true_iff. split.
  - intros H. apply Qnot_le_lt. intros Hle.
    apply Qle_bool_iff in Hle. congruence.
  - intros Hlt. destruct (Qle_bool y x) eqn:E; [|reflexivity].
    apply Qle_bool_iff in E. exfalso. apply (Qlt_not_le _ _ Hlt E).
Qed.

Lemma Qlt_bool_false (x y : Q) : Qlt_bool x y = false <-> (y <= x)%Q.
Proof.
  unfold Qlt_bool. rewrite negb_false_iff. apply Qle_bool_iff.
Qed.

Lemma Qle_bool_false (x y : Q) : Qle_bool x y = false <-> (y < x)%Q.
Proof.
  split.
  - intros H. apply Qnot_le_lt. intros Hle. apply Qle_bool_iff in Hle. congruence.
  - intros Hlt. destruct (Qle_bool x y) eqn:E; [|reflexivity].
    apply Qle_bool_iff in E. exfalso. apply (Qlt_not_le _ _ Hlt E).
Qed.

(** Turn every boolean comparison of the context into an order fact. *)
Ltac order_facts :=
  repeat match goal with
         | H : Qlt_bool _ _ = true |- _ => apply Qlt_bool_iff in H
         | H : Qlt_bool _ _ = false |- _ => apply Qlt_bool_false in H
         | H : Qle_bool _ _ = true |- _ => apply Qle_bool_iff in H
         | H : Qle_bool _ _ = false |- _ => apply Qle_bool_false in H
         end.

(** ** Conformity *)

Lemma sum_bool_from (l : list bool) (acc : Z) :
  fold_left (fun a (b : bool) => if b then (a + 1)%Z else a) l acc
  = (acc + sum_bool l)%Z.
Proof.
  unfold sum_bool. revert acc. induction l as [|b l IH]; intros acc.
  - cbn. lia.
  - cbn [fold_left]. rewrite IH. rewrite (IH (if b then (0 + 1)%Z else 0%Z)).
    destruct b; lia.
Qed.

Lemma sum_bool_cons (b : bool) (l : list bool) :
  sum_bool (b :: l) = ((if b then 1 else 0) + sum_bool l)%Z.
Proof.
  unfold sum_bool at 1. cbn [fold_left]. rewrite sum_bool_from. destruct b; lia.
Qed.

Lemma sum_bool_decide {A : Type} (P : A -> Prop) `{!forall x, Decision (P x)}
    (f : A -> bool) (l : list A) :
  (forall x, f x = bool_decide (P x)) ->
  sum_bool (map f l) = Z.of_nat (length (filter P l)).
Proof.
  intros Hf. induction l as [|x l IH].
  - reflexivity.
  - cbn [map]. rewrite sum_bool_cons, IH, filter_cons, Hf.
    case_decide as Hx.
    + rewrite bool_decide_eq_true_2 by exact Hx. cbn [length]. lia.
    + rewrite bool_decide_eq_false_2 by exact Hx. lia.
Qed.

(** ** [str.strip] removes the surrounding white space and nothing else *)

Module PyStrFacts.
Import PyStr.

Lemma lstrip_decompose (s : string) :
  exists l, s = l +:+ lstrip s /\ all_space l = true.
Proof.
  induction s as [|c s IH].
  - exists EmptyString. split; reflexivity.
  - cbn [lstrip]. destruct (isspace c) eqn:Hc.
    + destruct IH as (l & Hs & Hl). exists (String c l). split.
      * change (String c s = String c (l +:+ lstrip s)). f_equal. exact Hs.
      * cbn. rewrite Hc, Hl. reflexivity.
    + exists EmptyString. split; reflexivity.
Qed.

Lemma lstrip_first (s : string) (c : ascii) :
  first_char (lstrip s) = Some c -> isspace c = false.
Proof.
  induction s as [|c' s IH]; cbn [lstrip].
  - discriminate.
  - destruct (isspace c') eqn:Hc'; [exact IH|].
    cbn. intros [= <-]. exact Hc'.
Qed.

Lemma rstrip_decompose (s : string) :
  exists r, s = rstrip s +:+ r /\ all_space r = true.
Proof.
  induction s as [|c s IH].
  - exists EmptyString. split; reflexivity.
  - cbn [rstrip]. destruct IH as (r & Hs & Hr).
    destruct (rstrip s) as [|c' t] eqn:Hrs.
    + change (s = r) in Hs. subst r. destruct (isspace c) eqn:Hc.
      * exists (String c s). split; [reflexivity|]. cbn. rewrite Hc, Hr. reflexivity.
      * exists s. split; [reflexivity|exact Hr].
    + exists r. split; [|exact Hr].
      change (String c s = String c (String c' t +:+ r)). f_equal. exact Hs.
Qed.

Lemma rstrip_last (s : string) (c : ascii) :
  last_char (rstrip s) = Some c -> isspace c = false.
Proof.
  induction s as [|c' s IH]; cbn [rstrip].
  - discriminate.
  - destruct (rstrip s) as [|c'' t] eqn:Hrs.
    + destruct (isspace c') eqn:Hc'; [discriminate|].
      cbn. intros [= <-]. exact Hc'.
    + exact IH.
Qed.

Lemma rstrip_first (s : string) (c : ascii) :
  first_char (rstrip s) = Some c -> first_char s = Some c.
Proof.
  destruct s as [|c' s]; cbn [rstrip first_char]; [discriminate|].
  destruct (rstrip s); [destruct (isspace c'); [discriminate|]|]; cbn; auto.
Qed.

Lemma strip_spec (s : string) : stripped_of s (strip s).
Proof.
  unfold stripped_of, strip.
  destruct (lstrip_decompose s) as (l & Hl & Hls).
  destruct (rstrip_decompose (lstrip s)) as (r & Hr & Hrs).
  repeat split.
  - exists l, r. rewrite <- Hr. auto.
  - intros c Hc. apply (lstrip_first s). apply rstrip_first. exact Hc.
  - intros c. apply rstrip_last.
Qed.

End PyStrFacts.

(** ** Rectangular frames stay rectangular *)

Lemma length_select {A B : Type} (mask : list bool) (l1 : list A) (l2 : list B) :
  length l1 = length l2 -> length (select mask l1) = length (select mask l2).
Proof.
  revert l1 l2. induction mask as [|b mask IH]; intros [|x l1] [|y l2] Hlen;
    cbn in *; try reflexivity; try discriminate.
  destruct b; cbn; rewrite (IH l1 l2); congruence.
Qed.

Lemma dropna_axis1_all_rectangular (df : DataFrame) :
  rectangular df -> rectangular (dropna_axis1_all df).
Proof.
  unfold rectangular, dropna_axis1_all. cbn [columns data]. intros Hrect.
  rewrite Forall_map. eapply Forall_impl; [exact Hrect|].
  intros row Hrow. cbn. apply length_select. exact Hrow.
Qed.

Lemma tagged_rows_shape (item : string * DataFrame) (row : list Cell) :
  rectangular item.2 ->
  sheet_accepted item = true ->
  row ∈ tagged_rows item ->
  exists row0 cells,
    row0 ∈ data (dropna_axis1_all item.2)
    /\ cells = firstn 15 row0 /\ length cells = 15%nat
    /\ row = cells ++ [Str (PyStr.strip item.1)].
Proof.
  intros Hrect Hacc Hin. unfold tagged_rows in Hin.
  apply list_elem_of_fmap in Hin as (row0 & -> & Hin0).
  exists row0, (firstn 15 row0). repeat split; try assumption.
  apply dropna_axis1_all_rectangular in Hrect.
  unfold rectangular in Hrect. rewrite Forall_forall in Hrect.
  specialize (Hrect row0 Hin0). unfold sheet_accepted in Hacc.
  apply Nat.leb_le in Hacc. rewrite length_firstn. lia.
Qed.

(** * The scorer *)

(** Near misses of ["OK"] and empty cells are not counted. *)
Example ok_count_near_misses :
  ok_count [Str "ok"; Str " OK"; Str "OK "; Str "Ok"; NaN; NaT; Num 1; Bool true] = 0%nat
  /\ ok_count [Str "OK"; Str "ok"; Str "OK"] = 2%nat.
Proof. split; reflexivity. Qed.

(** C1. For every record carrying the five practice fields A to E, the
    score computed by [calculate_score] is 20 times the number of those
    fields whose value is exactly the string "OK" (any other value, and an
    empty cell, adds nothing), and it is one of 0, 20, 40, 60, 80, 100. *)
Theorem calculate_score_counts_ok (row : Series) (a b c d e : Cell) :
  series_get row "A" = inr a ->
  series_get row "B" = inr b ->
  series_get row "C" = inr c ->
  series_get row "D" = inr d ->
  series_get row "E" = inr e ->
  exists score : Z,
    calculate_score row = inr score
    /\ score = (20 * Z.of_nat (ok_count [a; b; c; d; e]))%Z
    /\ score ∈ [0; 20; 40; 60; 80; 100]%Z.
Proof.
  intros Ha Hb Hc Hd He.
  exists (20 * Z.of_nat (ok_count [a; b; c; d; e]))%Z. split; [|split].
  - unfold calculate_score, indicadores.
    rewrite (score_loop_spec row _ [a; b; c; d; e]).
    + f_equal.
    + repeat constructor; assumption.
  - reflexivity.
  - pose proof (ok_count_le [a; b; c; d; e]) as Hle. cbn [length] in Hle.
    destruct (ok_count [a; b; c; d; e]) as [|[|[|[|[|[|n]]]]]];
      [ | | | | | | lia ]; apply list_elem_of_In; cbn; tauto.
Qed.

Lemma calculate_score_counts_ok_witness :
  exists score : Z,
    calculate_score ScorerExamples.joao_series = inr score
    /\ score = (20 * Z.of_nat (ok_count [Str "OK"; Str "ok"; Str " OK"; NaN; Str "OK"]))%Z
    /\ score ∈ [0; 20; 40; 60; 80; 100]%Z.
Proof.
  apply (calculate_score_counts_ok ScorerExamples.joao_series
           (Str "OK") (Str "ok") (Str " OK") NaN (Str "OK")); reflexivity.
Defined.

(** C10. The score depends on the five practice fields only: two records
    that agree on A, B, C, D and E get the same score, whatever their
    name, birth date, unit and supplementary fields are. *)
Theorem calculate_score_indicators_only (r1 r2 : Series) :
  (forall ind, ind ∈ indicadores -> series_get r1 ind = series_get r2 ind) ->
  calculate_score r1 = calculate_score r2.
Proof.
  intros Hagree. unfold calculate_score. apply score_loop_ext. exact Hagree.
Qed.

Lemma calculate_score_indicators_only_witness :
  ScorerExamples.joao_series <> ScorerExamples.other_series
  /\ calculate_score ScorerExamples.joao_series
     = calculate_score ScorerExamples.other_series.
Proof.
  split; [discriminate|].
  apply (calculate_score_indicators_only
           ScorerExamples.joao_series ScorerExamples.other_series).
  intros ind Hin. unfold indicadores in Hin.
  repeat (apply elem_of_cons in Hin as [->|Hin]; [reflexivity|]).
  apply elem_of_nil in Hin. destruct Hin.
Defined.

(** C2. [get_classification] is a total function of the score alone:
    it answers Otimo (Excellent) exactly for 75 < s <= 100, Bom (Good)
    exactly for 50 < s <= 75, Suficiente (Sufficient) exactly for
    25 < s <= 50, and Regular for every other score, which includes every
    s <= 25; the lower bounds are exclusive: 76 is Otimo, 75 and 51 are
    Bom, 50 and 26 are Suficiente, 25 and 0 are Regular. *)
Theorem get_classification_intervals (s : Q) :
  ((get_classification s = Otimo <-> (75 < s /\ s <= 100)%Q)
   /\ (get_classification s = Bom <-> (50 < s /\ s <= 75)%Q)
   /\ (get_classification s = Suficiente <-> (25 < s /\ s <= 50)%Q)
   /\ (get_classification s = Regular <-> (s <= 25 \/ 100 < s)%Q))
  /\ get_classification 76 = Otimo
  /\ get_classification 75 = Bom
  /\ get_classification 51 = Bom
  /\ get_classification 50 = Suficiente
  /\ get_classification 26 = Suficiente
  /\ get_classification 25 = Regular
  /\ get_classification 0 = Regular.
Proof.
  split; [|repeat split; reflexivity].
  unfold get_classification.
  destruct (Qlt_bool 75 s) eqn:H75; destruct (Qle_bool s 100) eqn:H100;
    destruct (Qlt_bool 50 s) eqn:H50; destruct (Qle_bool s 75) eqn:H75';
    destruct (Qlt_bool 25 s) eqn:H25; destruct (Qle_bool s 50) eqn:H50';
    cbn [andb]; order_facts;
    repeat split; intros; try discriminate; try lra;
    try (exfalso; lra).
Qed.

Lemma get_classification_intervals_witness :
  get_classification (151 # 2) = Otimo /\ get_classification 20 = Regular.
Proof.
  split.
  - destruct (get_classification_intervals (151 # 2)) as [(Hotimo & _) _].
    apply Hotimo. unfold Qlt, Qle. simpl. lia.
  - destruct (get_classification_intervals 20) as [(_ & _ & _ & Hregular) _].
    apply Hregular. left. unfold Qle. simpl. lia.
Defined.

(** C7. For every practice column of a record set, the conformity rate
    is the number of records whose value is exactly "OK" divided by the
    number of records whose value is not null, times 100; with no
    non-null value the rate is 0. *)
Theorem compliance_rate (ind : string) (df_filtered : DataFrame) (col : list Cell) :
  getitem ind df_filtered = inr col ->
  compliance ind df_filtered
  = inr (if decide (present_count col = 0%nat) then 0
         else inject_Z (Z.of_nat (ok_count col))
              / inject_Z (Z.of_nat (present_count col)) * 100)%Q.
Proof.
  intros Hcol. unfold compliance. rewrite Hcol.
  rewrite (sum_bool_decide (fun c => c = Str "OK") (fun c => cell_eq_str c "OK"))
    by (intros c; apply cell_eq_str_decide).
  rewrite (sum_bool_decide (fun c => ~ (c = NaN \/ c = NaT)) notna)
    by (intros c; apply notna_decide).
  fold (ok_count col) (present_count col).
  case_decide as Hz.
  - rewrite Hz. reflexivity.
  - destruct (Z.ltb_spec 0 (Z.of_nat (present_count col))); [reflexivity|lia].
Qed.

Lemma compliance_rate_witness :
  compliance "B" ScorerExamples.b_not_measured = inr 0%Q
  /\ compliance "A" ScorerExamples.b_not_measured
     = inr (inject_Z 2 / inject_Z 2 * 100)%Q.
Proof.
  split.
  - apply (compliance_rate "B" ScorerExamples.b_not_measured [NaN; NaN; NaN]).
    reflexivity.
  - apply (compliance_rate "A" ScorerExamples.b_not_measured
             [Str "OK"; NaN; Str "OK"]).
    reflexivity.
Defined.

(** * The ingestor *)

Lemma accepted_frames_flat_map (items : list (string * DataFrame)) :
  accepted_frames items
  = flat_map (fun item => if sheet_accepted item then [normalized_frame item] else []) items.
Proof.
  unfold accepted_frames. induction items as [|item items IH]; [reflexivity|].
  cbn [List.filter flat_map].
  destruct (sheet_accepted item); cbn [map app]; rewrite IH; reflexivity.
Qed.

Lemma skipped_warnings_flat_map (items : list (string * DataFrame)) :
  skipped_warnings items
  = flat_map (fun item =>
                if sheet_accepted item then [] else [st_warning_sheet_ignored item.1]) items.
Proof.
  unfold skipped_warnings. induction items as [|item items IH]; [reflexivity|].
  cbn [List.filter flat_map].
  destruct (sheet_accepted item); cbn [negb map app]; rewrite IH; reflexivity.
Qed.

Lemma column_mask_lookup (df : DataFrame) (j : nat) (b : bool) :
  column_mask df !! j = Some b
  <-> (j < length (columns df))%nat
      /\ b = existsb (fun row => notna (cell_at j row)) (data df).
Proof.
  unfold column_mask. rewrite list_lookup_fmap. split.
  - intros H. destruct (seq 0 (length (columns df)) !! j) as [i|] eqn:Hi; [|discriminate].
    apply lookup_seq in Hi as [-> Hlt]. cbn in H. injection H as <-. split; [exact Hlt|reflexivity].
  - intros [Hlt ->]. rewrite lookup_seq_lt by exact Hlt. reflexivity.
Qed.

(** The value of [load_data] in every environment: it never raises. *)
Lemma load_data_value (env : Env) (file_path : string) :
  (load_data env file_path).1
  = inr (if os_path_exists env file_path then
           match pd_read_excel env file_path with
           | inr items => loaded_frame env items
           | inl _ => None
           end
         else None).
Proof.
  destruct (os_path_exists env file_path) eqn:Hex.
  - destruct (pd_read_excel env file_path) as [e|items] eqn:Hrd.
    + rewrite (load_data_unreadable env file_path e Hex Hrd). reflexivity.
    + destruct items as [|item items].
      * rewrite (load_data_no_sheets env file_path Hex Hrd). reflexivity.
      * rewrite (load_data_sheets env file_path _ Hex Hrd) by discriminate. reflexivity.
  - rewrite (load_data_missing env file_path Hex). reflexivity.
Qed.

Lemma load_data_frame (env : Env) (file_path : string) (items : list (string * DataFrame))
    (df : DataFrame) :
  pd_read_excel env file_path = inr items ->
  (load_data env file_path).1 = inr (Some df) ->
  List.filter sheet_accepted items <> []
  /\ df = {| columns := schema; data := dated_rows env (kept_rows items) |}.
Proof.
  intros Hrd. rewrite load_data_value, Hrd.
  destruct (os_path_exists env file_path); [|discriminate].
  unfold loaded_frame. destruct (List.filter sheet_accepted items); [discriminate|].
  intros [= <-]. split; [discriminate|reflexivity].
Qed.

(** C5. A missing file, a workbook without sheets and a failure of the
    workbook reader each end the ingestion with the no-data result: no
    frame, hence no row, is returned. *)
Theorem load_data_fatal (env : Env) (file_path : string) :
  (os_path_exists env file_path = false ->
   load_data env file_path = (inr None, [st_error_file_not_found file_path]))
  /\ (os_path_exists env file_path = true ->
      pd_read_excel env file_path = inr [] ->
      load_data env file_path = (inr None, [st_warning_no_sheets]))
  /\ (forall e : Exn,
        os_path_exists env file_path = true ->
        pd_read_excel env file_path = inl e ->
        load_data env file_path = (inr None, [st_error_read_failed file_path e])).
Proof.
  split; [|split].
  - apply load_data_missing.
  - apply load_data_no_sheets.
  - intros e. apply load_data_unreadable.
Qed.

Lemma load_data_fatal_witness :
  load_data (Samples.env_with (inr Samples.clinic_a)) "data/other.xlsx"
  = (inr None, [st_error_file_not_found "data/other.xlsx"])
  /\ load_data (Samples.env_with (inr [])) Samples.EXCEL_FILE_PATH
     = (inr None, [st_warning_no_sheets])
  /\ load_data (Samples.env_with (inl (ExcelError "not a zip file"))) Samples.EXCEL_FILE_PATH
     = (inr None,
        [st_error_read_failed Samples.EXCEL_FILE_PATH (ExcelError "not a zip file")]).
Proof.
  split; [|split].
  - apply (load_data_fatal (Samples.env_with (inr Samples.clinic_a)) "data/other.xlsx").
    reflexivity.
  - apply (load_data_fatal (Samples.env_with (inr [])) Samples.EXCEL_FILE_PATH);
      reflexivity.
  - apply (load_data_fatal (Samples.env_with (inl (ExcelError "not a zip file")))
             Samples.EXCEL_FILE_PATH); reflexivity.
Defined.

(** C6. [load_data] returns the no-data sentinel exactly when no sheet
    was accepted; as soon as one sheet is accepted it returns a frame,
    also when the required-field filter leaves that frame without rows. *)
Theorem load_data_sentinel (env : Env) (file_path : string) :
  ((load_data env file_path).1 = inr None <-> accepted_sheets env file_path = [])
  /\ (accepted_sheets env file_path <> []
      <-> exists df, (load_data env file_path).1 = inr (Some df)).
Proof.
  rewrite load_data_value. unfold accepted_sheets, loaded_frame.
  destruct (os_path_exists env file_path).
  - destruct (pd_read_excel env file_path) as [e|items].
    + split; [tauto|]. split; [congruence|]. intros [df H]. discriminate H.
    + destruct (List.filter sheet_accepted items) as [|it its].
      * split; [tauto|]. split; [congruence|]. intros [df H]. discriminate H.
      * split; [split; discriminate|]. split; [eauto|discriminate].
  - split; [tauto|]. split; [congruence|]. intros [df H]. discriminate H.
Qed.

Lemma load_data_sentinel_witness :
  exists df,
    (load_data (Samples.env_with (inr Samples.all_filtered)) Samples.EXCEL_FILE_PATH).1
    = inr (Some df)
    /\ data df = [].
Proof.
  destruct (load_data_sentinel (Samples.env_with (inr Samples.all_filtered))
              Samples.EXCEL_FILE_PATH) as [_ [Hsome _]].
  destruct Hsome as [df Hdf]; [discriminate|].
  exists df. split; [exact Hdf|].
  vm_compute in Hdf. injection Hdf as <-. reflexivity.
Defined.

(** ** Where the rows of the result come from *)

Lemma kept_row_origin (items : list (string * DataFrame)) (row : list Cell) :
  row ∈ kept_rows items ->
  required_present row = true
  /\ exists item, item ∈ items /\ sheet_accepted item = true /\ row ∈ tagged_rows item.
Proof.
  unfold kept_rows, combined_rows. rewrite list_elem_of_In, List.filter_In.
  intros [Hin Hreq]. split; [exact Hreq|].
  apply in_concat in Hin as (rows & Hrows & Hrow).
  apply in_map_iff in Hrows as (item & <- & Hitem).
  apply List.filter_In in Hitem as [Hitem Hacc].
  exists item. rewrite !list_elem_of_In. auto.
Qed.

Lemma dated_row_origin (env : Env) (rows : list (list Cell)) (row : list Cell) :
  row ∈ dated_rows env rows ->
  exists row1 dn, row1 ∈ rows /\ row = <[1%nat := dn]> row1.
Proof.
  unfold dated_rows. rewrite elem_of_lookup_imap. intros (k & row1 & -> & Hk).
  eexists row1, _. split; [|reflexivity].
  apply list_elem_of_lookup. exists k. exact Hk.
Qed.

Lemma unit_of_tagged_row (cells : list Cell) (dn u : Cell) :
  length cells = 15%nat ->
  series_get (combine schema (<[1%nat := dn]> (cells ++ [u]))) "Unidade" = inr u.
Proof.
  intros Hlen.
  do 15 (destruct cells as [|? cells]; [discriminate Hlen|]).
  destruct cells; [reflexivity|discriminate Hlen].
Qed.

(** C8. In the frame returned by [load_data], every row carries in its
    unit field the name of the accepted sheet it was read from, without
    the leading and trailing white space of that name. *)
Theorem load_data_unit_stripped (env : Env) (file_path : string)
    (items : list (string * DataFrame)) (df : DataFrame) :
  pd_read_excel env file_path = inr items ->
  Forall (fun item => rectangular item.2) items ->
  (load_data env file_path).1 = inr (Some df) ->
  forall row, row ∈ data df ->
    exists (unit_name : string) (sheet : DataFrame) (unit : string),
      (unit_name, sheet) ∈ items
      /\ unit = PyStr.strip unit_name
      /\ sheet_accepted (unit_name, sheet) = true
      /\ (exists row0 dn,
             row0 ∈ data (dropna_axis1_all sheet)
             /\ row = <[1%nat := dn]> (firstn 15 row0 ++ [Str unit]))
      /\ stripped_of unit_name unit
      /\ series_get (combine (columns df) row) "Unidade" = inr (Str unit).
Proof.
  intros Hrd Hrect Hload row Hrow.
  destruct (load_data_frame env file_path items df Hrd Hload) as [_ ->].
  cbn [data columns] in *.
  apply dated_row_origin in Hrow as (row1 & dn & Hrow1 & ->).
  apply kept_row_origin in Hrow1 as (_ & [unit_name sheet] & Hitem & Hacc & Htag).
  rewrite Forall_forall in Hrect. specialize (Hrect _ Hitem).
  destruct (tagged_rows_shape _ _ Hrect Hacc Htag) as (row0 & cells & Hrow0 & -> & Hlen & ->).
  cbn [fst snd] in *.
  exists unit_name, sheet, (PyStr.strip unit_name). repeat split.
  - exact Hitem.
  - exact Hacc.
  - exists row0, dn. split; [exact Hrow0|reflexivity].
  - apply PyStrFacts.strip_spec.
  - apply PyStrFacts.strip_spec.
  - apply PyStrFacts.strip_spec.
  - apply unit_of_tagged_row. exact Hlen.
Qed.

Lemma load_data_unit_stripped_witness :
  (load_data (Samples.env_with (inr Samples.clinic_a)) Samples.EXCEL_FILE_PATH).1
  = inr (Some Samples.clinic_a_loaded)
  /\ Forall (fun row =>
               series_get (combine (columns Samples.clinic_a_loaded) row) "Unidade"
               = inr (Str "Clinic A"))
            (data Samples.clinic_a_loaded).
Proof.
  split; [reflexivity|].
  apply Forall_forall. intros row Hrow.
  destruct (load_data_unit_stripped
              (Samples.env_with (inr Samples.clinic_a)) Samples.EXCEL_FILE_PATH
              Samples.clinic_a Samples.clinic_a_loaded)
    with (row := row)
    as (unit_name & sheet & unit & Hitem & Hunit & _ & _ & _ & Hget).
  - reflexivity.
  - repeat constructor.
  - reflexivity.
  - exact Hrow.
  - apply list_elem_of_singleton in Hitem. injection Hitem as -> ->.
    rewrite Hget, Hunit. reflexivity.
Defined.

(** ** Order of the rows *)

(** Assigning the parsed birth dates changes no other cell and moves no
    row. *)
Lemma dated_rows_other_cells (env : Env) (rows : list (list Cell)) :
  map (fun row => <[1%nat := NaN]> row) (dated_rows env rows)
  = map (fun row => <[1%nat := NaN]> row) rows.
Proof.
  unfold dated_rows.
  change (map (fun row : list Cell => <[1%nat := NaN]> row)) with
    (fmap (M := list) (fun row : list Cell => <[1%nat := NaN]> row)).
  rewrite fmap_imap.
  rewrite <- (imap_const (fun row : list Cell => <[1%nat := NaN]> row) rows).
  apply imap_ext.
  intros k row _. cbn. apply list_insert_insert_eq.
Qed.

Lemma dated_rows_lookup (env : Env) (rows : list (list Cell)) (k : nat)
    (row : list Cell) (r : option Z) :
  rows !! k = Some row ->
  pd_to_datetime env (map (cell_at 1) rows) !! k = Some r ->
  dated_rows env rows !! k = Some (<[1%nat := coerce r]> row).
Proof.
  intros Hrow Hr. unfold dated_rows. rewrite list_lookup_imap, Hrow. cbn.
  rewrite nth_lookup.
  change (map coerce) with (fmap (M := list) coerce).
  rewrite list_lookup_fmap, Hr. reflexivity.
Qed.

(** ** Birth dates that do not parse *)

(** Maria's birth date is the text "abc": the parser rejects it, and her
    row is in the returned frame, with a null birth date. *)
Lemma unparseable_birth_date_row_returned :
  pd_to_datetime (Samples.env_with (inr Samples.maria_only)) [Str "abc"] = [None]
  /\ load_data (Samples.env_with (inr Samples.maria_only)) Samples.EXCEL_FILE_PATH
     = (inr (Some {| columns := schema;
                     data :=
                       [ [ Str "Maria"; NaT; Num 1; Num 1; Str "OK"; Num 1; Str "OK";
                           Num 1; Str "X"; Num 1; Num 1; Num 1; Num 1; Str "X"; Str "OK";
                           Str "UBS Sul" ] ] |}),
        []).
Proof. split; reflexivity. Qed.

(** C3, amended. The required-field filter runs on the cells as read,
    before the birth dates are parsed: it removes exactly the rows whose
    name or birth-date cell is null.  Every remaining row is returned, at
    the same position; its birth date is the parsed date, or null when the
    parser rejects the cell, and a rejected cell makes neither the row
    disappear nor the load fail. *)
Theorem load_data_required_then_parsed (env : Env) (file_path : string)
    (items : list (string * DataFrame)) (df : DataFrame) :
  pd_read_excel env file_path = inr items ->
  (load_data env file_path).1 = inr (Some df) ->
  let candidates := concat (map tagged_rows (List.filter sheet_accepted items)) in
  let kept :=
    List.filter (fun row => notna (cell_at 0 row) && notna (cell_at 1 row)) candidates in
  let parsed := pd_to_datetime env (map (cell_at 1) kept) in
  length (data df) = length kept
  /\ (forall k row,
        kept !! k = Some row ->
        parsed !! k = Some None ->
        data df !! k = Some (<[1%nat := NaT]> row))
  /\ (forall k row t,
        kept !! k = Some row ->
        parsed !! k = Some (Some t) ->
        data df !! k = Some (<[1%nat := Timestamp t]> row)).
Proof.
  intros Hrd Hload candidates kept parsed.
  destruct (load_data_frame env file_path items df Hrd Hload) as [_ ->].
  cbn [data]. change (kept_rows items) with kept.
  split; [|split].
  - unfold dated_rows. apply length_imap.
  - intros k row Hrow Hnone.
    apply (dated_rows_lookup env kept k row None Hrow Hnone).
  - intros k row t Hrow Hsome.
    apply (dated_rows_lookup env kept k row (Some t) Hrow Hsome).
Qed.

Lemma load_data_required_then_parsed_witness :
  length (data Samples.clinic_a_loaded) = 2%nat
  /\ data Samples.clinic_a_loaded !! 0%nat
     = Some (<[1%nat := NaT]> (Samples.maria_unparseable ++ [Str "Clinic A"])).
Proof.
  destruct (load_data_required_then_parsed
              (Samples.env_with (inr Samples.clinic_a)) Samples.EXCEL_FILE_PATH
              Samples.clinic_a Samples.clinic_a_loaded)
    as (Hlen & Hnone & _).
  - reflexivity.
  - reflexivity.
  - split.
    + exact Hlen.
    + apply (Hnone 0%nat (Samples.maria_unparseable ++ [Str "Clinic A"])); reflexivity.
Defined.

(** ** [stripped_of] determines its result *)

Module PyStrUnique.
Import PyStr.

Lemma lstrip_all_space (s : string) : all_space s = true -> lstrip s = EmptyString.
Proof.
  induction s as [|c s IH]; [reflexivity|]. cbn [all_space lstrip].
  intros [Hc Hs]%andb_true_iff. rewrite Hc. apply IH. exact Hs.
Qed.

Lemma rstrip_all_space (s : string) : all_space s = true -> rstrip s = EmptyString.
Proof.
  induction s as [|c s IH]; [reflexivity|]. cbn [all_space rstrip].
  intros [Hc Hs]%andb_true_iff. rewrite (IH Hs), Hc. reflexivity.
Qed.

Lemma all_space_app (l r : string) :
  all_space l = true -> all_space r = true -> all_space (l +:+ r) = true.
Proof.
  intros Hl Hr. induction l as [|c l IH]; [exact Hr|].
  cbn [all_space] in Hl. apply andb_true_iff in Hl as [Hc Hl].
  change (all_space (String c (l +:+ r)) = true). cbn [all_space].
  rewrite Hc, (IH Hl). reflexivity.
Qed.

Lemma lstrip_app (l t : string) (c : ascii) :
  all_space l = true ->
  first_char t = Some c -> isspace c = false ->
  lstrip (l +:+ t) = t.
Proof.
  intros Hl Hfirst Hc. induction l as [|c' l IH].
  - destruct t as [|c0 t]; [discriminate|]. cbn in Hfirst. injection Hfirst as ->.
    change (lstrip (String c t) = String c t). cbn [lstrip]. rewrite Hc. reflexivity.
  - cbn [all_space] in Hl. apply andb_true_iff in Hl as [Hc' Hl].
    change (lstrip (String c' (l +:+ t)) = t). cbn [lstrip]. rewrite Hc'. apply IH. exact Hl.
Qed.

Lemma rstrip_app (t r : string) :
  all_space r = true ->
  (forall c, last_char t = Some c -> isspace c = false) ->
  rstrip (t +:+ r) = t.
Proof.
  intros Hr. induction t as [|c t IH]; intros Hlast.
  - apply rstrip_all_space. exact Hr.
  - change (rstrip (String c (t +:+ r)) = String c t). cbn [rstrip].
    destruct t as [|c' t'].
    + change (EmptyString +:+ r) with r. rewrite (rstrip_all_space r Hr).
      rewrite (Hlast c) by reflexivity. reflexivity.
    + rewrite IH by (intros c0 Hc0; apply Hlast; exact Hc0). reflexivity.
Qed.

Lemma stripped_of_unique (s t : string) : stripped_of s t -> t = strip s.
Proof.
  intros [(l & r & -> & Hl & Hr) [Hfirst Hlast]]. unfold strip.
  destruct t as [|c t].
  - change (EmptyString +:+ r) with r.
    rewrite lstrip_all_space by (apply all_space_app; assumption). reflexivity.
  - rewrite (lstrip_app l (String c t +:+ r) c Hl eq_refl) by (apply Hfirst; reflexivity).
    symmetry. apply rstrip_app; assumption.
Qed.

End PyStrUnique.

(** ** Every loaded record can be scored *)

Lemma indicators_of_tagged_row (cells : list Cell) (dn u : Cell) :
  length cells = 15%nat ->
  exists vals,
    length vals = 5%nat
    /\ Forall2 (fun ind v =>
                  series_get (combine schema (<[1%nat := dn]> (cells ++ [u]))) ind = inr v)
               indicadores vals.
Proof.
  intros Hlen.
  do 15 (destruct cells as [|? cells]; [discriminate Hlen|]).
  destruct cells; [|discriminate Hlen].
  eexists [_; _; _; _; _]. split; [reflexivity|].
  repeat constructor.
Qed.

(** X9. Loading and scoring compose: on every row of a frame returned by
    [load_data] from rectangular sheets, [calculate_score] finds the five
    practice fields (no [KeyError]) and returns a multiple of 20 between
    0 and 100. *)
Lemma calculate_score_on_loaded (env : Env) (file_path : string)
    (items : list (string * DataFrame)) (df : DataFrame) (row : Series) :
  pd_read_excel env file_path = inr items ->
  Forall (fun item => rectangular item.2) items ->
  (load_data env file_path).1 = inr (Some df) ->
  row ∈ iterrows df ->
  exists n : nat,
    (n <= 5)%nat /\ calculate_score row = inr (20 * Z.of_nat n)%Z.
Proof.
  intros Hrd Hrect Hload Hrow.
  destruct (load_data_frame env file_path items df Hrd Hload) as [_ ->].
  unfold iterrows in Hrow. cbn [data columns] in Hrow.
  apply list_elem_of_fmap in Hrow as (cells & -> & Hcells).
  apply dated_row_origin in Hcells as (row1 & dn & Hrow1 & ->).
  apply kept_row_origin in Hrow1 as (_ & item & Hitem & Hacc & Htag).
  rewrite Forall_forall in Hrect. specialize (Hrect _ Hitem).
  destruct (tagged_rows_shape _ _ Hrect Hacc Htag) as (row0 & cs & _ & _ & Hlen & ->).
  destruct (indicators_of_tagged_row cs dn (Str (PyStr.strip item.1)) Hlen)
    as (vals & Hvals & Hget).
  exists (ok_count vals). split.
  - rewrite <- Hvals. apply ok_count_le.
  - unfold calculate_score. rewrite (score_loop_spec _ _ vals _ Hget). f_equal.
Qed.

(** ** Conformity rates are percentages *)

Lemma ok_count_le_present (col : list Cell) : (ok_count col <= present_count col)%nat.
Proof.
  unfold ok_count, present_count. induction col as [|c col IH]; [reflexivity|].
  rewrite !filter_cons. destruct (decide (c = Str "OK")) as [->|Hne].
  - rewrite decide_True by (intros [H|H]; discriminate H). cbn [length]. lia.
  - destruct (decide (~ (c = NaN \/ c = NaT))); cbn [length]; lia.
Qed.

Lemma compliance_bounds (ind : string) (df_filtered : DataFrame) (col : list Cell) :
  getitem ind df_filtered = inr col ->
  exists rate : Q,
    compliance ind df_filtered = inr rate /\ (0 <= rate)%Q /\ (rate <= 100)%Q.
Proof.
  intros Hcol. unfold compliance. rewrite Hcol.
  rewrite (sum_bool_decide (fun c => c = Str "OK") (fun c => cell_eq_str c "OK"))
    by (intros c; apply cell_eq_str_decide).
  rewrite (sum_bool_decide (fun c => ~ (c = NaN \/ c = NaT)) notna)
    by (intros c; apply notna_decide).
  fold (ok_count col) (present_count col).
  pose proof (ok_count_le_present col) as Hle.
  eexists. split; [reflexivity|].
  destruct (Z.ltb_spec 0 (Z.of_nat (present_count col))) as [Hpos|Hzero].
  - assert (0 < inject_Z (Z.of_nat (present_count col)))%Q as Hq
        by (unfold Qlt; cbn; lia).
    assert (0 <= inject_Z (Z.of_nat (ok_count col))
                 / inject_Z (Z.of_nat (present_count col)))%Q as Hlo.
    { apply Qle_shift_div_l; [exact Hq|]. unfold Qle. cbn. lia. }
    assert (inject_Z (Z.of_nat (ok_count col))
            / inject_Z (Z.of_nat (present_count col)) <= 1)%Q as Hhi.
    { apply Qle_shift_div_r; [exact Hq|]. unfold Qle. cbn. lia. }
    split; lra.
  - split; lra.
Qed.

(** On a frame that has the five practice columns, the loop building
    [compliance_data] yields one rate per practice, in the order A to E. *)
Lemma compliance_data_complete (df_filtered : DataFrame) :
  (forall ind, ind ∈ indicadores -> exists col, getitem ind df_filtered = inr col) ->
  exists rates,
    compliance_data indicadores df_filtered = inr rates
    /\ map fst rates = indicadores.
Proof.
  generalize indicadores as inds. induction inds as [|ind inds IH]; intros Hcols.
  - exists []. split; reflexivity.
  - destruct (Hcols ind) as [col Hcol]; [apply list_elem_of_here|].
    destruct (compliance_bounds ind df_filtered col Hcol) as (rate & Hrate & _).
    destruct IH as (rates & Hrates & Hfst).
    { intros ind' Hin. apply Hcols. apply list_elem_of_further. exact Hin. }
    exists ((ind, rate) :: rates). cbn [compliance_data]. rewrite Hrate, Hrates.
    split; [reflexivity|]. cbn. rewrite Hfst. reflexivity.
Qed.

(** * Further properties of the loader *)

(** ** Column masks *)

Lemma select_lookup {A : Type} (mask : list bool) (l : list A) (j : nat) :
  (length mask <= length l)%nat ->
  select mask l !! j = kept_index mask j ≫= (fun i => l !! i).
Proof.
  revert l j. induction mask as [|b mask IH]; intros l j Hlen.
  - destruct l; reflexivity.
  - destruct l as [|x l]; [cbn in Hlen; lia|]. cbn in Hlen.
    assert (length mask <= length l)%nat as Hlen' by lia.
    destruct b; cbn [select kept_index].
    + destruct j as [|j]; [reflexivity|].
      change ((x :: select mask l) !! S j) with (select mask l !! j).
      rewrite (IH l j Hlen'). destruct (kept_index mask j); reflexivity.
    + rewrite (IH l j Hlen'). destruct (kept_index mask j); reflexivity.
Qed.

Lemma kept_index_true (mask : list bool) (j i : nat) :
  kept_index mask j = Some i -> mask !! i = Some true /\ (j <= i)%nat.
Proof.
  revert j i. induction mask as [|b mask IH]; intros j i; [discriminate|].
  destruct b; cbn [kept_index].
  - destruct j as [|j].
    + intros [= <-]. split; [reflexivity|lia].
    + destruct (kept_index mask j) as [i'|] eqn:Hk; [|discriminate].
      intros [= <-]. destruct (IH j i' Hk). split; [assumption|lia].
  - destruct (kept_index mask j) as [i'|] eqn:Hk; [|discriminate].
    intros [= <-]. destruct (IH j i' Hk). split; [assumption|lia].
Qed.

Lemma length_column_mask (df : DataFrame) :
  length (column_mask df) = length (columns df).
Proof. unfold column_mask. rewrite length_map, length_seq. reflexivity. Qed.

Lemma select_all_true {A : Type} (mask : list bool) (l : list A) :
  Forall (fun b => b = true) mask ->
  (length l <= length mask)%nat ->
  select mask l = l.
Proof.
  intros Hall. revert l. induction Hall as [|b mask -> _ IH]; intros l Hlen.
  - destruct l; [reflexivity|cbn in Hlen; lia].
  - destruct l as [|x l]; [reflexivity|]. cbn in Hlen. cbn [select].
    rewrite IH by lia. reflexivity.
Qed.

Lemma select_all_false {A : Type} (mask : list bool) (l : list A) :
  Forall (fun b => b = false) mask -> select mask l = [].
Proof.
  intros Hall. revert l. induction Hall as [|b mask -> _ IH]; intros l.
  - destruct l; reflexivity.
  - destruct l as [|x l]; [reflexivity|]. cbn [select]. apply IH.
Qed.

(** ** Outcomes and messages *)

Lemma filter_partition_length {A : Type} (f : A -> bool) (l : list A) :
  (length (List.filter f l) + length (List.filter (fun x => negb (f x)) l)
   = length l)%nat.
Proof.
  induction l as [|x l IH]; [reflexivity|].
  cbn [List.filter]. destruct (f x); cbn [negb length]; lia.
Qed.

Lemma skipped_warnings_no_error (items : list (string * DataFrame)) :
  List.filter is_error (skipped_warnings items) = [].
Proof.
  unfold skipped_warnings.
  induction (List.filter (fun item => negb (sheet_accepted item)) items) as [|it its IH];
    [reflexivity|exact IH].
Qed.

(** X1. No exception leaves [load_data]: the reader's exception is caught,
    and the width gate makes the column assignment, the concatenation and
    the label lookups safe.  It shows at most one error message, exactly
    when the file is missing or the reader fails, and the result is then
    the no-data value. *)
Theorem load_data_no_exception (env : Env) (file_path : string) :
  exists v : option DataFrame,
    (load_data env file_path).1 = inr v
    /\ (length (List.filter is_error (load_data env file_path).2) <= 1)%nat
    /\ (List.filter is_error (load_data env file_path).2 = []
        <-> os_path_exists env file_path = true
            /\ exists items, pd_read_excel env file_path = inr items)
    /\ (List.filter is_error (load_data env file_path).2 <> [] -> v = None).
Proof.
  destruct (os_path_exists env file_path) eqn:Hex.
  - destruct (pd_read_excel env file_path) as [e|items] eqn:Hrd.
    + rewrite (load_data_unreadable env file_path e Hex Hrd).
      exists None. cbn. split; [reflexivity|]. split; [lia|]. split; [|reflexivity].
      split; [discriminate|]. intros [_ [items Hitems]]. discriminate Hitems.
    + destruct items as [|item items].
      * rewrite (load_data_no_sheets env file_path Hex Hrd).
        exists None. cbn. split; [reflexivity|]. split; [lia|]. split; [|reflexivity].
        split; eauto.
      * rewrite (load_data_sheets env file_path _ Hex Hrd) by discriminate.
        eexists. cbn [fst snd]. rewrite skipped_warnings_no_error.
        cbn. split; [reflexivity|]. split; [lia|]. split; [|congruence].
        split; eauto.
  - rewrite (load_data_missing env file_path Hex).
    exists None. cbn. split; [reflexivity|]. split; [lia|]. split; [|reflexivity].
    split; [discriminate|]. intros [Hfalse _]. discriminate Hfalse.
Qed.

(** X2. On a readable workbook with at least one sheet, every sheet is
    either accepted or reported: the accepted sheets and the messages
    together are as many as the sheets, and every message is the warning
    of a sheet that failed the width gate. *)
Theorem load_data_sheets_accounted (env : Env) (file_path : string)
    (items : list (string * DataFrame)) :
  os_path_exists env file_path = true ->
  pd_read_excel env file_path = inr items ->
  items <> [] ->
  (length (accepted_sheets env file_path) + length (load_data env file_path).2
   = length items)%nat
  /\ Forall (fun d => exists unit_name df,
                 (unit_name, df) ∈ items
                 /\ sheet_accepted (unit_name, df) = false
                 /\ d = st_warning_sheet_ignored unit_name)
            (load_data env file_path).2.
Proof.
  intros Hex Hrd Hne.
  rewrite (load_data_sheets env file_path items Hex Hrd Hne). cbn [snd].
  unfold accepted_sheets. rewrite Hex, Hrd. split.
  - unfold skipped_warnings. rewrite length_map. apply filter_partition_length.
  - unfold skipped_warnings. rewrite Forall_map, Forall_forall.
    intros [unit_name df] Hin. apply list_elem_of_In, List.filter_In in Hin as [Hin Hacc].
    exists unit_name, df. repeat split.
    + apply list_elem_of_In. exact Hin.
    + apply negb_true_iff. exact Hacc.
Qed.

Lemma load_data_sheets_accounted_witness :
  (length (accepted_sheets (Samples.env_with (inr Samples.two_units))
             Samples.EXCEL_FILE_PATH)
   + length (load_data (Samples.env_with (inr Samples.two_units))
               Samples.EXCEL_FILE_PATH).2
   = 3)%nat.
Proof.
  apply (load_data_sheets_accounted (Samples.env_with (inr Samples.two_units))
           Samples.EXCEL_FILE_PATH Samples.two_units);
    [reflexivity | reflexivity | discriminate].
Defined.

(** ** Shape of the returned frame *)

Lemma schema_NoDup : NoDup schema.
Proof. compute_done. Qed.

Lemma dated_row_value (env : Env) (rows : list (list Cell)) (row : list Cell) :
  row ∈ dated_rows env rows ->
  exists row1 dn,
    row1 ∈ rows /\ row = <[1%nat := dn]> row1
    /\ (dn = NaN \/ dn = NaT \/ exists t, dn = Timestamp t).
Proof.
  unfold dated_rows. rewrite elem_of_lookup_imap. intros (k & row1 & -> & Hk).
  eexists row1, _. split; [|split; [reflexivity|]].
  - apply list_elem_of_lookup. exists k. exact Hk.
  - rewrite nth_lookup.
    change (map coerce) with (fmap (M := list) coerce). rewrite list_lookup_fmap.
    destruct (pd_to_datetime env (map (cell_at 1) rows) !! k) as [[t|]|]; cbn; eauto.
Qed.

Lemma loaded_row_shape (env : Env) (items : list (string * DataFrame)) (row : list Cell) :
  Forall (fun item => rectangular item.2) items ->
  row ∈ dated_rows env (kept_rows items) ->
  exists cells dn unit_name,
    length cells = 15%nat
    /\ row = <[1%nat := dn]> (cells ++ [Str (PyStr.strip unit_name)])
    /\ required_present (cells ++ [Str (PyStr.strip unit_name)]) = true
    /\ (dn = NaN \/ dn = NaT \/ exists t, dn = Timestamp t).
Proof.
  intros Hrect Hrow.
  apply dated_row_value in Hrow as (row1 & dn & Hrow1 & -> & Hdn).
  apply kept_row_origin in Hrow1 as (Hreq & item & Hitem & Hacc & Htag).
  rewrite Forall_forall in Hrect. specialize (Hrect _ Hitem).
  destruct (tagged_rows_shape _ _ Hrect Hacc Htag) as (row0 & cells & _ & _ & Hlen & ->).
  exists cells, dn, item.1. auto.
Qed.

(** X3. Every frame returned by [load_data] carries the 16 labels of the
    schema, all different, and, when the sheets read are rectangular, one
    cell per label in every row. *)
Theorem load_data_frame_shape (env : Env) (file_path : string)
    (items : list (string * DataFrame)) (df : DataFrame) :
  pd_read_excel env file_path = inr items ->
  Forall (fun item => rectangular item.2) items ->
  (load_data env file_path).1 = inr (Some df) ->
  columns df = column_names ++ ["Unidade"]
  /\ length (columns df) = 16%nat
  /\ NoDup (columns df)
  /\ rectangular df.
Proof.
  intros Hrd Hrect Hload.
  destruct (load_data_frame env file_path items df Hrd Hload) as [_ ->].
  cbn [columns]. repeat split.
  - apply schema_NoDup.
  - unfold rectangular. cbn [data columns]. apply Forall_forall. intros row Hrow.
    destruct (loaded_row_shape env items row Hrect Hrow)
      as (cells & dn & unit_name & Hlen & -> & _).
    rewrite length_insert, length_app, Hlen. reflexivity.
Qed.

Lemma load_data_frame_shape_witness :
  columns Samples.clinic_a_loaded = column_names ++ ["Unidade"]
  /\ length (columns Samples.clinic_a_loaded) = 16%nat
  /\ NoDup (columns Samples.clinic_a_loaded)
  /\ rectangular Samples.clinic_a_loaded.
Proof.
  apply (load_data_frame_shape (Samples.env_with (inr Samples.clinic_a))
           Samples.EXCEL_FILE_PATH Samples.clinic_a Samples.clinic_a_loaded).
  - reflexivity.
  - repeat constructor.
  - reflexivity.
Defined.

(** X4. In a frame returned by [load_data] every row has a name, a unit
    that is a string, and a birth date that is a time stamp or null: the
    text of a birth-date cell never reaches the result. *)
Theorem load_data_row_fields (env : Env) (file_path : string)
    (items : list (string * DataFrame)) (df : DataFrame) (row : list Cell) :
  pd_read_excel env file_path = inr items ->
  Forall (fun item => rectangular item.2) items ->
  (load_data env file_path).1 = inr (Some df) ->
  row ∈ data df ->
  isna (cell_at 0 row) = false
  /\ (exists unit, cell_at 15 row = Str unit)
  /\ (isna (cell_at 1 row) = true \/ exists t, cell_at 1 row = Timestamp t).
Proof.
  intros Hrd Hrect Hload Hrow.
  destruct (load_data_frame env file_path items df Hrd Hload) as [_ ->].
  cbn [data] in Hrow.
  destruct (loaded_row_shape env items row Hrect Hrow)
    as (cells & dn & unit_name & Hlen & -> & Hreq & Hdn).
  do 15 (destruct cells as [|? cells]; [discriminate Hlen|]).
  destruct cells; [|discriminate Hlen].
  unfold required_present, notna in Hreq. cbn in Hreq.
  apply andb_true_iff in Hreq as [Hname _]. apply negb_true_iff in Hname.
  cbn. repeat split.
  - exact Hname.
  - eauto.
  - destruct Hdn as [->|[->|[t ->]]]; cbn; eauto.
Qed.

Lemma load_data_row_fields_witness :
  isna (cell_at 0 (Samples.joao ++ [Str "Clinic A"])) = false
  /\ (exists unit, cell_at 15 (Samples.joao ++ [Str "Clinic A"]) = Str unit)
  /\ (isna (cell_at 1 (Samples.joao ++ [Str "Clinic A"])) = true
      \/ exists t, cell_at 1 (Samples.joao ++ [Str "Clinic A"]) = Timestamp t).
Proof.
  apply (load_data_row_fields (Samples.env_with (inr Samples.clinic_a))
           Samples.EXCEL_FILE_PATH Samples.clinic_a Samples.clinic_a_loaded).
  - reflexivity.
  - repeat constructor.
  - reflexivity.
  - apply list_elem_of_In. right. left. reflexivity.
Defined.

(** ** Empty sheets and empty columns *)

Lemma column_mask_no_rows (cols : list string) :
  Forall (fun b => b = false) (column_mask {| columns := cols; data := [] |}).
Proof.
  unfold column_mask. cbn [columns data]. rewrite Forall_map.
  apply Forall_forall. intros j _. reflexivity.
Qed.

Lemma sheet_without_rows_rejected (unit_name : string) (df : DataFrame) :
  data df = [] -> sheet_accepted (unit_name, df) = false.
Proof.
  destruct df as [cols rows]. cbn [data]. intros ->.
  unfold sheet_accepted, dropna_axis1_all. cbn [snd columns].
  rewrite select_all_false by apply column_mask_no_rows. reflexivity.
Qed.

(** X5. A sheet without data rows never passes the width gate, however
    many header cells it has: all its columns count as empty.  A workbook
    made of such sheets loads as no data, with one warning per sheet. *)
Theorem load_data_sheets_without_rows (env : Env) (file_path : string)
    (items : list (string * DataFrame)) :
  os_path_exists env file_path = true ->
  pd_read_excel env file_path = inr items ->
  items <> [] ->
  Forall (fun item => data item.2 = []) items ->
  load_data env file_path
  = (inr None, map (fun item => st_warning_sheet_ignored item.1) items).
Proof.
  intros Hex Hrd Hne Hempty.
  rewrite (load_data_sheets env file_path items Hex Hrd Hne).
  unfold loaded_frame, skipped_warnings.
  assert (forall item, In item items -> sheet_accepted item = false) as Hrej.
  { intros [unit_name df] Hin. apply sheet_without_rows_rejected.
    rewrite Forall_forall in Hempty. apply (Hempty (unit_name, df)).
    apply list_elem_of_In. exact Hin. }
  clear Hrd Hne Hempty. induction items as [|item items IH]; [reflexivity|].
  cbn [List.filter]. rewrite (Hrej item) by (left; reflexivity). cbn [negb map].
  assert (forall it, In it items -> sheet_accepted it = false) as Hrej'
      by (intros it Hit; apply Hrej; right; exact Hit).
  specialize (IH Hrej').
  destruct (List.filter sheet_accepted items); [|discriminate IH].
  injection IH as IH. rewrite IH. reflexivity.
Qed.

Lemma load_data_sheets_without_rows_witness :
  load_data
    (Samples.env_with
       (inr [("UBS Vazia", {| columns := Samples.raw_header ++ ["c16"]; data := [] |})]))
    Samples.EXCEL_FILE_PATH
  = (inr None, [st_warning_sheet_ignored "UBS Vazia"]).
Proof.
  apply (load_data_sheets_without_rows
           (Samples.env_with
              (inr [("UBS Vazia",
                     {| columns := Samples.raw_header ++ ["c16"]; data := [] |})]))
           Samples.EXCEL_FILE_PATH
           [("UBS Vazia", {| columns := Samples.raw_header ++ ["c16"]; data := [] |})]).
  - reflexivity.
  - reflexivity.
  - discriminate.
  - repeat constructor.
Defined.

(** X7. A rectangular sheet in which every column has a value is left
    unchanged by the removal of empty columns. *)
Theorem dropna_axis1_all_full (df : DataFrame) :
  rectangular df ->
  (forall j, (j < length (columns df))%nat ->
             exists row, row ∈ data df /\ isna (cell_at j row) = false) ->
  dropna_axis1_all df = df.
Proof.
  intros Hrect Hfull.
  assert (Forall (fun b => b = true) (column_mask df)) as Hall.
  { apply Forall_lookup. intros j b Hb.
    apply column_mask_lookup in Hb as [Hlt ->].
    destruct (Hfull j Hlt) as (row & Hin & Hrow).
    apply existsb_exists. exists row. split; [apply list_elem_of_In; exact Hin|].
    unfold notna. rewrite Hrow. reflexivity. }
  pose proof (length_column_mask df) as Hmask.
  destruct df as [cols rows]. unfold dropna_axis1_all. cbn [columns data] in *.
  f_equal.
  - apply select_all_true; [exact Hall|lia].
  - transitivity (map (fun row : list Cell => row) rows); [|apply map_id].
    apply map_ext_in. intros row Hin.
    unfold rectangular in Hrect. cbn [columns data] in Hrect.
    rewrite Forall_forall in Hrect. specialize (Hrect row).
    apply select_all_true; [exact Hall|].
    rewrite Hrect by (apply list_elem_of_In; exact Hin). lia.
Qed.

Lemma dropna_axis1_all_full_witness :
  dropna_axis1_all (Samples.sheet [Samples.maria_unparseable])
  = Samples.sheet [Samples.maria_unparseable].
Proof.
  apply (dropna_axis1_all_full (Samples.sheet [Samples.maria_unparseable])).
  - repeat constructor.
  - intros j Hj. exists Samples.maria_unparseable.
    split; [apply list_elem_of_here|].
    cbn in Hj. do 15 (destruct j as [|j]; [reflexivity|]). lia.
Defined.

(** ** The cache *)

(** X8. The cache is keyed by the path alone: once a path has been
    asked for, every later call for it returns the stored frame and
    messages, whatever the file system and the workbook have become in
    the meantime. *)
Theorem load_data_cached_stale (env env' : Env) (file_path : string)
    (cache : gmap string (option DataFrame * list Diagnostic)) :
  (load_data_cached env' file_path (load_data_cached env file_path cache).2).1
  = (load_data_cached env file_path cache).1.
Proof.
  unfold load_data_cached.
  destruct (cache !! file_path) as [[v msgs]|] eqn:Hhit.
  - cbn [fst snd]. rewrite Hhit. reflexivity.
  - pose proof (load_data_value env file_path) as Hval.
    destruct (load_data env file_path) as [[e|v] msgs]; [discriminate Hval|].
    cbn [fst snd]. rewrite lookup_insert_eq. reflexivity.
Qed.

(** * Further properties of the scorer *)

Lemma calculate_score_on_loaded_witness :
  exists n : nat,
    (n <= 5)%nat
    /\ calculate_score
         (combine (columns Samples.clinic_a_loaded) (Samples.joao ++ [Str "Clinic A"]))
       = inr (20 * Z.of_nat n)%Z.
Proof.
  apply (calculate_score_on_loaded (Samples.env_with (inr Samples.clinic_a))
           Samples.EXCEL_FILE_PATH Samples.clinic_a Samples.clinic_a_loaded).
  - reflexivity.
  - repeat constructor.
  - reflexivity.
  - apply list_elem_of_In. right. left. reflexivity.
Defined.

Lemma series_get_error (row : Series) (label : string) (e : Exn) :
  series_get row label = inl e -> e = KeyError label.
Proof.
  induction row as [|[l v] row IH]; cbn [series_get].
  - intros [= <-]. reflexivity.
  - destruct (String.eqb l label); [discriminate|exact IH].
Qed.

Lemma score_loop_missing (row : Series) (inds : list string) (acc : Z) :
  (exists ind e, ind ∈ inds /\ series_get row ind = inl e) ->
  exists missing,
    missing ∈ inds
    /\ series_get row missing = inl (KeyError missing)
    /\ score_loop row inds acc = inl (KeyError missing).
Proof.
  revert acc. induction inds as [|ind0 inds IH]; intros acc (ind & e & Hin & Hget).
  - apply elem_of_nil in Hin. destruct Hin.
  - cbn [score_loop]. destruct (series_get row ind0) as [e0|v0] eqn:H0.
    + pose proof (series_get_error _ _ _ H0) as ->.
      exists ind0. split; [apply list_elem_of_here|]. split; [exact H0|reflexivity].
    + apply elem_of_cons in Hin as [->|Hin]; [congruence|].
      destruct (IH (if cell_eq_str v0 "OK" then (acc + 20)%Z else acc))
        as (missing & Hm & Hgm & Hloop); [eauto|].
      exists missing. split; [apply list_elem_of_further; exact Hm|]. split; assumption.
Qed.

(** X10. A row that lacks one of the five practice fields is not scored:
    [calculate_score] raises the [KeyError] of a missing practice label,
    whatever the other fields hold. *)
Theorem calculate_score_missing_field (row : Series) (ind : string) (e : Exn) :
  ind ∈ indicadores ->
  series_get row ind = inl e ->
  exists missing,
    missing ∈ indicadores
    /\ series_get row missing = inl (KeyError missing)
    /\ calculate_score row = inl (KeyError missing).
Proof.
  intros Hin Hget. unfold calculate_score. apply score_loop_missing. eauto.
Qed.

Lemma calculate_score_missing_field_witness :
  exists missing,
    missing ∈ indicadores
    /\ series_get (combine Samples.raw_header Samples.joao) missing
       = inl (KeyError missing)
    /\ calculate_score (combine Samples.raw_header Samples.joao)
       = inl (KeyError missing).
Proof.
  apply (calculate_score_missing_field
           (combine Samples.raw_header Samples.joao) "C" (KeyError "C")).
  - apply list_elem_of_In. right. right. left. reflexivity.
  - reflexivity.
Defined.

(** X11. Scoring and classification compose by the number of fulfilled
    practices: four or five "OK" give Otimo, three give Bom, two give
    Suficiente, one or none give Regular. *)
Theorem classification_by_ok_count (row : Series) (a b c d e : Cell) :
  series_get row "A" = inr a ->
  series_get row "B" = inr b ->
  series_get row "C" = inr c ->
  series_get row "D" = inr d ->
  series_get row "E" = inr e ->
  exists score : Z,
    calculate_score row = inr score
    /\ get_classification (inject_Z score)
       = match ok_count [a; b; c; d; e] with
         | 0 | 1 => Regular
         | 2 => Suficiente
         | 3 => Bom
         | _ => Otimo
         end%nat.
Proof.
  intros Ha Hb Hc Hd He.
  exists (0 + 20 * Z.of_nat (ok_count [a; b; c; d; e]))%Z. split.
  - unfold calculate_score, indicadores. apply score_loop_spec.
    repeat constructor; assumption.
  - pose proof (ok_count_le [a; b; c; d; e]) as Hle. cbn [length] in Hle.
    destruct (ok_count [a; b; c; d; e]) as [|[|[|[|[|[|n]]]]]];
      [reflexivity | reflexivity | reflexivity | reflexivity | reflexivity
      | reflexivity | lia].
Qed.

Lemma classification_by_ok_count_witness :
  exists score : Z,
    calculate_score ScorerExamples.joao_series = inr score
    /\ get_classification (inject_Z score) = Suficiente.
Proof.
  apply (classification_by_ok_count ScorerExamples.joao_series
           (Str "OK") (Str "ok") (Str " OK") NaN (Str "OK")); reflexivity.
Defined.

Lemma get_classification_cases (s : Q) :
  ((75 < s /\ s <= 100)%Q /\ get_classification s = Otimo)
  \/ ((50 < s /\ s <= 75)%Q /\ get_classification s = Bom)
  \/ ((25 < s /\ s <= 50)%Q /\ get_classification s = Suficiente)
  \/ ((s <= 25 \/ 100 < s)%Q /\ get_classification s = Regular).
Proof.
  unfold get_classification.
  destruct (Qlt_bool 75 s) eqn:H75; destruct (Qle_bool s 100) eqn:H100;
    destruct (Qlt_bool 50 s) eqn:H50; destruct (Qle_bool s 75) eqn:H75';
    destruct (Qlt_bool 25 s) eqn:H25; destruct (Qle_bool s 50) eqn:H50';
    cbn [andb]; order_facts;
    first [ left; split; [split; assumption|reflexivity]
          | right; left; split; [split; assumption|reflexivity]
          | right; right; left; split; [split; assumption|reflexivity]
          | right; right; right; split; [|reflexivity];
            first [left; lra | right; lra] ].
Qed.

(** X12. Up to 100 the tier never falls when the score rises; a score
    above 100 falls back to the lowest tier. *)
Theorem get_classification_monotone (s1 s2 : Q) :
  (s1 <= s2)%Q ->
  ((s2 <= 100)%Q -> (rank (get_classification s1) <= rank (get_classification s2))%nat)
  /\ ((100 < s2)%Q -> get_classification s2 = Regular).
Proof.
  intros Hle. split.
  - intros H100.
    destruct (get_classification_cases s1) as [[H1 ->]|[[H1 ->]|[[H1 ->]|[H1 ->]]]];
      destruct (get_classification_cases s2) as [[H2 ->]|[[H2 ->]|[[H2 ->]|[H2 ->]]]];
      cbn [rank]; try lia; exfalso; lra.
  - intros H100.
    destruct (get_classification_cases s2) as [[H2 _]|[[H2 _]|[[H2 _]|[_ H2]]]];
      [exfalso; lra | exfalso; lra | exfalso; lra | exact H2].
Qed.

Lemma get_classification_monotone_witness :
  (rank (get_classification 40) <= rank (get_classification 60))%nat
  /\ get_classification 120 = Regular.
Proof.
  destruct (get_classification_monotone 40 60) as [Hmono _].
  { unfold Qle. simpl. lia. }
  destruct (get_classification_monotone 40 120) as [_ Habove].
  { unfold Qle. simpl. lia. }
  split.
  - apply Hmono. unfold Qle. simpl. lia.
  - apply Habove. unfold Qlt. simpl. lia.
Defined.

(** * Further properties of the conformity rates *)

Lemma inject_Z_pos (n : nat) : (0 < n)%nat -> (0 < inject_Z (Z.of_nat n))%Q.
Proof. intros Hn. unfold Qlt. cbn. lia. Qed.

Lemma percentage_facts (ok total : nat) :
  (ok <= total)%nat -> (0 < total)%nat ->
  let rate := (inject_Z (Z.of_nat ok) / inject_Z (Z.of_nat total) * 100)%Q in
  (0 <= rate)%Q /\ (rate <= 100)%Q
  /\ (rate == 0 <-> ok = 0%nat)%Q
  /\ (rate == 100 <-> ok = total)%Q.
Proof.
  intros Hle Hpos rate.
  pose proof (inject_Z_pos total Hpos) as Hq.
  set (a := inject_Z (Z.of_nat ok)) in *. set (b := inject_Z (Z.of_nat total)) in *.
  assert (0 <= a)%Q as Ha by (unfold a, Qle; cbn; lia).
  assert (a <= b)%Q as Hab by (unfold a, b, Qle; cbn; lia).
  assert (b * (a / b) == a)%Q as Hdiv by (apply Qmult_div_r; lra).
  assert (0 <= a / b)%Q as Hlo by (apply Qle_shift_div_l; [exact Hq|lra]).
  assert (a / b <= 1)%Q as Hhi by (apply Qle_shift_div_r; [exact Hq|lra]).
  unfold rate. repeat split; try lra.
  - intros Hzero. assert (a / b == 0)%Q as Hq0 by lra.
    rewrite Hq0 in Hdiv. assert (a == 0)%Q as Ha0 by lra.
    unfold a, Qeq in Ha0. cbn in Ha0. lia.
  - intros ->. unfold a. cbn. reflexivity.
  - intros Hfull. assert (a / b == 1)%Q as Hq1 by lra.
    rewrite Hq1 in Hdiv. assert (a == b)%Q as Heq by lra.
    unfold a, b, Qeq in Heq. cbn in Heq. lia.
  - intros Heq. assert (a / b == 1)%Q as Hone.
    { unfold a. rewrite Heq. fold b. apply Qmult_inv_r. lra. }
    lra.
Qed.

(** X13. A conformity rate is a percentage: it lies between 0 and 100,
    it is 0 exactly when no value of the column is "OK", and it is 100
    exactly when the column has a non-null value and all its non-null
    values are "OK". *)
Theorem compliance_percentage (ind : string) (df_filtered : DataFrame)
    (col : list Cell) :
  getitem ind df_filtered = inr col ->
  exists rate : Q,
    compliance ind df_filtered = inr rate
    /\ (0 <= rate)%Q /\ (rate <= 100)%Q
    /\ (rate == 0 <-> ok_count col = 0%nat)%Q
    /\ (rate == 100 <-> present_count col <> 0%nat /\ ok_count col = present_count col)%Q.
Proof.
  intros Hcol. unfold compliance. rewrite Hcol.
  rewrite (sum_bool_decide (fun c => c = Str "OK") (fun c => cell_eq_str c "OK"))
    by (intros c; apply cell_eq_str_decide).
  rewrite (sum_bool_decide (fun c => ~ (c = NaN \/ c = NaT)) notna)
    by (intros c; apply notna_decide).
  fold (ok_count col) (present_count col).
  pose proof (ok_count_le_present col) as Hle.
  eexists. split; [reflexivity|].
  destruct (Z.ltb_spec 0 (Z.of_nat (present_count col))) as [Hpos|Hzero].
  - destruct (percentage_facts (ok_count col) (present_count col) Hle)
      as (Hlo & Hhi & Hzero & Hfull); [lia|].
    split; [exact Hlo|]. split; [exact Hhi|]. split; [exact Hzero|].
    rewrite Hfull. split; [intros ->; split; [lia|reflexivity]|tauto].
  - assert (present_count col = 0%nat) as Hp by lia.
    assert (ok_count col = 0%nat) as Ho by lia.
    rewrite Hp, Ho. split; [lra|]. split; [lra|]. split.
    + split; reflexivity.
    + split; [intros H; exfalso; revert H; apply Qlt_not_eq; reflexivity|].
      intros [Hne _]. congruence.
Qed.

Lemma compliance_percentage_witness :
  exists rate : Q,
    compliance "A" ScorerExamples.b_not_measured = inr rate
    /\ (0 <= rate)%Q /\ (rate <= 100)%Q
    /\ (rate == 0 <-> ok_count [Str "OK"; NaN; Str "OK"] = 0%nat)%Q
    /\ (rate == 100
        <-> present_count [Str "OK"; NaN; Str "OK"] <> 0%nat
            /\ ok_count [Str "OK"; NaN; Str "OK"]
               = present_count [Str "OK"; NaN; Str "OK"])%Q.
Proof.
  apply (compliance_percentage "A" ScorerExamples.b_not_measured
           [Str "OK"; NaN; Str "OK"]).
  reflexivity.
Defined.

Lemma getitem_schema (ind : string) (others : list string) (rows : list (list Cell)) :
  ind ∈ indicadores ->
  exists col, getitem ind {| columns := schema ++ others; data := rows |} = inr col.
Proof.
  intros Hin. unfold indicadores in Hin.
  repeat (apply elem_of_cons in Hin as [->|Hin]; [eexists; reflexivity|]).
  apply elem_of_nil in Hin. destruct Hin.
Qed.

(** X14. On every frame whose first 16 labels are those of the loader,
    whatever columns follow and whatever rows it has, the loop that builds
    [compliance_data] finds its five columns and yields one rate per
    practice, in the order A, B, C, D, E. *)
Theorem compliance_data_on_schema (others : list string) (rows : list (list Cell)) :
  exists rates,
    compliance_data indicadores {| columns := schema ++ others; data := rows |}
    = inr rates
    /\ map fst rates = indicadores.
Proof.
  apply compliance_data_complete. intros ind Hin. apply getitem_schema. exact Hin.
Qed.

(** * The styling of the detail table *)

Lemma style_practices_value (val : Cell) :
  style_practices val
  = if decide (val = Str "OK") then style_green
    else if isna val then style_none else style_red.
Proof.
  unfold style_practices. rewrite cell_eq_str_decide.
  destruct (decide (val = Str "OK")) as [Hok|Hne].
  - rewrite bool_decide_eq_true_2 by exact Hok. reflexivity.
  - rewrite bool_decide_eq_false_2 by exact Hne. unfold notna.
    destruct (isna val); reflexivity.
Qed.

(** X15. [style_practices] paints a cell green exactly when it is the
    string "OK", red exactly when it holds any other value, and leaves it
    unstyled exactly when it is null; so the green cells of a list of
    practice cells are those that [calculate_score] counts. *)
Theorem style_practices_cases :
  (forall val : Cell,
      (style_practices val = style_green <-> val = Str "OK")
      /\ (style_practices val = style_red <-> isna val = false /\ val <> Str "OK")
      /\ (style_practices val = style_none <-> isna val = true))
  /\ (forall cells : list Cell,
        ok_count cells
        = length (filter (fun c => style_practices c = style_green) cells)).
Proof.
  assert (forall val : Cell, style_practices val = style_green <-> val = Str "OK")
    as Hgreen.
  { intros val. rewrite style_practices_value.
    destruct (decide (val = Str "OK")) as [Hok|Hne]; [tauto|].
    destruct (isna val); split; intros H; first [discriminate H | contradiction]. }
  split.
  - intros val. split; [apply Hgreen|]. rewrite style_practices_value.
    destruct (decide (val = Str "OK")) as [->|Hne].
    + split; (split; [intros H; discriminate H|]).
      * intros [_ H]. contradiction.
      * intros H. discriminate H.
    + destruct (isna val); split; split; intros H;
        first [discriminate H | reflexivity | tauto | destruct H as [H _]; discriminate H].
  - intros cells. unfold ok_count. induction cells as [|c cells IH]; [reflexivity|].
    rewrite !filter_cons.
    destruct (decide (c = Str "OK")) as [Hc|Hc].
    + rewrite decide_True by (apply Hgreen; exact Hc). cbn [length]. rewrite IH.
      reflexivity.
    + rewrite decide_False by (intros H; apply Hc, Hgreen; exact H). exact IH.
Qed.

(** * The page script *)

(** ** Scoring the loaded frame *)

Lemma calculate_score_row (row : list Cell) :
  length row = 16%nat ->
  calculate_score (combine schema row) = inr (row_score row).
Proof.
  intros Hlen.
  do 16 (destruct row as [|? row]; [discriminate Hlen|]).
  destruct row; [|discriminate Hlen].
  unfold calculate_score, indicadores, row_score.
  rewrite (score_loop_spec _ _ [c3; c5; c7; c12; c13]).
  - reflexivity.
  - repeat constructor.
Qed.

Lemma apply_calculate_score_rows (rows : list (list Cell)) :
  Forall (fun row => length row = 16%nat) rows ->
  apply_calculate_score (map (fun row => combine schema row) rows)
  = inr (map row_score rows).
Proof.
  induction 1 as [|row rows Hrow _ IH]; [reflexivity|].
  cbn [map apply_calculate_score]. rewrite (calculate_score_row row Hrow), IH.
  reflexivity.
Qed.

Lemma append_column_map {A : Type} (g : A -> list Cell) (h : A -> Cell) (l : list A) :
  imap (fun k row => row ++ [nth k (map h l) NaN]) (map g l)
  = map (fun x => g x ++ [h x]) l.
Proof.
  apply list_eq. intros i.
  rewrite list_lookup_imap.
  change (map g l) with (g <$> l). change (map h l) with (h <$> l).
  change (map (fun x => g x ++ [h x]) l) with ((fun x => g x ++ [h x]) <$> l).
  rewrite !list_lookup_fmap, nth_lookup, list_lookup_fmap.
  destruct (l !! i); reflexivity.
Qed.

Lemma append_column_rows (h : list Cell -> Cell) (rows : list (list Cell)) :
  imap (fun k row => row ++ [nth k (map h rows) NaN]) rows
  = map (fun row => row ++ [h row]) rows.
Proof.
  pose proof (append_column_map (fun row : list Cell => row) h rows) as H.
  rewrite map_id in H. exact H.
Qed.

Lemma apply_get_classification_numbers {A : Type} (q : A -> Q) (l : list A) :
  apply_get_classification (map (fun x => Num (q x)) l)
  = inr (map (fun x => get_classification (q x)) l).
Proof.
  induction l as [|x l IH]; [reflexivity|].
  cbn [map apply_get_classification classify_cell]. rewrite IH. reflexivity.
Qed.

Lemma index_of_Pontuacao :
  index_of col_Pontuacao schema = None
  /\ index_of col_Pontuacao (schema ++ [col_Pontuacao]) = Some 16%nat
  /\ index_of col_Classificacao (schema ++ [col_Pontuacao]) = None.
Proof. repeat split; reflexivity. Qed.

Lemma setitem_series_new (label : string) (h : list Cell -> Cell)
    (cols : list string) (rows : list (list Cell)) :
  index_of label cols = None ->
  setitem_series label (map h rows) {| columns := cols; data := rows |}
  = {| columns := cols ++ [label]; data := map (fun row => row ++ [h row]) rows |}.
Proof.
  intros Hnew. unfold setitem_series. cbn [columns data]. rewrite Hnew.
  rewrite append_column_rows. reflexivity.
Qed.

Lemma add_scores_spec (rows : list (list Cell)) :
  Forall (fun row => length row = 16%nat) rows ->
  add_scores {| columns := schema; data := rows |}
  = inr {| columns := scored_schema; data := map scored_row rows |}.
Proof.
  intros Hrows. unfold add_scores, iterrows. cbn [columns data].
  rewrite (apply_calculate_score_rows rows Hrows). cbn [uncaught mbind Script_bind].
  destruct index_of_Pontuacao as (Hp & Hp' & Hc).
  rewrite map_map.
  rewrite (setitem_series_new col_Pontuacao
             (fun row => Num (inject_Z (row_score row))) schema rows Hp).
  unfold getitem. cbn [columns data]. rewrite Hp'. cbn [uncaught].
  rewrite map_map.
  assert (map (fun row => cell_at 16 (row ++ [Num (inject_Z (row_score row))])) rows
          = map (fun row => Num (inject_Z (row_score row))) rows) as ->.
  { apply map_ext_in. intros row Hin. rewrite Forall_forall in Hrows.
    unfold cell_at. rewrite app_nth2; rewrite (Hrows row) by (apply list_elem_of_In; exact Hin);
      [reflexivity|lia]. }
  cbn [mbind Script_bind].
  rewrite (apply_get_classification_numbers (fun row => inject_Z (row_score row))).
  cbn [mbind Script_bind mret Script_ret]. unfold setitem_series. cbn [columns data]. rewrite Hc.
  rewrite map_map.
  rewrite (append_column_map
             (fun row => row ++ [Num (inject_Z (row_score row))])
             (fun row => Str (classification_label
                                (get_classification (inject_Z (row_score row)))))).
  f_equal. f_equal.
  apply map_ext. intros row. unfold scored_row, row_class. rewrite <- app_assoc.
  reflexivity.
Qed.

(** ** The side-bar filters *)

Lemma select_map_filter {A : Type} (p : A -> bool) (l : list A) :
  select (map p l) l = List.filter p l.
Proof.
  induction l as [|x l IH]; [reflexivity|].
  cbn [map select List.filter]. rewrite IH. reflexivity.
Qed.

Lemma mask_and_map {A : Type} (f g : A -> bool) (l : list A) :
  mask_and (map f l) (map g l) = map (fun x => f x && g x) l.
Proof.
  unfold mask_and. induction l as [|x l IH]; [reflexivity|].
  cbn [map combine fst snd]. rewrite IH. reflexivity.
Qed.

Lemma index_of_scored_schema :
  index_of "Unidade" scored_schema = Some 15%nat
  /\ index_of col_Pontuacao scored_schema = Some 16%nat
  /\ index_of col_Classificacao scored_schema = Some 17%nat.
Proof. repeat split; reflexivity. Qed.

Lemma filter_frame_spec (selected_units selected_classifications : list string)
    (rows : list (list Cell)) :
  filter_frame selected_units selected_classifications
    {| columns := scored_schema; data := rows |}
  = inr {| columns := scored_schema;
           data := List.filter (row_selected selected_units selected_classifications)
                               rows |}.
Proof.
  destruct index_of_scored_schema as (Hu & _ & Hc).
  unfold filter_frame, getitem. cbn [columns data]. rewrite Hu, Hc.
  cbn [uncaught mbind Script_bind mret Script_ret].
  unfold boolean_index. cbn [columns data]. rewrite !map_map.
  rewrite (mask_and_map (fun row => isin selected_units (cell_at 15 row))
                        (fun row => isin selected_classifications (cell_at 17 row))).
  rewrite select_map_filter. reflexivity.
Qed.

(** ** Units offered in the side bar *)

Lemma elem_of_unique (x : Cell) (col : list Cell) : x ∈ unique col <-> x ∈ col.
Proof.
  induction col as [|c col IH]; [reflexivity|].
  cbn [unique]. rewrite !elem_of_cons, list_elem_of_In, List.filter_In, <- list_elem_of_In, IH.
  rewrite negb_true_iff, bool_decide_eq_false.
  destruct (decide (x = c)); tauto.
Qed.

Lemma NoDup_List_filter {A : Type} (p : A -> bool) (l : list A) :
  NoDup l -> NoDup (List.filter p l).
Proof.
  induction 1 as [|x l Hx _ IH]; [constructor|].
  cbn [List.filter]. destruct (p x); [|exact IH].
  constructor; [|exact IH].
  rewrite list_elem_of_In, List.filter_In, <- list_elem_of_In. tauto.
Qed.

Lemma NoDup_unique (col : list Cell) : NoDup (unique col).
Proof.
  induction col as [|c col IH]; [constructor|].
  cbn [unique]. constructor.
  - rewrite list_elem_of_In, List.filter_In, negb_true_iff, bool_decide_eq_false. tauto.
  - apply NoDup_List_filter. exact IH.
Qed.

Lemma as_strings_units (col : list Cell) :
  Forall (fun c => exists s, c = Str s) col ->
  exists names, as_strings col = inr names /\ col = map Str names.
Proof.
  induction 1 as [|c col [s ->] _ (names & Hnames & ->)].
  - exists []. split; reflexivity.
  - exists (s :: names). cbn [as_strings]. rewrite Hnames. split; reflexivity.
Qed.

Lemma elem_of_insert_sorted (x s : string) (l : list string) :
  x ∈ insert_sorted s l <-> x = s \/ x ∈ l.
Proof.
  induction l as [|y l IH]; cbn [insert_sorted].
  - rewrite list_elem_of_singleton, elem_of_nil. tauto.
  - destruct (String.leb s y).
    + rewrite elem_of_cons. tauto.
    + rewrite !elem_of_cons, IH. tauto.
Qed.

Lemma elem_of_py_sorted (x : string) (l : list string) : x ∈ py_sorted l <-> x ∈ l.
Proof.
  unfold py_sorted. induction l as [|s l IH]; [reflexivity|].
  cbn [foldr]. rewrite elem_of_insert_sorted, elem_of_cons, IH. tauto.
Qed.

(** ** Cells of a scored row *)

Lemma scored_row_base (row : list Cell) (j : nat) :
  length row = 16%nat -> (j < 16)%nat -> cell_at j (scored_row row) = cell_at j row.
Proof.
  intros Hlen Hj. unfold cell_at, scored_row. apply app_nth1. lia.
Qed.

Lemma scored_row_score (row : list Cell) :
  length row = 16%nat -> cell_at 16 (scored_row row) = Num (inject_Z (row_score row)).
Proof.
  intros Hlen. unfold cell_at, scored_row. rewrite app_nth2, Hlen by lia. reflexivity.
Qed.

Lemma scored_row_class (row : list Cell) :
  length row = 16%nat ->
  cell_at 17 (scored_row row) = Str (classification_label (row_class row)).
Proof.
  intros Hlen. unfold cell_at, scored_row. rewrite app_nth2, Hlen by lia. reflexivity.
Qed.

Lemma classification_label_listed (k : Classificacao) :
  classification_label k ∈ all_classifications.
Proof. unfold all_classifications. destruct k; set_solver. Qed.

Lemma row_score_bounds (row : list Cell) : (0 <= row_score row <= 100)%Z.
Proof.
  unfold row_score.
  pose proof (ok_count_le [cell_at 4 row; cell_at 6 row; cell_at 8 row;
                           cell_at 13 row; cell_at 14 row]) as Hle.
  cbn [length] in Hle. lia.
Qed.

(** ** Means *)

Lemma numbers_of_scores {A : Type} (q : A -> Q) (l : list A) :
  numbers (map (fun x => Num (q x)) l) = inr (map (fun x => Some (q x)) l).
Proof.
  induction l as [|x l IH]; [reflexivity|].
  cbn [map numbers]. rewrite IH. reflexivity.
Qed.

Lemma omap_id_Some {A : Type} (l : list A) : omap id (map Some l) = l.
Proof. induction l as [|x l IH]; [reflexivity|]. cbn. rewrite IH. reflexivity. Qed.

Lemma inject_Z_S (n : nat) :
  (inject_Z (Z.of_nat (S n)) == inject_Z (Z.of_nat n) + 1)%Q.
Proof. rewrite Nat2Z.inj_succ, <- Z.add_1_r, inject_Z_plus. reflexivity. Qed.

Lemma Qsum_bounds (lo hi : Q) (l : list Q) :
  Forall (fun q => lo <= q /\ q <= hi)%Q l ->
  (lo * inject_Z (Z.of_nat (length l)) <= Qsum l
   /\ Qsum l <= hi * inject_Z (Z.of_nat (length l)))%Q.
Proof.
  induction 1 as [|q l [Hlo Hhi] _ [IHlo IHhi]].
  - cbn [length Qsum fold_right]. change (inject_Z (Z.of_nat 0)) with 0%Q.
    rewrite !Qmult_0_r. lra.
  - cbn [length Qsum fold_right]. fold (Qsum l).
    rewrite inject_Z_S, !Qmult_plus_distr_r. lra.
Qed.

Lemma mean_of_bounds (lo hi : Q) (l : list Q) :
  l <> [] ->
  Forall (fun q => lo <= q /\ q <= hi)%Q l ->
  exists m, mean_of (map Some l) = Some m /\ (lo <= m)%Q /\ (m <= hi)%Q.
Proof.
  intros Hne Hall. unfold mean_of. rewrite omap_id_Some.
  destruct l as [|q l]; [congruence|].
  eexists. split; [reflexivity|].
  destruct (Qsum_bounds lo hi (q :: l) Hall) as [Hlo Hhi].
  assert (0 < inject_Z (Z.of_nat (length (q :: l))))%Q as Hpos
      by (apply inject_Z_pos; cbn; lia).
  split.
  - apply Qle_shift_div_l; assumption.
  - apply Qle_shift_div_r; assumption.
Qed.

(** ** The overview *)

Lemma getitem_scored (rows : list (list Cell)) :
  Forall (fun row => length row = 16%nat) rows ->
  getitem "Unidade" {| columns := scored_schema; data := map scored_row rows |}
  = inr (map (cell_at 15) rows)
  /\ getitem col_Pontuacao {| columns := scored_schema; data := map scored_row rows |}
     = inr (map (fun row => Num (inject_Z (row_score row))) rows)
  /\ getitem col_Classificacao {| columns := scored_schema; data := map scored_row rows |}
     = inr (map (fun row => Str (classification_label (row_class row))) rows).
Proof.
  intros Hrows. rewrite Forall_forall in Hrows.
  destruct index_of_scored_schema as (Hu & Hp & Hc).
  unfold getitem. cbn [columns data]. rewrite Hu, Hp, Hc, !map_map.
  repeat split; f_equal; apply map_ext_in; intros row Hin;
    apply list_elem_of_In, Hrows in Hin.
  - apply scored_row_base; [exact Hin|lia].
  - apply scored_row_score. exact Hin.
  - apply scored_row_class. exact Hin.
Qed.

Lemma group_values_map {A B : Type} (f : A -> Cell) (g : A -> B) (key : Cell)
    (l : list A) :
  group_values key (map f l) (map g l)
  = map g (List.filter (fun x => bool_decide (f x = key)) l).
Proof.
  unfold group_values. induction l as [|x l IH]; [reflexivity|].
  cbn [map combine List.filter fst]. destruct (bool_decide (f x = key)); cbn [map snd];
    rewrite IH; reflexivity.
Qed.

Lemma groupby_mean_lookup (keys : list Cell) (vals : list (option Q)) (k : Cell) :
  groupby_mean keys vals !! k
  = if decide (k ∈ keys /\ isna k = false)
    then Some (mean_of (group_values k keys vals))
    else None.
Proof.
  unfold groupby_mean.
  set (ks := List.filter notna (unique keys)).
  assert (NoDup ks) as Hnd by (apply NoDup_List_filter, NoDup_unique).
  assert (forall x, x ∈ ks <-> x ∈ keys /\ isna x = false) as Hks.
  { intros x. unfold ks. rewrite list_elem_of_In, List.filter_In, <- list_elem_of_In.
    rewrite elem_of_unique. unfold notna. rewrite negb_true_iff. reflexivity. }
  assert ((map (fun k0 => (k0, mean_of (group_values k0 keys vals))) ks).*1 = ks) as Hfst.
  { change (fmap (M := list) fst (fmap (M := list) (fun k0 => (k0, mean_of (group_values k0 keys vals))) ks) = ks).
    rewrite <- list_fmap_compose. apply list_fmap_id. }
  destruct (decide (k ∈ keys /\ isna k = false)) as [Hk|Hk].
  - apply elem_of_list_to_map_1; [rewrite Hfst; exact Hnd|].
    apply list_elem_of_fmap. exists k. split; [reflexivity|]. apply Hks. exact Hk.
  - apply not_elem_of_list_to_map_1. rewrite Hfst, Hks. exact Hk.
Qed.

Lemma overview_spec (rows : list (list Cell)) :
  Forall (fun row => length row = 16%nat) rows ->
  exists rates,
    map fst rates = indicadores
    /\ overview {| columns := scored_schema; data := map scored_row rows |}
       = inr {| criancas_monitoradas := length rows;
                avg_score := mean_of (map (fun row => Some (inject_Z (row_score row))) rows);
                classification_geral :=
                  classify_mean
                    (mean_of (map (fun row => Some (inject_Z (row_score row))) rows));
                df_unit_score :=
                  groupby_mean (map (cell_at 15) rows)
                               (map (fun row => Some (inject_Z (row_score row))) rows);
                compliance_rows := rates |}.
Proof.
  intros Hrows. destruct (getitem_scored rows Hrows) as (Hu & Hp & _).
  destruct (compliance_data_complete
              {| columns := scored_schema; data := map scored_row rows |})
    as (rates & Hrates & Hfst).
  { intros ind Hin. apply (getitem_schema ind [col_Pontuacao; col_Classificacao]). exact Hin. }
  exists rates. split; [exact Hfst|].
  unfold overview. rewrite Hp. cbn [uncaught mbind Script_bind].
  rewrite (numbers_of_scores (fun row => inject_Z (row_score row))).
  cbn [mbind Script_bind]. rewrite Hu, Hrates. cbn [uncaught mbind Script_bind mret Script_ret].
  cbn [data]. rewrite length_map. reflexivity.
Qed.

Lemma score_in_percent (rows : list (list Cell)) :
  Forall (fun q => 0 <= q /\ q <= 100)%Q (map (fun row => inject_Z (row_score row)) rows).
Proof.
  rewrite Forall_map. apply Forall_forall. intros row _.
  pose proof (row_score_bounds row) as [Hlo Hhi].
  unfold Qle. cbn. lia.
Qed.

Lemma loaded_rows_length (env : Env) (items : list (string * DataFrame)) :
  Forall (fun item => rectangular item.2) items ->
  Forall (fun row => length row = 16%nat) (dated_rows env (kept_rows items)).
Proof.
  intros Hrect. apply Forall_forall. intros row Hrow.
  destruct (loaded_row_shape env items row Hrect Hrow)
    as (cells & dn & unit_name & Hlen & -> & _).
  rewrite length_insert, length_app, Hlen. reflexivity.
Qed.

(** X17. Scoring a loaded frame never fails: no [KeyError] from a missing
    practice column and no [TypeError] from the comparison of a score.
    The result is the loaded frame with two more columns, which hold for
    each row the value of [calculate_score] on that row and the label of
    the tier of that value. *)
Theorem add_scores_loaded (env : Env) (file_path : string)
    (items : list (string * DataFrame)) (df : DataFrame) :
  pd_read_excel env file_path = inr items ->
  Forall (fun item => rectangular item.2) items ->
  (load_data env file_path).1 = inr (Some df) ->
  add_scores df
  = inr {| columns := columns df ++ [col_Pontuacao; col_Classificacao];
           data :=
             map (fun row =>
                    row ++ [ Num (inject_Z (row_score row));
                             Str (classification_label
                                    (get_classification (inject_Z (row_score row)))) ])
                 (data df) |}
  /\ forall row, row ∈ data df ->
       calculate_score (combine (columns df) row) = inr (row_score row).
Proof.
  intros Hrd Hrect Hload.
  destruct (load_data_frame env file_path items df Hrd Hload) as [_ ->].
  cbn [columns data]. pose proof (loaded_rows_length env items Hrect) as Hlen.
  split.
  - apply add_scores_spec. exact Hlen.
  - intros row Hrow. apply calculate_score_row.
    rewrite Forall_forall in Hlen. apply Hlen. exact Hrow.
Qed.

Lemma add_scores_loaded_witness :
  add_scores Samples.clinic_a_loaded
  = inr {| columns := columns Samples.clinic_a_loaded ++ [col_Pontuacao; col_Classificacao];
           data :=
             map (fun row =>
                    row ++ [ Num (inject_Z (row_score row));
                             Str (classification_label
                                    (get_classification (inject_Z (row_score row)))) ])
                 (data Samples.clinic_a_loaded) |}.
Proof.
  apply (add_scores_loaded (Samples.env_with (inr Samples.clinic_a))
           Samples.EXCEL_FILE_PATH Samples.clinic_a Samples.clinic_a_loaded).
  - reflexivity.
  - repeat constructor.
  - reflexivity.
Defined.

(** X18. On a non-empty set of scored rows the overview is computed
    without error: the number of children is the number of rows, the
    average score lies between 0 and 100, and the overall tier is the
    tier of that average, which is Regular exactly when the average is at
    most 25. *)
Theorem overview_average (rows : list (list Cell)) :
  rows <> [] ->
  Forall (fun row => length row = 16%nat) rows ->
  exists (o : Overview) (m : Q),
    overview {| columns := scored_schema; data := map scored_row rows |} = inr o
    /\ criancas_monitoradas o = length rows
    /\ avg_score o = Some m
    /\ (m == Qsum (map (fun row => inject_Z (row_score row)) rows)
             / inject_Z (Z.of_nat (length rows)))%Q
    /\ (0 <= m)%Q /\ (m <= 100)%Q
    /\ classification_geral o = get_classification m
    /\ (classification_geral o = Regular <-> (m <= 25)%Q).
Proof.
  intros Hne Hrows.
  destruct (overview_spec rows Hrows) as (rates & _ & Hov).
  assert (map (fun row => Some (inject_Z (row_score row))) rows
          = map Some (map (fun row => inject_Z (row_score row)) rows)) as Hmap
      by (rewrite map_map; reflexivity).
  destruct (mean_of_bounds 0 100 (map (fun row => inject_Z (row_score row)) rows))
    as (m & Hm & Hlo & Hhi).
  { destruct rows; [congruence|discriminate]. }
  { apply score_in_percent. }
  eexists _, m. split; [exact Hov|]. cbn [criancas_monitoradas avg_score classification_geral].
  rewrite Hmap, Hm. cbn [classify_mean].
  split; [reflexivity|]. split; [reflexivity|]. split.
  - unfold mean_of in Hm. rewrite omap_id_Some in Hm.
    destruct (map (fun row => inject_Z (row_score row)) rows) as [|q qs] eqn:Hqs.
    + discriminate Hm.
    + injection Hm as <-.
      assert (length rows = length (q :: qs)) as ->
          by (rewrite <- Hqs, length_map; reflexivity).
      reflexivity.
  - split; [exact Hlo|]. split; [exact Hhi|]. split; [reflexivity|].
    destruct (get_classification_cases m) as [[H ->]|[[H ->]|[[H ->]|[H ->]]]];
      split; intros H'; try discriminate H'; try reflexivity; try (exfalso; lra).
    destruct H as [H|H]; [exact H|exfalso; lra].
Qed.

Lemma overview_average_witness :
  exists (o : Overview) (m : Q),
    overview {| columns := scored_schema;
                data := map scored_row (data Samples.clinic_a_loaded) |} = inr o
    /\ criancas_monitoradas o = 2%nat
    /\ avg_score o = Some m
    /\ (0 <= m)%Q /\ (m <= 100)%Q.
Proof.
  destruct (overview_average (data Samples.clinic_a_loaded))
    as (o & m & Hov & Hn & Hm & _ & Hlo & Hhi & _).
  - discriminate.
  - repeat constructor.
  - exists o, m. repeat split; assumption.
Defined.

(** X19. The chart of the units has one bar for each unit that occurs in
    the filtered rows and no other bar; the value of a bar is the mean of
    the scores of the rows of that unit, between 0 and 100. *)
Theorem overview_unit_means (rows : list (list Cell)) (k : Cell) :
  Forall (fun row => length row = 16%nat) rows ->
  exists o : Overview,
    overview {| columns := scored_schema; data := map scored_row rows |} = inr o
    /\ (k ∈ map (cell_at 15) rows /\ isna k = false ->
        exists m,
          df_unit_score o !! k = Some (Some m)
          /\ mean_of (map (fun row => Some (inject_Z (row_score row)))
                          (List.filter (fun row => bool_decide (cell_at 15 row = k)) rows))
             = Some m
          /\ (0 <= m)%Q /\ (m <= 100)%Q)
    /\ (~ (k ∈ map (cell_at 15) rows /\ isna k = false) -> df_unit_score o !! k = None).
Proof.
  intros Hrows.
  destruct (overview_spec rows Hrows) as (rates & _ & Hov).
  eexists. split; [exact Hov|]. cbn [df_unit_score].
  rewrite groupby_mean_lookup. split.
  - intros Hk. rewrite decide_True by exact Hk.
    rewrite (group_values_map (cell_at 15) (fun row => Some (inject_Z (row_score row)))).
    set (group := List.filter (fun row => bool_decide (cell_at 15 row = k)) rows).
    assert (map (fun row => Some (inject_Z (row_score row))) group
            = map Some (map (fun row => inject_Z (row_score row)) group)) as Hmap
        by (rewrite map_map; reflexivity).
    destruct (mean_of_bounds 0 100 (map (fun row => inject_Z (row_score row)) group))
      as (m & Hm & Hlo & Hhi).
    + destruct Hk as [Hin _]. apply list_elem_of_fmap in Hin as (row & -> & Hrow).
      assert (row ∈ group) as Hg.
      { unfold group. apply list_elem_of_In, List.filter_In.
        split; [apply list_elem_of_In; exact Hrow|]. apply bool_decide_eq_true. reflexivity. }
      destruct group; [apply elem_of_nil in Hg; destruct Hg|discriminate].
    + apply score_in_percent.
    + exists m. rewrite Hmap, Hm. repeat split; assumption.
  - intros Hk. rewrite decide_False by exact Hk. reflexivity.
Qed.

Lemma overview_unit_means_witness :
  exists (o : Overview) (m : Q),
    overview {| columns := scored_schema;
                data := map scored_row (data Samples.clinic_a_loaded) |} = inr o
    /\ df_unit_score o !! Str "Clinic A" = Some (Some m)
    /\ (0 <= m)%Q /\ (m <= 100)%Q.
Proof.
  destruct (overview_unit_means (data Samples.clinic_a_loaded) (Str "Clinic A"))
    as (o & Hov & Hin & _).
  - repeat constructor.
  - destruct Hin as (m & Hm & _ & Hlo & Hhi).
    + split; [|reflexivity]. apply list_elem_of_In. left. reflexivity.
    + exists o, m. repeat split; assumption.
Defined.

(** ** The detail table *)

Lemma dt_strftime_dates (fmt : Z -> string) (col : list Cell) :
  Forall (fun c => isna c = true \/ exists t, c = Timestamp t) col ->
  dt_strftime fmt col = inr (map (format_date fmt) col).
Proof.
  induction 1 as [|c col Hc _ IH]; [reflexivity|].
  cbn [dt_strftime map]. rewrite IH.
  destruct Hc as [Hc|[t ->]]; [|reflexivity].
  destruct c; try discriminate Hc; reflexivity.
Qed.

Lemma assign_column_map {A : Type} (j : nat) (g : A -> Cell) (h : A -> list Cell)
    (l : list A) :
  imap (fun k row => <[j := nth k (map g l) NaN]> row) (map h l)
  = map (fun x => <[j := g x]> (h x)) l.
Proof.
  apply list_eq. intros i.
  rewrite list_lookup_imap.
  change (map h l) with (h <$> l). change (map g l) with (g <$> l).
  change (map (fun x => <[j := g x]> (h x)) l) with ((fun x => <[j := g x]> (h x)) <$> l).
  rewrite !list_lookup_fmap, nth_lookup, list_lookup_fmap.
  destruct (l !! i); reflexivity.
Qed.

Lemma display_lookups :
  indices_of (map fst display_cols) scored_schema
  = inr [0; 1; 15; 16; 17; 4; 6; 8; 13; 14]%nat
  /\ map (fun c => default c (dict_get display_cols c)) (map fst display_cols)
     = display_labels
  /\ index_of "Data de Nascimento" display_labels = Some 1%nat
  /\ indices_of practice_columns display_labels = inr [5; 6; 7; 8; 9]%nat.
Proof. repeat split; reflexivity. Qed.

Lemma select_columns_display (rows : list (list Cell)) :
  select_columns (map fst display_cols) {| columns := scored_schema; data := rows |}
  = inr {| columns := map fst display_cols;
           data := map (fun row => map (fun j => cell_at j row)
                                       [0; 1; 15; 16; 17; 4; 6; 8; 13; 14]%nat) rows |}.
Proof. reflexivity. Qed.

Lemma select_columns_practices (rows : list (list Cell)) :
  select_columns practice_columns {| columns := display_labels; data := rows |}
  = inr {| columns := practice_columns;
           data := map (fun row => map (fun j => cell_at j row) [5; 6; 7; 8; 9]%nat) rows |}.
Proof. reflexivity. Qed.

Lemma detail_section_spec (session : Session) (rows : list (list Cell)) :
  Forall loaded_row rows ->
  detail_section session
    (Some {| columns := scored_schema; data := map scored_row rows |})
  = inr ({| columns := display_labels;
            data := map (display_row (strftime session)) rows |},
         map (fun row => map style_practices (practice_cells row)) rows).
Proof.
  intros Hrows. destruct display_lookups as (Hsel & Hren & Hdn & Hprac).
  unfold detail_section. cbn [mbind Script_bind].
  rewrite select_columns_display. cbn [uncaught mbind Script_bind].
  unfold rename_columns. cbn [columns data]. rewrite Hren.
  unfold getitem. cbn [columns data]. rewrite Hdn. cbn [uncaught mbind Script_bind].
  rewrite !map_map.
  assert (map (fun row => cell_at 1
                 (map (fun j => cell_at j (scored_row row))
                      [0; 1; 15; 16; 17; 4; 6; 8; 13; 14]%nat)) rows
          = map (cell_at 1) rows) as ->.
  { apply map_ext_in. intros row Hin. rewrite Forall_forall in Hrows.
    destruct (Hrows row) as (Hlen & _); [apply list_elem_of_In; exact Hin|].
    cbn [map cell_at nth]. apply (scored_row_base row 1 Hlen). lia. }
  rewrite dt_strftime_dates.
  2:{ rewrite Forall_map. eapply Forall_impl; [exact Hrows|].
      intros row (_ & _ & Hdate). exact Hdate. }
  cbn [mbind Script_bind]. unfold setitem_series. cbn [columns data]. rewrite Hdn.
  rewrite map_map.
  rewrite (assign_column_map 1 (fun row => format_date (strftime session) (cell_at 1 row))
             (fun row => map (fun j => cell_at j (scored_row row))
                             [0; 1; 15; 16; 17; 4; 6; 8; 13; 14]%nat)).
  rewrite select_columns_practices.
  cbn [uncaught mbind Script_bind mret Script_ret data]. rewrite !map_map.
  f_equal. f_equal.
  - f_equal. apply map_ext_in. intros row Hin. rewrite Forall_forall in Hrows.
    destruct (Hrows row) as (Hlen & _); [apply list_elem_of_In; exact Hin|].
    do 16 (destruct row as [|? row]; [discriminate Hlen|]).
    destruct row; [reflexivity|discriminate Hlen].
  - apply map_ext_in. intros row Hin. rewrite Forall_forall in Hrows.
    destruct (Hrows row) as (Hlen & _); [apply list_elem_of_In; exact Hin|].
    do 16 (destruct row as [|? row]; [discriminate Hlen|]).
    destruct row; [reflexivity|discriminate Hlen].
Qed.

(** ** The branches of the script *)

Lemma filter_map_comm {A B : Type} (p : B -> bool) (f : A -> B) (l : list A) :
  List.filter p (map f l) = map f (List.filter (fun x => p (f x)) l).
Proof.
  induction l as [|x l IH]; [reflexivity|].
  cbn [map List.filter]. destruct (p (f x)); cbn [map]; rewrite IH; reflexivity.
Qed.

Lemma filter_all {A : Type} (p : A -> bool) (l : list A) :
  (forall x, x ∈ l -> p x = true) -> List.filter p l = l.
Proof.
  induction l as [|x l IH]; intros Hall; [reflexivity|].
  cbn [List.filter]. rewrite (Hall x) by apply list_elem_of_here.
  rewrite IH; [reflexivity|]. intros y Hy. apply Hall, list_elem_of_further, Hy.
Qed.

Lemma loaded_rows_shape (env : Env) (items : list (string * DataFrame)) :
  Forall (fun item => rectangular item.2) items ->
  Forall loaded_row (dated_rows env (kept_rows items)).
Proof.
  intros Hrect. apply Forall_forall. intros row Hrow.
  destruct (loaded_row_shape env items row Hrect Hrow)
    as (cells & dn & unit_name & Hlen & -> & _ & Hdn).
  do 15 (destruct cells as [|? cells]; [discriminate Hlen|]).
  destruct cells; [|discriminate Hlen].
  unfold loaded_row. cbn. split; [reflexivity|]. split; [eauto|].
  destruct Hdn as [->|[->|[t ->]]]; cbn; eauto.
Qed.

Lemma loaded_row_length (rows : list (list Cell)) :
  Forall loaded_row rows -> Forall (fun row => length row = 16%nat) rows.
Proof.
  intros Hrows. eapply Forall_impl; [exact Hrows|]. intros row (Hlen & _). exact Hlen.
Qed.

Lemma units_are_strings (rows : list (list Cell)) :
  Forall loaded_row rows ->
  exists names,
    as_strings (unique (map (cell_at 15) rows)) = inr names
    /\ forall row, row ∈ rows -> exists unit, cell_at 15 row = Str unit /\ unit ∈ names.
Proof.
  intros Hrows.
  destruct (as_strings_units (unique (map (cell_at 15) rows))) as (names & Hnames & Heq).
  { apply Forall_forall. intros c Hc. apply elem_of_unique, list_elem_of_fmap in Hc
      as (row & -> & Hrow).
    rewrite Forall_forall in Hrows. destruct (Hrows row Hrow) as (_ & Hunit & _).
    exact Hunit. }
  exists names. split; [exact Hnames|]. intros row Hrow.
  rewrite Forall_forall in Hrows. destruct (Hrows row Hrow) as (_ & [unit Hunit] & _).
  exists unit. split; [exact Hunit|].
  assert (Str unit ∈ unique (map (cell_at 15) rows)) as Hin.
  { apply elem_of_unique, list_elem_of_fmap. exists row. split; [congruence|exact Hrow]. }
  rewrite Heq in Hin. apply list_elem_of_fmap in Hin as (s & [= ->] & Hs). exact Hs.
Qed.

Lemma empty_scored (rows : list (list Cell)) :
  empty {| columns := scored_schema; data := rows |}
  = match rows with [] => true | _ => false end.
Proof. destruct rows; reflexivity. Qed.

Lemma scored_section_spec (session : Session) (rows : list (list Cell)) :
  Forall loaded_row rows ->
  exists names,
    as_strings (unique (map (cell_at 15) rows)) = inr names
    /\ (forall row, row ∈ rows -> exists unit, cell_at 15 row = Str unit /\ unit ∈ names)
    /\ let kept :=
         List.filter
           (fun row =>
              row_selected (multiselect_units session (py_sorted names))
                           (multiselect_classifications session all_classifications)
                           (scored_row row))
           rows in
       exists body,
         scored_section session {| columns := schema; data := rows |}
         = inr (body, Some {| columns := scored_schema; data := map scored_row kept |})
         /\ match kept with
            | [] => body = NoMatch
            | _ => exists o,
                     body = Shown o
                     /\ overview {| columns := scored_schema; data := map scored_row kept |}
                        = inr o
            end.
Proof.
  intros Hrows. pose proof (loaded_row_length rows Hrows) as Hlen.
  destruct (units_are_strings rows Hrows) as (names & Hnames & Hunits).
  destruct (getitem_scored rows Hlen) as (Hu & _ & _).
  exists names. split; [exact Hnames|]. split; [exact Hunits|]. cbn zeta.
  remember (List.filter
              (fun row =>
                 row_selected (multiselect_units session (py_sorted names))
                              (multiselect_classifications session all_classifications)
                              (scored_row row)) rows) as kept eqn:Hk.
  assert (Forall (fun row => length row = 16%nat) kept) as Hkept.
  { apply Forall_forall. intros row Hrow. rewrite Hk in Hrow.
    apply list_elem_of_In, List.filter_In in Hrow as [Hrow _].
    rewrite Forall_forall in Hlen. apply Hlen, list_elem_of_In, Hrow. }
  assert (scored_section session {| columns := schema; data := rows |}
          = if empty {| columns := scored_schema; data := map scored_row kept |}
            then inr (NoMatch, Some {| columns := scored_schema; data := map scored_row kept |})
            else overview {| columns := scored_schema; data := map scored_row kept |}
                 ≫= (fun o => inr (Shown o,
                                   Some {| columns := scored_schema;
                                           data := map scored_row kept |}))) as Hrun.
  { unfold scored_section. rewrite (add_scores_spec rows Hlen).
    cbn [mbind Script_bind]. rewrite Hu. cbn [uncaught mbind Script_bind].
    rewrite Hnames. cbn [mbind Script_bind]. rewrite filter_frame_spec.
    cbn [mbind Script_bind]. rewrite filter_map_comm, <- Hk. reflexivity. }
  rewrite empty_scored in Hrun.
  destruct (overview_spec kept Hkept) as (rates & _ & Hov).
  clear Hk. destruct kept as [|row kept'].
  - exists NoMatch. split; [exact Hrun|reflexivity].
  - cbn [map] in Hrun. cbn [map] in Hov. rewrite Hov in Hrun.
    cbn [mbind Script_bind] in Hrun.
    eexists (Shown _). split; [exact Hrun|]. eexists. split; [reflexivity|exact Hov].
Qed.

Lemma main_section_result (env : Env) (session : Session)
    (cache : gmap string (option DataFrame * list Diagnostic)) :
  (main_section env session cache).1.1
  = if negb (os_path_exists env "data") then inr (NoFolder, None)
    else match (load_data_cached env EXCEL_FILE_PATH cache).1.1 with
         | inl e => inl (Uncaught e)
         | inr None => inr (NoValidData, None)
         | inr (Some df) =>
             if empty df then inr (NoValidData, None) else scored_section session df
         end.
Proof.
  unfold main_section. destruct (negb (os_path_exists env "data")); [reflexivity|].
  destruct (load_data_cached env EXCEL_FILE_PATH cache) as [[r msgs] cache'].
  reflexivity.
Qed.

Lemma script_result (env : Env) (session : Session)
    (cache : gmap string (option DataFrame * list Diagnostic)) :
  (script env session cache).1.1
  = match (main_section env session cache).1.1 with
    | inl e => inl e
    | inr (body, binding) =>
        match detail_section session binding with
        | inl e => inl e
        | inr table => inr (body, table)
        end
    end.
Proof.
  unfold script. destruct (main_section env session cache) as [[r msgs] cache'].
  reflexivity.
Qed.

Lemma load_data_cached_fresh (env : Env) (file_path : string) :
  (load_data_cached env file_path ∅).1 = load_data env file_path.
Proof.
  unfold load_data_cached. rewrite lookup_empty.
  destruct (load_data env file_path) as [[e|v] msgs]; reflexivity.
Qed.

Lemma filter_sublist {A : Type} (p : A -> bool) (l : list A) :
  List.filter p l `sublist_of` l.
Proof.
  induction l as [|x l IH]; [constructor|].
  cbn [List.filter]. destruct (p x); [apply sublist_skip|apply sublist_cons]; exact IH.
Qed.

Lemma script_loaded (env : Env) (session : Session)
    (items : list (string * DataFrame)) (df : DataFrame) :
  os_path_exists env "data" = true ->
  pd_read_excel env EXCEL_FILE_PATH = inr items ->
  Forall (fun item => rectangular item.2) items ->
  (load_data env EXCEL_FILE_PATH).1 = inr (Some df) ->
  data df <> [] ->
  exists names,
    as_strings (unique (map (cell_at 15) (data df))) = inr names
    /\ (forall row, row ∈ data df ->
          length row = 16%nat /\ exists unit, cell_at 15 row = Str unit /\ unit ∈ names)
    /\ let kept :=
         List.filter
           (fun row =>
              row_selected (multiselect_units session (py_sorted names))
                           (multiselect_classifications session all_classifications)
                           (scored_row row))
           (data df) in
       exists body,
         (script env session ∅).1.1
         = inr (body,
                ({| columns := display_labels;
                    data := map (display_row (strftime session)) kept |},
                 map (fun row => map style_practices (practice_cells row)) kept))
         /\ match kept with
            | [] => body = NoMatch
            | _ => exists o, body = Shown o /\ criancas_monitoradas o = length kept
            end.
Proof.
  intros Hex Hrd Hrect Hload Hne.
  destruct (load_data_frame env EXCEL_FILE_PATH items df Hrd Hload) as [_ ->].
  cbn [data] in *.
  pose proof (loaded_rows_shape env items Hrect) as Hrows.
  set (rows := dated_rows env (kept_rows items)) in *.
  destruct (scored_section_spec session rows Hrows) as (names & Hnames & Hunits & Hsec).
  exists names. split; [exact Hnames|]. split.
  { intros row Hrow. split; [|apply Hunits; exact Hrow].
    rewrite Forall_forall in Hrows. apply (Hrows row Hrow). }
  cbn zeta in *.
  remember (List.filter
              (fun row =>
                 row_selected (multiselect_units session (py_sorted names))
                              (multiselect_classifications session all_classifications)
                              (scored_row row)) rows) as kept eqn:Hk.
  destruct Hsec as (body & Hrun & Hbody).
  assert (Forall loaded_row kept) as Hkept.
  { apply Forall_forall. intros row Hrow. rewrite Hk in Hrow.
    apply list_elem_of_In, List.filter_In in Hrow as [Hrow _].
    rewrite Forall_forall in Hrows. apply Hrows, list_elem_of_In, Hrow. }
  exists body. split.
  - rewrite script_result, main_section_result, Hex. cbn [negb].
    rewrite load_data_cached_fresh, Hload.
    assert (empty {| columns := schema; data := rows |} = false) as ->
        by (destruct rows; [congruence|reflexivity]).
    rewrite Hrun, (detail_section_spec session kept Hkept). reflexivity.
  - clear Hk. destruct kept as [|row kept']; [exact Hbody|].
    destruct Hbody as (o & -> & Hov). exists o. split; [reflexivity|].
    destruct (overview_spec (row :: kept') (loaded_row_length _ Hkept)) as (rates & _ & Hov').
    rewrite Hov' in Hov. injection Hov as <-. reflexivity.
Qed.

(** X21. With nothing deselected in the side bar, no loaded row is
    filtered out: the overview counts every row of the loaded frame and
    the detail table shows every row, in the same order. *)
Theorem script_default_session (env : Env) (fmt : Z -> string)
    (items : list (string * DataFrame)) (df : DataFrame) :
  os_path_exists env "data" = true ->
  pd_read_excel env EXCEL_FILE_PATH = inr items ->
  Forall (fun item => rectangular item.2) items ->
  (load_data env EXCEL_FILE_PATH).1 = inr (Some df) ->
  data df <> [] ->
  exists o,
    (script env (default_session fmt) ∅).1.1
    = inr (Shown o,
           ({| columns := display_labels; data := map (display_row fmt) (data df) |},
            map (fun row => map style_practices (practice_cells row)) (data df)))
    /\ criancas_monitoradas o = length (data df).
Proof.
  intros Hex Hrd Hrect Hload Hne.
  destruct (script_loaded env (default_session fmt) items df Hex Hrd Hrect Hload Hne)
    as (names & _ & Hrows & Hrun).
  cbn zeta in Hrun. cbn [multiselect_units multiselect_classifications default_session] in Hrun.
  rewrite filter_all in Hrun.
  - destruct Hrun as (body & Hrun & Hbody).
    destruct (data df) as [|row rows]; [congruence|].
    destruct Hbody as (o & -> & Hcount). exists o. split; [exact Hrun|exact Hcount].
  - intros row Hrow. destruct (Hrows row Hrow) as (Hlen & unit & Hunit & Hin).
    unfold row_selected. rewrite (scored_row_base row 15 Hlen) by lia.
    rewrite (scored_row_class row Hlen), Hunit. cbn [isin].
    apply andb_true_iff. split; apply bool_decide_eq_true.
    + apply elem_of_py_sorted. exact Hin.
    + apply classification_label_listed.
Qed.

Lemma script_default_session_witness :
  exists o,
    (script (PageSamples.env_page (inr Samples.clinic_a))
            (default_session PageSamples.fmt_plain) ∅).1.1
    = inr (Shown o,
           ({| columns := display_labels;
               data := map (display_row PageSamples.fmt_plain)
                           (data Samples.clinic_a_loaded) |},
            map (fun row => map style_practices (practice_cells row))
                (data Samples.clinic_a_loaded)))
    /\ criancas_monitoradas o = 2%nat.
Proof.
  apply (script_default_session (PageSamples.env_page (inr Samples.clinic_a))
           PageSamples.fmt_plain Samples.clinic_a Samples.clinic_a_loaded).
  - reflexivity.
  - reflexivity.
  - repeat constructor.
  - reflexivity.
  - discriminate.
Defined.

(** ** Which exceptions the script can raise *)

Lemma uncaught_error {A : Type} (r : Exn + A) (e : ScriptError) :
  uncaught r = inl e -> is_name_error e = false.
Proof. destruct r; intros [= <-]; reflexivity. Qed.

Lemma apply_get_classification_error (col : list Cell) (e : ScriptError) :
  apply_get_classification col = inl e -> is_name_error e = false.
Proof.
  induction col as [|c col IH]; [discriminate|]. cbn [apply_get_classification].
  destruct c; cbn [classify_cell];
    try (intros [= <-]; reflexivity);
    destruct (apply_get_classification col); try discriminate;
    intros [= <-]; apply IH; reflexivity.
Qed.

Lemma as_strings_error (col : list Cell) (e : ScriptError) :
  as_strings col = inl e -> is_name_error e = false.
Proof.
  induction col as [|c col IH]; [discriminate|]. cbn [as_strings].
  destruct c; try (intros [= <-]; reflexivity).
  destruct (as_strings col); [|discriminate]. intros [= <-]. apply IH. reflexivity.
Qed.

Lemma numbers_error (col : list Cell) (e : ScriptError) :
  numbers col = inl e -> is_name_error e = false.
Proof.
  induction col as [|c col IH]; [discriminate|]. cbn [numbers].
  destruct c; try (intros [= <-]; reflexivity);
    destruct (numbers col); try discriminate; intros [= <-]; apply IH; reflexivity.
Qed.

Lemma dt_strftime_error (fmt : Z -> string) (col : list Cell) (e : ScriptError) :
  dt_strftime fmt col = inl e -> is_name_error e = false.
Proof.
  induction col as [|c col IH]; [discriminate|]. cbn [dt_strftime].
  destruct c; try (intros [= <-]; reflexivity);
    destruct (dt_strftime fmt col); try discriminate; intros [= <-]; apply IH; reflexivity.
Qed.

(** Case analysis on every step of a sequence of binds in [H]. *)
Ltac bind_cases H :=
  unfold mbind, Script_bind, mret, Script_ret in H;
  repeat match type of H with
         | context [match ?x with inl _ => _ | inr _ => _ end] =>
             let E := fresh "E" in destruct x eqn:E
         | context [if ?b then _ else _] => destruct b
         end;
  try discriminate H.

Ltac error_kind :=
  match goal with
  | E : uncaught _ = inl ?e |- is_name_error ?e = false => exact (uncaught_error _ _ E)
  | E : apply_get_classification _ = inl ?e |- is_name_error ?e = false =>
      exact (apply_get_classification_error _ _ E)
  | E : as_strings _ = inl ?e |- is_name_error ?e = false => exact (as_strings_error _ _ E)
  | E : numbers _ = inl ?e |- is_name_error ?e = false => exact (numbers_error _ _ E)
  | E : dt_strftime _ _ = inl ?e |- is_name_error ?e = false =>
      exact (dt_strftime_error _ _ _ E)
  end.

Lemma add_scores_error (df : DataFrame) (e : ScriptError) :
  add_scores df = inl e -> is_name_error e = false.
Proof.
  unfold add_scores. intros H. bind_cases H; injection H as <-; error_kind.
Qed.

Lemma filter_frame_error (su sc : list string) (df : DataFrame) (e : ScriptError) :
  filter_frame su sc df = inl e -> is_name_error e = false.
Proof.
  unfold filter_frame. intros H. bind_cases H; injection H as <-; error_kind.
Qed.

Lemma overview_error (df : DataFrame) (e : ScriptError) :
  overview df = inl e -> is_name_error e = false.
Proof.
  unfold overview. intros H. bind_cases H; injection H as <-; error_kind.
Qed.

Lemma scored_section_outcome (session : Session) (df : DataFrame) :
  match scored_section session df with
  | inl e => is_name_error e = false
  | inr (_, binding) => binding <> None
  end.
Proof.
  unfold scored_section.
  destruct (add_scores df) as [e|df'] eqn:Hadd;
    [exact (add_scores_error _ _ Hadd)|]. cbn [mbind Script_bind].
  destruct (uncaught (getitem "Unidade" df')) as [e|unidade] eqn:Hu;
    [exact (uncaught_error _ _ Hu)|]. cbn [mbind Script_bind].
  destruct (as_strings (unique unidade)) as [e|names] eqn:Hn;
    [exact (as_strings_error _ _ Hn)|]. cbn [mbind Script_bind].
  destruct (filter_frame _ _ df') as [e|df_filtered] eqn:Hf;
    [exact (filter_frame_error _ _ _ _ Hf)|]. cbn [mbind Script_bind].
  destruct (empty df_filtered); [discriminate|].
  destruct (overview df_filtered) as [e|o] eqn:Ho;
    [exact (overview_error _ _ Ho)|]. cbn [mbind Script_bind]. discriminate.
Qed.

Lemma detail_section_bound (session : Session) (df_filtered : DataFrame)
    (e : ScriptError) :
  detail_section session (Some df_filtered) = inl e -> is_name_error e = false.
Proof.
  unfold detail_section. cbn [mbind Script_bind]. intros H.
  bind_cases H; injection H as <-; error_kind.
Qed.

(** X22. The detail table is built after the branches, whichever was
    taken, from a variable that only the data branch binds.  The script
    therefore ends in [NameError: df_filtered] exactly when the data
    folder is missing, or the load gave no frame, or it gave a frame
    without rows; on a first run that is when the folder or the file is
    missing, the reader fails, no sheet passes the width gate, or no row
    has both a name and a birth date. *)
Theorem script_name_error (env : Env) (session : Session)
    (cache : gmap string (option DataFrame * list Diagnostic)) :
  ((script env session cache).1.1 = inl (NameError "df_filtered")
   <-> nothing_loaded env cache = true)
  /\ (forall name, (script env session cache).1.1 = inl (NameError name) ->
                   name = "df_filtered")
  /\ (nothing_loaded env ∅ = true
      <-> os_path_exists env "data" = false
          \/ accepted_sheets env EXCEL_FILE_PATH = []
          \/ exists items,
               pd_read_excel env EXCEL_FILE_PATH = inr items
               /\ kept_rows items = []).
Proof.
  assert (forall name,
             (script env session cache).1.1 = inl (NameError name) ->
             name = "df_filtered" /\ nothing_loaded env cache = true) as Honly.
  { intros name. rewrite script_result, main_section_result. unfold nothing_loaded.
    destruct (os_path_exists env "data"); cbn [negb orb];
      [|intros [= <-]; split; reflexivity].
    destruct ((load_data_cached env EXCEL_FILE_PATH cache).1.1) as [e|[df|]];
      [discriminate| |intros [= <-]; split; reflexivity].
    destruct (empty df); [intros [= <-]; split; reflexivity|].
    pose proof (scored_section_outcome session df) as Hout.
    destruct (scored_section session df) as [e|[body binding]].
    - intros [= ->]. discriminate Hout.
    - destruct binding as [df_filtered|]; [|congruence].
      destruct (detail_section session (Some df_filtered)) as [e|table] eqn:Hd;
        [|discriminate].
      intros [= ->]. apply detail_section_bound in Hd. discriminate Hd. }
  split; [split|split].
  - intros H. apply (Honly _ H).
  - rewrite script_result, main_section_result. unfold nothing_loaded.
    destruct (os_path_exists env "data"); cbn [negb orb]; [|reflexivity].
    destruct ((load_data_cached env EXCEL_FILE_PATH cache).1.1) as [e|[df|]];
      [discriminate| |reflexivity].
    destruct (empty df); [reflexivity|discriminate].
  - intros name H. apply (Honly _ H).
  - unfold nothing_loaded. rewrite load_data_cached_fresh, load_data_value.
    unfold accepted_sheets, loaded_frame.
    destruct (os_path_exists env "data"); cbn [negb orb]; [|tauto].
    destruct (os_path_exists env EXCEL_FILE_PATH); [|tauto].
    destruct (pd_read_excel env EXCEL_FILE_PATH) as [e|items]; [tauto|].
    destruct (List.filter sheet_accepted items) as [|it its] eqn:Hacc; [tauto|].
    unfold empty. cbn [data columns]. unfold dated_rows.
    split.
    + intros Hempty. right. right. exists items. split; [reflexivity|].
      destruct (kept_rows items); [reflexivity|discriminate Hempty].
    + intros [H|[H|(items' & [= <-] & Hkept)]]; try discriminate H.
      rewrite Hkept. reflexivity.
Qed.

Lemma script_name_error_witness :
  (script (PageSamples.env_page (inr Samples.all_filtered))
          (default_session PageSamples.fmt_plain) ∅).1.1
  = inl (NameError "df_filtered")
  /\ (script (Samples.env_with (inr Samples.clinic_a))
             (default_session PageSamples.fmt_plain) ∅).1.1
     = inl (NameError "df_filtered").
Proof.
  split.
  - apply (script_name_error (PageSamples.env_page (inr Samples.all_filtered))
             (default_session PageSamples.fmt_plain) ∅).
    reflexivity.
  - apply (script_name_error (Samples.env_with (inr Samples.clinic_a))
             (default_session PageSamples.fmt_plain) ∅).
    reflexivity.
Defined.

(** * The width gate on the sheet as read *)

(** ** What the removal of empty columns keeps *)

Lemma select_positions {A : Type} (p : nat -> bool) (d : A) (k n : nat) (l : list A) :
  (n <= length l)%nat ->
  select (map p (seq k n)) l
  = map (fun j => nth (j - k) l d) (List.filter p (seq k n)).
Proof.
  revert k l. induction n as [|n IH]; intros k l Hlen.
  - destruct l; reflexivity.
  - destruct l as [|x l]; [cbn in Hlen; lia|]. cbn in Hlen.
    cbn [seq map select List.filter].
    rewrite (IH (S k) l) by lia.
    assert (map (fun j => nth (j - S k) l d) (List.filter p (seq (S k) n))
            = map (fun j => nth (j - k) (x :: l) d) (List.filter p (seq (S k) n))) as Hshift.
    { apply map_ext_in. intros j Hj. apply List.filter_In in Hj as [Hj _].
      apply in_seq in Hj. replace (j - k)%nat with (S (j - S k)) by lia. reflexivity. }
    rewrite Hshift. destruct (p k); [|reflexivity].
    cbn [map]. rewrite Nat.sub_diag. reflexivity.
Qed.

Lemma not_column_empty (df : DataFrame) (j : nat) :
  negb (column_empty df j) = existsb (fun row => notna (cell_at j row)) (data df).
Proof.
  unfold column_empty. induction (data df) as [|row rows IH]; [reflexivity|].
  cbn [forallb existsb]. rewrite negb_andb, IH. reflexivity.
Qed.

Lemma column_mask_nonempty (df : DataFrame) :
  column_mask df = map (fun j => negb (column_empty df j)) (seq 0 (length (columns df))).
Proof.
  unfold column_mask. apply map_ext. intros j. symmetry. apply not_column_empty.
Qed.

Lemma select_column_mask {A : Type} (d : A) (df : DataFrame) (l : list A) :
  (length (columns df) <= length l)%nat ->
  select (column_mask df) l = map (fun j => nth j l d) (nonempty_positions df).
Proof.
  intros Hlen. rewrite column_mask_nonempty.
  rewrite (select_positions _ d 0 (length (columns df)) l Hlen).
  apply map_ext. intros j. rewrite Nat.sub_0_r. reflexivity.
Qed.

Lemma dropna_axis1_all_width (df : DataFrame) :
  length (columns (dropna_axis1_all df)) = length (nonempty_positions df).
Proof.
  unfold dropna_axis1_all. cbn [columns].
  rewrite (select_column_mask EmptyString df (columns df)) by lia.
  apply length_map.
Qed.

Lemma dropna_axis1_all_rows (df : DataFrame) :
  rectangular df ->
  data (dropna_axis1_all df)
  = map (fun row => map (fun j => cell_at j row) (nonempty_positions df)) (data df).
Proof.
  intros Hrect. unfold dropna_axis1_all. cbn [data].
  apply map_ext_in. intros row Hrow.
  unfold rectangular in Hrect. rewrite Forall_forall in Hrect.
  apply (select_column_mask NaN df row).
  rewrite (Hrect row) by (apply list_elem_of_In; exact Hrow). lia.
Qed.

Lemma elem_of_nonempty_positions (df : DataFrame) (j : nat) :
  j ∈ nonempty_positions df
  <-> (j < length (columns df))%nat
      /\ exists row, row ∈ data df /\ isna (cell_at j row) = false.
Proof.
  unfold nonempty_positions.
  rewrite list_elem_of_In, List.filter_In, in_seq, not_column_empty, existsb_exists.
  split.
  - intros [[_ Hlt] (row & Hin & Hrow)]. split; [exact Hlt|].
    exists row. split; [apply list_elem_of_In; exact Hin|].
    unfold notna in Hrow. apply negb_true_iff. exact Hrow.
  - intros [Hlt (row & Hin & Hrow)]. split; [lia|].
    exists row. split; [apply list_elem_of_In; exact Hin|].
    unfold notna. rewrite Hrow. reflexivity.
Qed.

Lemma sheet_accepted_positions (unit_name : string) (df : DataFrame) :
  sheet_accepted (unit_name, df) = (15 <=? length (nonempty_positions df))%nat.
Proof. unfold sheet_accepted. cbn [snd]. rewrite dropna_axis1_all_width. reflexivity. Qed.

Lemma tagged_rows_positions (unit_name : string) (df : DataFrame) :
  rectangular df ->
  tagged_rows (unit_name, df)
  = map (fun row => map (fun j => cell_at j row) (firstn 15 (nonempty_positions df))
                    ++ [Str (PyStr.strip unit_name)])
        (data df).
Proof.
  intros Hrect. unfold tagged_rows. cbn [fst snd].
  rewrite (dropna_axis1_all_rows df Hrect), map_map.
  apply map_ext. intros row. rewrite firstn_map. reflexivity.
Qed.

Lemma filter_seq_lookup (p : nat -> bool) (k n j i : nat) :
  List.filter p (seq k n) !! j = Some i ->
  j = length (List.filter p (seq k (i - k)))
  /\ (k <= i < k + n)%nat /\ p i = true.
Proof.
  revert k j. induction n as [|n IH]; intros k j Hj; [discriminate Hj|].
  cbn [seq List.filter] in Hj.
  destruct (p k) eqn:Hpk.
  - destruct j as [|j].
    + injection Hj as <-. rewrite Nat.sub_diag. split; [reflexivity|]. split; [lia|exact Hpk].
    + cbn in Hj. apply IH in Hj as (Hlen & Hrange & Hpi).
      split; [|split; [lia|exact Hpi]].
      replace (i - k)%nat with (S (i - S k)) by lia.
      cbn [seq List.filter]. rewrite Hpk. cbn [length]. rewrite <- Hlen. reflexivity.
  - apply IH in Hj as (Hlen & Hrange & Hpi).
    split; [|split; [lia|exact Hpi]].
    replace (i - k)%nat with (S (i - S k)) by lia.
    cbn [seq List.filter]. rewrite Hpk. exact Hlen.
Qed.


Lemma nonempty_positions_increasing (df : DataFrame) (a b i j : nat) :
  nonempty_positions df !! a = Some i ->
  nonempty_positions df !! b = Some j ->
  (a < b)%nat -> (i < j)%nat.
Proof.
  unfold nonempty_positions. intros Ha Hb Hab.
  apply filter_seq_lookup in Ha as (Ha & _ & _).
  apply filter_seq_lookup in Hb as (Hb & _ & _).
  rewrite Nat.sub_0_r in Ha, Hb.
  destruct (Nat.lt_ge_cases i j) as [Hlt|Hge]; [exact Hlt|].
  replace i with (j + (i - j))%nat in Ha by lia.
  rewrite seq_app, List.filter_app, length_app in Ha. lia.
Qed.

(** C4. Every sheet first loses its entirely empty columns, those in
    which every row is null, the others staying in their order; a sheet
    left with fewer than 15 columns contributes no frame (so no row) and
    one warning that names it, and the loop goes on with the next sheet
    (a frame of [rectangular] shape, as every sheet read by pandas is);
    any other sheet contributes, row
    by row, the cells of its 15 leftmost columns that are not entirely
    empty, under the canonical names in the fixed order, followed by the
    unit column.  The messages of [load_data] on a readable workbook are
    these warnings. *)
Theorem for_sheets_width_gate (items : list (string * DataFrame))
    (list_of_dfs : list DataFrame) :
  Forall (fun item => rectangular item.2) items ->
  for_sheets items list_of_dfs
  = (inr (list_of_dfs
          ++ flat_map
               (fun '(unit_name, df) =>
                  let kept := nonempty_positions df in
                  if (15 <=? length kept)%nat
                  then [ {| columns := column_names ++ ["Unidade"];
                            data :=
                              map (fun row =>
                                     map (fun j => cell_at j row) (firstn 15 kept)
                                     ++ [Str (PyStr.strip unit_name)])
                                  (data df) |} ]
                  else [])
               items),
     flat_map
       (fun '(unit_name, df) =>
          if (15 <=? length (nonempty_positions df))%nat
          then []
          else [st_warning_sheet_ignored unit_name])
       items)
  /\ (forall (df : DataFrame) (j : nat),
        j ∈ nonempty_positions df
        <-> (j < length (columns df))%nat
            /\ exists row, row ∈ data df /\ isna (cell_at j row) = false)
  /\ (forall (df : DataFrame) (a b i j : nat),
        nonempty_positions df !! a = Some i ->
        nonempty_positions df !! b = Some j ->
        (a < b)%nat -> (i < j)%nat)
  /\ (forall (env : Env) (file_path : string),
        os_path_exists env file_path = true ->
        pd_read_excel env file_path = inr items ->
        items <> [] ->
        (load_data env file_path).2
        = flat_map
            (fun '(unit_name, df) =>
               if (15 <=? length (nonempty_positions df))%nat
               then []
               else [st_warning_sheet_ignored unit_name])
            items).
Proof.
  intros Hrect.
  assert (skipped_warnings items
          = flat_map
              (fun '(unit_name, df) =>
                 if (15 <=? length (nonempty_positions df))%nat
                 then []
                 else [st_warning_sheet_ignored unit_name])
              items) as Hwarn.
  { rewrite skipped_warnings_flat_map. apply flat_map_ext. intros [unit_name df].
    rewrite sheet_accepted_positions. reflexivity. }
  split; [|split; [|split]].
  - rewrite for_sheets_spec, Hwarn, accepted_frames_flat_map. f_equal. f_equal. f_equal.
    clear Hwarn. induction Hrect as [|[unit_name df] items Hdf _ IH]; [reflexivity|].
    cbn [flat_map]. rewrite IH, sheet_accepted_positions. f_equal.
    cbn zeta. destruct (15 <=? length (nonempty_positions df))%nat; [|reflexivity].
    unfold normalized_frame, schema. cbn [snd] in Hdf.
    rewrite (tagged_rows_positions unit_name df Hdf). reflexivity.
  - apply elem_of_nonempty_positions.
  - apply nonempty_positions_increasing.
  - intros env file_path Hex Hrd Hne.
    rewrite (load_data_sheets env file_path items Hex Hrd Hne). exact Hwarn.
Qed.

(** A sheet of 16 columns whose third column is empty is ingested, the
    cells to the right of that column under the names one place to the
    left; a sheet of 15 columns with no value for practice C is skipped
    with a warning naming it. *)
Lemma for_sheets_width_gate_witness :
  for_sheets GapSamples.gap_units []
  = (inr [GapSamples.gap_frame], [st_warning_sheet_ignored "Hole"])
  /\ nonempty_positions GapSamples.gap_sheet
     = [0; 1; 3; 4; 5; 6; 7; 8; 9; 10; 11; 12; 13; 14; 15]%nat
  /\ length (nonempty_positions GapSamples.hole_sheet) = 14%nat.
Proof.
  destruct (for_sheets_width_gate GapSamples.gap_units []) as (Hloop & _ & _).
  - repeat constructor.
  - rewrite Hloop. repeat split; reflexivity.
Defined.

(** * Two runs on the same file *)

(** The same file, read on two different days.  The file system and the workbook are the same in both runs; the
    birth-date cell holds the text "today", which [pd.to_datetime] reads
    as the day of the call, so the two frames differ in the birth date. *)
Lemma same_file_different_datasets :
  os_path_exists (ClockSamples.env_at 20250101 (inr ClockSamples.born_today))
  = os_path_exists (ClockSamples.env_at 20250102 (inr ClockSamples.born_today))
  /\ pd_read_excel (ClockSamples.env_at 20250101 (inr ClockSamples.born_today))
     = pd_read_excel (ClockSamples.env_at 20250102 (inr ClockSamples.born_today))
  /\ (load_data (ClockSamples.env_at 20250101 (inr ClockSamples.born_today))
        Samples.EXCEL_FILE_PATH).1
     <> (load_data (ClockSamples.env_at 20250102 (inr ClockSamples.born_today))
           Samples.EXCEL_FILE_PATH).1
  /\ (load_data_cached (ClockSamples.env_at 20250101 (inr ClockSamples.born_today))
        Samples.EXCEL_FILE_PATH ∅).1
     <> (load_data_cached (ClockSamples.env_at 20250102 (inr ClockSamples.born_today))
           Samples.EXCEL_FILE_PATH ∅).1
  /\ exists row1 row2,
       (load_data (ClockSamples.env_at 20250101 (inr ClockSamples.born_today))
          Samples.EXCEL_FILE_PATH).1
       = inr (Some {| columns := schema; data := [row1] |})
       /\ (load_data (ClockSamples.env_at 20250102 (inr ClockSamples.born_today))
             Samples.EXCEL_FILE_PATH).1
          = inr (Some {| columns := schema; data := [row2] |})
       /\ cell_at 1 row1 = Timestamp 20250101
       /\ cell_at 1 row2 = Timestamp 20250102.
Proof.
  split; [reflexivity|]. split; [reflexivity|].
  split; [vm_compute; intros H; discriminate H|].
  split; [vm_compute; intros H; discriminate H|].
  eexists _, _. repeat split; reflexivity.
Qed.

Lemma erase_dated_rows (env : Env) (rows : list (list Cell)) :
  map (fun row => <[1%nat := NaN]> row) (dated_rows env rows)
  = map (fun row => <[1%nat := NaN]> row) rows.
Proof. apply dated_rows_other_cells. Qed.

(** C9, amended. Two runs of [load_data] that find the same file and
    read the same workbook show the same messages and either both return
    no data or both return a frame; the two frames have the same labels
    and the same rows in the same order: the rows of the accepted sheets,
    sheet after sheet in workbook order and row after row within a sheet,
    without those that fail the required-field filter, and with the same
    value in every field but the birth date.  The birth dates are the
    same as well whenever the date parser answers alike on the birth-date
    column in both runs, which the file alone does not ensure. *)
Theorem load_data_same_file (env1 env2 : Env) (file_path : string) :
  os_path_exists env1 file_path = os_path_exists env2 file_path ->
  pd_read_excel env1 file_path = pd_read_excel env2 file_path ->
  (load_data env1 file_path).2 = (load_data env2 file_path).2
  /\ (((load_data env1 file_path).1 = inr None
       /\ (load_data env2 file_path).1 = inr None)
      \/ exists items df1 df2,
           pd_read_excel env1 file_path = inr items
           /\ (load_data env1 file_path).1 = inr (Some df1)
           /\ (load_data env2 file_path).1 = inr (Some df2)
           /\ columns df1 = columns df2
           /\ let rows :=
                List.filter required_present
                  (concat (map tagged_rows (List.filter sheet_accepted items))) in
              map (fun row => <[1%nat := NaN]> row) (data df1)
              = map (fun row => <[1%nat := NaN]> row) rows
              /\ map (fun row => <[1%nat := NaN]> row) (data df2)
                 = map (fun row => <[1%nat := NaN]> row) rows
              /\ (pd_to_datetime env1 (map (cell_at 1) rows)
                  = pd_to_datetime env2 (map (cell_at 1) rows) ->
                  df1 = df2)).
Proof.
  intros Hex Hrd. split.
  - destruct (os_path_exists env1 file_path) eqn:Hex1; symmetry in Hex.
    + destruct (pd_read_excel env1 file_path) as [e|items] eqn:Hrd1; symmetry in Hrd.
      * rewrite (load_data_unreadable env1 file_path e Hex1 Hrd1),
          (load_data_unreadable env2 file_path e Hex Hrd). reflexivity.
      * destruct items as [|item items].
        -- rewrite (load_data_no_sheets env1 file_path Hex1 Hrd1),
             (load_data_no_sheets env2 file_path Hex Hrd). reflexivity.
        -- rewrite (load_data_sheets env1 file_path _ Hex1 Hrd1),
             (load_data_sheets env2 file_path _ Hex Hrd) by discriminate. reflexivity.
    + rewrite (load_data_missing env1 file_path Hex1),
        (load_data_missing env2 file_path Hex). reflexivity.
  - rewrite !load_data_value, <- Hex, <- Hrd.
    destruct (os_path_exists env1 file_path); [|left; split; reflexivity].
    destruct (pd_read_excel env1 file_path) as [e|items]; [left; split; reflexivity|].
    unfold loaded_frame.
    destruct (List.filter sheet_accepted items) as [|it its] eqn:Hacc;
      [left; split; reflexivity|].
    right. eexists items, _, _. split; [reflexivity|].
    split; [reflexivity|]. split; [reflexivity|]. split; [reflexivity|].
    cbn zeta. cbn [data]. unfold kept_rows, combined_rows. rewrite Hacc.
    split; [apply erase_dated_rows|]. split; [apply erase_dated_rows|].
    intros Hparse. unfold dated_rows. rewrite Hparse. reflexivity.
Qed.

(** The same workbook read on two different days: the two frames agree
    on everything but the birth date. *)
Lemma load_data_same_file_witness :
  (load_data (ClockSamples.env_at 20250101 (inr ClockSamples.born_today))
     Samples.EXCEL_FILE_PATH).2
  = (load_data (ClockSamples.env_at 20250102 (inr ClockSamples.born_today))
       Samples.EXCEL_FILE_PATH).2
  /\ exists df1 df2,
       (load_data (ClockSamples.env_at 20250101 (inr ClockSamples.born_today))
          Samples.EXCEL_FILE_PATH).1 = inr (Some df1)
       /\ (load_data (ClockSamples.env_at 20250102 (inr ClockSamples.born_today))
             Samples.EXCEL_FILE_PATH).1 = inr (Some df2)
       /\ columns df1 = columns df2
       /\ map (fun row => <[1%nat := NaN]> row) (data df1)
          = map (fun row => <[1%nat := NaN]> row) (data df2).
Proof.
  destruct (load_data_same_file
              (ClockSamples.env_at 20250101 (inr ClockSamples.born_today))
              (ClockSamples.env_at 20250102 (inr ClockSamples.born_today))
              Samples.EXCEL_FILE_PATH)
    as [Hmsgs Hrows].
  - reflexivity.
  - reflexivity.
  - split; [exact Hmsgs|].
    destruct Hrows as [[Hnone _]|(items & df1 & df2 & _ & H1 & H2 & Hcols & Hrows)].
    + vm_compute in Hnone. discriminate Hnone.
    + cbn zeta in Hrows. destruct Hrows as (Hr1 & Hr2 & _).
      exists df1, df2. split; [exact H1|]. split; [exact H2|]. split; [exact Hcols|].
      rewrite Hr1, Hr2. reflexivity.
Defined.

(** * Which column of the sheet a canonical name lands on *)



(** * The rows the side-bar filters keep *)

Lemma row_selected_iff (selected_units selected_classifications : list string)
    (row : list Cell) :
  row_selected selected_units selected_classifications row = true
  <-> (exists unit, cell_at 15 row = Str unit /\ unit ∈ selected_units)
      /\ (exists tier, cell_at 17 row = Str tier /\ tier ∈ selected_classifications).
Proof.
  unfold row_selected, isin. rewrite andb_true_iff. split.
  - intros [Hu Hc].
    destruct (cell_at 15 row) as [| |u| | |]; try discriminate Hu.
    destruct (cell_at 17 row) as [| |t| | |]; try discriminate Hc.
    apply bool_decide_eq_true in Hu. apply bool_decide_eq_true in Hc.
    split; [exists u|exists t]; split; first [reflexivity | assumption].
  - intros [(u & -> & Hu) (t & -> & Hc)].
    split; apply bool_decide_eq_true; assumption.
Qed.

(** X16. On a frame with the scored schema, where the unit is the cell
    at position 15 and the tier the cell at position 17, the two side-bar
    filters return the frame with the same labels whose rows are the rows
    of the frame, each as often as it occurs and in the original order,
    whose unit is a string among the selected units and whose tier is a
    string among the selected tiers; every other row is left out and no
    label lookup fails.  [keep] is any test that decides that condition. *)
Theorem filter_frame_selected_rows (selected_units selected_classifications : list string)
    (df : DataFrame) (keep : list Cell -> bool) :
  columns df = scored_schema ->
  (forall row,
     keep row = true
     <-> (exists unit, cell_at 15 row = Str unit /\ unit ∈ selected_units)
         /\ (exists tier, cell_at 17 row = Str tier
                          /\ tier ∈ selected_classifications)) ->
  index_of "Unidade" (columns df) = Some 15%nat
  /\ index_of col_Classificacao (columns df) = Some 17%nat
  /\ filter_frame selected_units selected_classifications df
     = inr {| columns := columns df; data := List.filter keep (data df) |}.
Proof.
  destruct df as [cols rows]. cbn [columns data]. intros -> Hkeep.
  split; [reflexivity|]. split; [reflexivity|].
  rewrite filter_frame_spec. f_equal. f_equal.
  apply List.filter_ext. intros row.
  apply eq_true_iff_eq. rewrite row_selected_iff, Hkeep. reflexivity.
Qed.

(** Two children of the same unit with the same cells are both kept. *)
Lemma filter_frame_selected_rows_witness :
  filter_frame ["UBS Norte"] all_classifications
    {| columns := scored_schema;
       data := [ scored_row (Samples.joao ++ [Str "UBS Centro"]);
                 scored_row (Samples.maria_unparseable ++ [Str "UBS Norte"]);
                 scored_row (Samples.joao ++ [Str "UBS Sul"]);
                 scored_row (Samples.maria_unparseable ++ [Str "UBS Norte"]) ] |}
  = inr {| columns := scored_schema;
           data := [ scored_row (Samples.maria_unparseable ++ [Str "UBS Norte"]);
                     scored_row (Samples.maria_unparseable ++ [Str "UBS Norte"]) ] |}.
Proof.
  destruct (filter_frame_selected_rows ["UBS Norte"] all_classifications
              {| columns := scored_schema;
                 data := [ scored_row (Samples.joao ++ [Str "UBS Centro"]);
                           scored_row (Samples.maria_unparseable ++ [Str "UBS Norte"]);
                           scored_row (Samples.joao ++ [Str "UBS Sul"]);
                           scored_row (Samples.maria_unparseable ++ [Str "UBS Norte"]) ] |}
              (row_selected ["UBS Norte"] all_classifications))
    as (_ & _ & Hrun).
  - reflexivity.
  - apply row_selected_iff.
  - rewrite Hrun. reflexivity.
Defined.

(** * The page for a side-bar selection *)

Lemma as_strings_inr (col : list Cell) (names : list string) :
  as_strings col = inr names -> col = map Str names.
Proof.
  revert names. induction col as [|c col IH]; intros names Hnames.
  - injection Hnames as <-. reflexivity.
  - destruct c as [| |s| | |]; try discriminate Hnames. cbn [as_strings] in Hnames.
    destruct (as_strings col) as [e|l]; [discriminate Hnames|].
    injection Hnames as <-. cbn [map]. rewrite (IH l eq_refl). reflexivity.
Qed.

Lemma unit_names_spec (rows : list (list Cell)) (names : list string) :
  as_strings (unique (map (cell_at 15) rows)) = inr names ->
  forall s,
    s ∈ py_sorted names <-> exists row, row ∈ rows /\ cell_at 15 row = Str s.
Proof.
  intros Hnames s. apply as_strings_inr in Hnames.
  rewrite elem_of_py_sorted.
  transitivity (Str s ∈ unique (map (cell_at 15) rows)).
  - rewrite Hnames, list_elem_of_fmap. split.
    + intros Hs. exists s. split; [reflexivity|exact Hs].
    + intros (s' & [= ->] & Hs). exact Hs.
  - rewrite elem_of_unique, list_elem_of_fmap. split.
    + intros (row & Hcell & Hrow). exists row. split; [exact Hrow|]. symmetry. exact Hcell.
    + intros (row & Hrow & Hcell). exists row. split; [symmetry; exact Hcell|exact Hrow].
Qed.

(** X20. When the data folder exists and the workbook, of rectangular
    sheets, gave at least one row, lines 116-259 of the script run without
    an exception whatever is selected in the side bar.  The units offered
    there are the units that occur in the loaded rows.  The rows shown are
    the loaded rows whose unit is among the selected units and whose tier
    label is among the selected tiers, each as often as it was loaded and
    in loaded order: the table handed to the styler has the ten display
    columns and one row for each of them, with one style per practice
    cell; the overview is shown exactly when there is such a row, and then
    counts these rows.  (What the styler and [st.dataframe] do with the
    table, lines 260-270, is outside the model.) *)
Theorem script_selected_rows (env : Env) (session : Session)
    (items : list (string * DataFrame)) (df : DataFrame) :
  os_path_exists env "data" = true ->
  pd_read_excel env EXCEL_FILE_PATH = inr items ->
  Forall (fun item => rectangular item.2) items ->
  (load_data env EXCEL_FILE_PATH).1 = inr (Some df) ->
  data df <> [] ->
  exists (names : list string) (body : Body),
    as_strings (unique (map (cell_at 15) (data df))) = inr names
    /\ (forall s,
          s ∈ py_sorted names
          <-> exists row, row ∈ data df /\ cell_at 15 row = Str s)
    /\ let kept :=
         List.filter
           (fun row =>
              isin (multiselect_units session (py_sorted names)) (cell_at 15 row)
              && bool_decide
                   (classification_label (row_class row)
                    ∈ multiselect_classifications session all_classifications))
           (data df) in
       (script env session ∅).1.1
       = inr (body,
              ({| columns := display_labels;
                  data := map (display_row (strftime session)) kept |},
               map (fun row => map style_practices (practice_cells row)) kept))
       /\ (kept = [] -> body = NoMatch)
       /\ (kept <> [] ->
           exists o, body = Shown o /\ criancas_monitoradas o = length kept).
Proof.
  intros Hex Hrd Hrect Hload Hne.
  destruct (script_loaded env session items df Hex Hrd Hrect Hload Hne)
    as (names & Hnames & Hrows & Hrun).
  cbn zeta in Hrun. destruct Hrun as (body & Hrun & Hbody).
  exists names, body. split; [exact Hnames|].
  split; [apply unit_names_spec; exact Hnames|]. cbn zeta.
  assert (List.filter
            (fun row =>
               row_selected (multiselect_units session (py_sorted names))
                            (multiselect_classifications session all_classifications)
                            (scored_row row))
            (data df)
          = List.filter
              (fun row =>
                 isin (multiselect_units session (py_sorted names)) (cell_at 15 row)
                 && bool_decide
                      (classification_label (row_class row)
                       ∈ multiselect_classifications session all_classifications))
              (data df)) as Hfilter.
  { apply List.filter_ext_in. intros row Hrow. apply list_elem_of_In in Hrow.
    destruct (Hrows row Hrow) as (Hlen & _). unfold row_selected.
    rewrite (scored_row_base row 15 Hlen) by lia.
    rewrite (scored_row_class row Hlen). reflexivity. }
  rewrite Hfilter in Hrun, Hbody. split; [exact Hrun|].
  destruct (List.filter _ (data df)) as [|row kept'].
  - split; [intros _; exact Hbody|congruence].
  - split; [discriminate|intros _; exact Hbody].
Qed.

(** Two units loaded, one selected: the page shows the one child of that
    unit. *)
Lemma script_selected_rows_witness :
  exists (body : Body) (o : Overview),
    (script (PageSamples.env_page (inr Samples.two_units)) PageSamples.only_norte ∅).1.1
    = inr (body,
           ({| columns := display_labels;
               data := [ [ Str "Maria"; NaN; Str "UBS Norte"; Num 60; Str "Bom";
                           Str "OK"; Str "OK"; Str "X"; Str "X"; Str "OK" ] ] |},
            [ [ style_green; style_green; style_red; style_red; style_green ] ]))
    /\ body = Shown o
    /\ criancas_monitoradas o = 1%nat.
Proof.
  destruct (script_selected_rows (PageSamples.env_page (inr Samples.two_units))
              PageSamples.only_norte Samples.two_units PageSamples.two_units_loaded)
    as (names & body & Hnames & _ & Hrun & _ & Hsome).
  - reflexivity.
  - reflexivity.
  - repeat constructor.
  - reflexivity.
  - discriminate.
  - vm_compute in Hnames. injection Hnames as <-.
    destruct Hsome as (o & Hbody & Hcount); [discriminate|].
    exists body, o. split; [rewrite Hrun; reflexivity|].
    split; [exact Hbody|exact Hcount].
Defined.
